(** * LightSpeed examples: the submission and confirmation pipeline

    A shallow embedding of [src/utils.ts], [src/examples/native.ts],
    [src/examples/jupiter.ts] and [src/examples.ts].

    The scripts are sequences of awaited calls on a Solana RPC connection,
    an HTTP client and the console.  Every such call is an oracle of a
    [World]; the script itself is a computation in a state-and-exception
    monad [M] whose state holds what the script leaves behind: the
    diagnostics written to the console, the transaction messages compiled,
    the transactions handed to [sendRawTransaction], the number of status
    polls and the wall clock.

    Conventions.
    - Lamport amounts are JavaScript numbers holding integers: [Z].  The
      one sum the code takes of a lamport amount it is given, in the
      balance guard, is the sum of two doubles ([Number_add]).
      Quotients shown to the user or compared with a ui amount are [Q]:
      a decimal number of at most fifteen significant digits and the
      double nearest to it are taken as one, which the comparison of two
      such numbers allows ([decimal15], [exact_amount]).
    - The [console] of the state holds the [console.warn] and
      [console.error] lines, the diagnostics; the [console.log] progress
      lines (banners, details, "Transaction sent") are not modelled, and
      nothing below speaks of them.
    - Addresses are base58 text, taken as well formed ([new PublicKey]
      does not throw) except in the one script that is shipped with
      texts that are none; SDK constructors that only package data
      ([compileToV0Message], [sign], [serialize]) are total, and the
      instruction builders are, on the amounts they encode ([is_u32],
      [is_u64]).
    - Payload fields of the aggregator that the code dereferences without
      a test are present; the ones it tests are optional. *)

From Stdlib Require Import ZArith NArith QArith Lia Bool.
From stdpp Require Import base strings gmap list.

Local Open Scope string_scope.
Local Open Scope list_scope.
Local Open Scope Z_scope.

(** ** Values of the SDK *)

Abbreviation PublicKey := string.

Record Keypair := { publicKey : PublicKey; secretKey : list Z }.

Record AccountMeta :=
  { pubkey : PublicKey; isSigner : bool; isWritable : bool }.

(** An instruction is what an SDK builder returns; the last constructor is
    [new TransactionInstruction({programId, keys, data})], used for the
    instructions the aggregator sends. *)
Inductive TransactionInstruction :=
| setComputeUnitLimit (units : Z)
| setComputeUnitPrice (microLamports : Z)
| SystemProgram_transfer (fromPubkey toPubkey : PublicKey) (lamports : Z)
| createAssociatedTokenAccountInstruction
    (payer associatedToken owner mint : PublicKey)
| createTransferInstruction
    (source destination owner : PublicKey) (amount : Z)
| newTransactionInstruction
    (programId : PublicKey) (keys : list AccountMeta) (data : string).

Record AddressLookupTableAccount := { tableKey : PublicKey }.

Record TransactionMessage :=
  { payerKey : PublicKey;
    recentBlockhash : string;
    instructions : list TransactionInstruction;
    lookupTables : list AddressLookupTableAccount }.

Record VersionedTransaction :=
  { message : TransactionMessage; signers : list Keypair }.

Inductive Commitment := processed | confirmed | finalized.

(** [status.value] of [getSignatureStatus], when it is not null. *)
Record SignatureStatus :=
  { confirmationStatus : option Commitment; err : option string }.

(** ** Errors and console lines *)

(** The response an axios error carries; [data] is the body, when it is not
    empty. *)
Record HttpResponse := { status : Z; data : option string }.

Inductive Error :=
| JsError (msg : string)
| AxiosError (msg : string) (response : option HttpResponse).

Inductive Level := WARN | ERROR.

Inductive Arg :=
| Str (s : string)
| Num (q : Q)
| Obj (e : Error).

Record LogLine := { level : Level; args : list Arg }.

(** ** The monad of a script *)

Inductive Completion (A : Type) :=
| Normal (a : A)
| Throw (e : Error).
Arguments Normal {A} a.
Arguments Throw {A} e.

Record State :=
  { console : list LogLine;
    built : list TransactionMessage;
    sent : list VersionedTransaction;
    polls : nat;
    clock : N }.

Definition initial : State :=
  {| console := []; built := []; sent := []; polls := 0; clock := 0 |}.

Definition M (A : Type) : Type := State -> Completion A * State.

Definition ret {A} (a : A) : M A := fun s => (Normal a, s).

Definition throw {A} (e : Error) : M A := fun s => (Throw e, s).

Definition bind {A B} (m : M A) (k : A -> M B) : M B :=
  fun s =>
    match m s with
    | (Normal a, s') => k a s'
    | (Throw e, s') => (Throw e, s')
    end.

Definition try_catch {A} (body : M A) (handler : Error -> M A) : M A :=
  fun s =>
    match body s with
    | (Normal a, s') => (Normal a, s')
    | (Throw e, s') => handler e s'
    end.

(** An awaited call whose outcome the world decides. *)
Definition await {A} (c : Completion A) : M A := fun s => (c, s).

Declare Scope script_scope.
Delimit Scope script_scope with script.
Notation "x <- c1 ;; c2" := (bind c1 (fun x => c2))
  (at level 100, c1 at next level, right associativity) : script_scope.
Notation "c1 ;; c2" := (bind c1 (fun _ => c2))
  (at level 100, right associativity) : script_scope.
Local Open Scope script_scope.

Definition write (l : Level) (a : list Arg) : M unit :=
  fun s =>
    (Normal tt,
     {| console := console s ++ [{| level := l; args := a |}];
        built := built s; sent := sent s; polls := polls s;
        clock := clock s |}).

Definition console_warn := write WARN.
Definition console_error := write ERROR.

Definition when (b : bool) (m : M unit) : M unit := if b then m else ret tt.

(** The outcome of a loop run with a bound on its iterations. *)
Inductive LoopResult (A : Type) :=
| Done (a : A)
| OutOfFuel.
Arguments Done {A} a.
Arguments OutOfFuel {A}.

(** ** The world

    What the network, the file system and the aggregator answer.  Calls
    whose answer may change from one call to the next (a submission, a
    status query) are indexed by their rank; the others answer the same
    every time. *)

Record Quote :=
  { outAmount : string; routeLabels : list string; priceImpactPct : string }.

Record JupiterInstruction :=
  { jProgramId : PublicKey; jAccounts : list AccountMeta; jData : string }.

Record SwapInstructions :=
  { computeBudgetInstructions : list JupiterInstruction;
    setupInstructions : option (list JupiterInstruction);
    swapInstruction : JupiterInstruction;
    cleanupInstruction : option JupiterInstruction;
    addressLookupTableAddresses : option (list string) }.

Record World :=
  { (* fs.readFileSync, JSON.parse and Keypair.fromSecretKey *)
    readWallet : string -> Completion Keypair;
    path_resolve : string -> string;
    (* new Connection(endpoint, 'processed'), which raises on a URL it
       does not take *)
    newConnection : string -> Completion unit;
    (* connection *)
    getBalance : PublicKey -> Completion Z;
    getAccountInfo : PublicKey -> Completion (option unit);
    (* .value?.data?.parsed?.info?.tokenAmount?.uiAmount *)
    getParsedAccountInfo : PublicKey -> Completion (option Q);
    getLatestBlockhash : Completion string;
    getAddressLookupTable :
      PublicKey -> Completion (option AddressLookupTableAccount);
    (* the n-th status query: its answer and the time it takes, in ms *)
    getSignatureStatus : nat -> string -> Completion (option SignatureStatus);
    queryTime : nat -> N;
    (* how much longer than asked the n-th setTimeout sleeps, in ms *)
    sleepExtra : nat -> N;
    (* txSenderConnection: the n-th submission *)
    sendRawTransaction : nat -> VersionedTransaction -> Completion string;
    (* spl-token *)
    getAssociatedTokenAddress : PublicKey -> PublicKey -> Completion PublicKey;
    (* axios; [data] of the response, possibly absent *)
    axios_get_quote : string -> string -> Z -> Z -> Completion Quote;
    axios_post_swap_instructions :
      Quote -> PublicKey -> Completion (option SwapInstructions) }.

(** ** JavaScript numbers

    A number is a double.  Every integer of magnitude below [2^53] is one,
    and so is every integer that a 53-bit significand and a power of two
    give.  The sum of two doubles is the double nearest to their exact sum,
    a tie going to the even significand; sums beyond the largest double
    do not arise from amounts that are doubles themselves and 1000000. *)

Definition round_to_double (x : Z) : Z :=
  let a := Z.abs x in
  if a <? 2 ^ 53 then x
  else
    let shift := Z.log2 a - 52 in
    let significand := Z.shiftr a shift in
    let rest := a - Z.shiftl significand shift in
    let half := 2 ^ (shift - 1) in
    let significand' :=
      if (half <? rest) || ((rest =? half) && Z.odd significand)
      then significand + 1 else significand in
    Z.sgn x * Z.shiftl significand' shift.

(** [x + y] on two numbers that hold integers. *)
Definition Number_add (x y : Z) : Z := round_to_double (x + y).

(** The integers the instruction builders of the SDK encode: a [u32] for
    the unit limit, a [u64] for a price or a token amount.  The builders
    raise on other numbers. *)
Definition is_u32 (n : Z) : Prop := 0 <= n < 2 ^ 32.
Definition is_u64 (n : Z) : Prop := 0 <= n < 2 ^ 64.

(** ** utils.ts: configuration *)

Definition LAMPORTS_PER_SOL : Z := 1000000000.
Definition TIPS_VIBE_FEE : Z := 1000000.
Definition TIPS_VIBE_STATION : PublicKey :=
  "53PhM3UTdMQWu5t81wcd35AHGc5xpmHoRjem7GQPvXjA".
Definition PLACEHOLDER_RECIPIENT : string :=
  "So11111111111111111111111111111111111111112".

Record Config :=
  { USE_LIGHTSPEED : bool;
    DEFAULT_RECIPIENT : string;
    WALLET_PATH : string;
    RPC_ENDPOINT : string;
    RPC_LIGHTSPEED_ENDPOINT : string }.

(** An optional string read as a condition: absent and empty are falsy. *)
Definition truthy (o : option string) : option string :=
  match o with
  | Some "" => None
  | _ => o
  end.

Definition getenv (env : gmap string string) (k : string) : option string :=
  truthy (env !! k).

Definition eqb_opt (o : option string) (v : string) : bool :=
  match o with
  | Some x => String.eqb x v
  | None => false
  end.

(** The endpoint of [txSenderConnection], utils.ts line 53. *)
Definition selectedEndpoint (cfg : Config) : string :=
  if USE_LIGHTSPEED cfg then RPC_LIGHTSPEED_ENDPOINT cfg else RPC_ENDPOINT cfg.

(** The top level of utils.ts, lines 19-54: the checks, the constants and
    the two connections. *)
Definition load_config (w : World) (env : gmap string string) : M Config :=
  let use := eqb_opt (env !! "USE_LIGHTSPEED") "true" in
  match getenv env "RPC_ENDPOINT" with
  | None => throw (JsError "RPC_ENDPOINT is not set in .env file")
  | Some rpc =>
    match getenv env "RPC_LIGHTSPEED_ENDPOINT" with
    | None => throw (JsError "RPC_LIGHTSPEED_ENDPOINT is not set in .env file")
    | Some lightspeed =>
      match getenv env "WALLET_PATH" with
      | None => throw (JsError "WALLET_PATH is not set in .env file")
      | Some wallet_path =>
        when (bool_decide (getenv env "DEFAULT_RECIPIENT" = None))
          (console_warn
             [Str
                "DEFAULT_RECIPIENT not set in .env file, using placeholder"]) ;;
        let cfg :=
          {| USE_LIGHTSPEED := use;
             DEFAULT_RECIPIENT :=
               default PLACEHOLDER_RECIPIENT (getenv env "DEFAULT_RECIPIENT");
             WALLET_PATH := path_resolve w wallet_path;
             RPC_ENDPOINT := rpc;
             RPC_LIGHTSPEED_ENDPOINT := lightspeed |} in
        await (newConnection w (RPC_ENDPOINT cfg)) ;;
        await (newConnection w (selectedEndpoint cfg)) ;;
        ret cfg
      end
    end
  end.

(** ** utils.ts: the helpers *)

Section Scripts.

Variable cfg : Config.
Variable w : World.

Definition loadWallet (walletPath : string) : M Keypair :=
  await (readWallet w walletPath).

Definition tipInstruction (fromPubkey : PublicKey) : TransactionInstruction :=
  SystemProgram_transfer fromPubkey TIPS_VIBE_STATION TIPS_VIBE_FEE.

(** [instructions.push] on the caller's array: the array after the call. *)
Definition addLightSpeedTip
    (instructions : list TransactionInstruction) (fromPubkey : PublicKey)
  : list TransactionInstruction :=
  if negb (USE_LIGHTSPEED cfg) then instructions
  else instructions ++ [tipInstruction fromPubkey].

(** [instructions.unshift] of the two directives, on a unit limit and a
    price that [ComputeBudgetProgram] encodes ([is_u32], [is_u64]); the
    scripts call it with its defaults only. *)
Definition addComputeBudget
    (instructions : list TransactionInstruction)
    (computeUnits priorityFee : Z) : list TransactionInstruction :=
  setComputeUnitLimit computeUnits
    :: setComputeUnitPrice priorityFee :: instructions.

Definition default_computeUnits : Z := 200000.
Definition default_priorityFee : Z := 1000.

(** [txSenderConnection.sendRawTransaction(tx.serialize(), ...)]. *)
Definition submit (tx : VersionedTransaction) : M string :=
  fun s =>
    (sendRawTransaction w (length (sent s)) tx,
     {| console := console s; built := built s; sent := sent s ++ [tx];
        polls := polls s; clock := clock s |}).

(** The [for] loop of [sendTxWithRetries]: [remaining] iterations are left
    and the loop variable is [attempt]. *)
Fixpoint sendTx_loop (tx : VersionedTransaction) (maxAttempts : nat)
    (remaining attempt : nat) : M (option string) :=
  match remaining with
  | O => ret None
  | S remaining' =>
    returned <-
      try_catch
        (signature <- submit tx ;;
         if String.eqb signature "" then throw (JsError "No signature returned")
         else ret (Some signature))
        (fun error =>
           console_error
             [Str "Attempt "; Num (inject_Z (Z.of_nat attempt));
              Str " failed:"; Obj error] ;;
           when (Nat.eqb attempt maxAttempts)
             (console_error [Str "Max retries reached"]) ;;
           ret None) ;;
    match returned with
    | Some signature => ret (Some signature)
    | None => sendTx_loop tx maxAttempts remaining' (S attempt)
    end
  end.

Definition sendTxWithRetries (tx : VersionedTransaction) (maxAttempts : nat)
  : M (option string) :=
  sendTx_loop tx maxAttempts maxAttempts 1.

Definition default_maxAttempts : nat := 3.

Definition in_SOL (lamports : Z) : Q :=
  (inject_Z lamports / inject_Z LAMPORTS_PER_SOL)%Q.

Definition for_description (description : option string) : string :=
  match description with
  | Some d => if String.eqb d "" then "" else String.append " for " d
  | None => ""
  end.

Definition checkBalanceForOperations
    (wallet : Keypair) (requiredLamports : Z) (description : option string)
  : M bool :=
  balance <- await (getBalance w (publicKey wallet)) ;;
  let totalRequired :=
    if USE_LIGHTSPEED cfg then Number_add requiredLamports TIPS_VIBE_FEE
    else requiredLamports in
  if balance <? totalRequired then
    console_error
      [Str (String.append "Insufficient balance"
              (for_description description))] ;;
    console_error [Str "Have: "; Num (in_SOL balance); Str " SOL"] ;;
    console_error [Str "Need: "; Num (in_SOL totalRequired); Str " SOL"] ;;
    when (USE_LIGHTSPEED cfg)
      (console_error
         [Str "(includes "; Num (in_SOL TIPS_VIBE_FEE);
          Str " SOL LightSpeed tip)"]) ;;
    ret false
  else
    ret true.

(** [Date.now()]. *)
Definition Date_now : M N := fun s => (Normal (clock s), s).

Definition advance (ms : N) (s : State) : State :=
  {| console := console s; built := built s; sent := sent s;
     polls := polls s; clock := clock s + ms |}.

(** [await connection.getSignatureStatus(signature)]: the query takes the
    time the world says, then the poll counter moves on. *)
Definition poll (signature : string) : M (option SignatureStatus) :=
  fun s =>
    (getSignatureStatus w (polls s) signature,
     {| console := console s; built := built s; sent := sent s;
        polls := S (polls s);
        clock := (clock s + queryTime w (polls s))%N |}).

(** [await new Promise(resolve => setTimeout(resolve, ms))], after the
    [n]-th poll: a timer never fires early. *)
Definition sleep (ms : N) : M unit :=
  fun s => (Normal tt, advance (ms + sleepExtra w (pred (polls s)))%N s).

Definition is_confirmed (value : option SignatureStatus) : bool :=
  match value with
  | Some v =>
    match confirmationStatus v with
    | Some confirmed | Some finalized => true
    | _ => false
    end
  | None => false
  end.

Definition has_err (value : option SignatureStatus) : option string :=
  match value with
  | Some v => err v
  | None => None
  end.

(** The [while] loop of [monitorTransactionStatus], at most [fuel] turns. *)
Fixpoint monitor_loop (fuel : nat) (signature : string)
    (startTime maxWaitTime : N) : M (LoopResult (option SignatureStatus)) :=
  match fuel with
  | O => ret OutOfFuel
  | S fuel' =>
    now <- Date_now ;;
    if (now - startTime <? maxWaitTime)%N then
      value <- poll signature ;;
      if is_confirmed value then ret (Done value)
      else
        match has_err value with
        | Some e =>
          console_error [Str "Transaction failed: "; Str e] ;;
          ret (Done None)
        | None =>
          sleep 1000 ;;
          monitor_loop fuel' signature startTime maxWaitTime
        end
    else
      console_error [Str "Transaction confirmation timeout"] ;;
      ret (Done None)
  end.

(** Every turn of the loop sleeps 1000 ms at least, so this many turns
    exhaust any [maxWaitTime] (lemma [monitor_loop_returns]). *)
Definition monitor_fuel (maxWaitTime : N) : nat :=
  S (S (N.to_nat (maxWaitTime / 1000))).

Definition monitorTransactionStatus (signature : string) (maxWaitTime : N)
  : M (LoopResult (option SignatureStatus)) :=
  startTime <- Date_now ;;
  monitor_loop (monitor_fuel maxWaitTime) signature startTime maxWaitTime.

Definition default_maxWaitTime : N := 30000.

(** ** examples/native.ts *)

(** The message is compiled, and remembered as built. *)
Definition compileToV0Message (m : TransactionMessage) : M TransactionMessage :=
  fun s =>
    (Normal m,
     {| console := console s; built := built s ++ [m]; sent := sent s;
        polls := polls s; clock := clock s |}).

Definition sign (m : TransactionMessage) (signer : Keypair)
  : VersionedTransaction :=
  {| message := m; signers := [signer] |}.

(** [0.001 * LAMPORTS_PER_SOL] is the integer 1000000, in floating point
    too. *)
Definition solTransfer (recipientAddress : option string) : M unit :=
  wallet <- loadWallet (WALLET_PATH cfg) ;;
  let recipient := default (DEFAULT_RECIPIENT cfg) (truthy recipientAddress) in
  let transferAmount := LAMPORTS_PER_SOL / 1000 in
  let txFee := 5000 in
  let totalNeeded := transferAmount + txFee in
  hasBalance <-
    checkBalanceForOperations wallet totalNeeded (Some "SOL transfer") ;;
  if negb hasBalance then ret tt
  else
    let instructions := [] in
    let instructions :=
      addComputeBudget instructions default_computeUnits default_priorityFee in
    let instructions :=
      instructions
        ++ [SystemProgram_transfer (publicKey wallet) recipient
              transferAmount] in
    let instructions := addLightSpeedTip instructions (publicKey wallet) in
    blockhash <- await (getLatestBlockhash w) ;;
    message <-
      compileToV0Message
        {| payerKey := publicKey wallet; recentBlockhash := blockhash;
           instructions := instructions; lookupTables := [] |} ;;
    let tx := sign message wallet in
    signature <- sendTxWithRetries tx default_maxAttempts ;;
    match signature with
    | Some signature =>
      monitorTransactionStatus signature default_maxWaitTime ;; ret tt
    | None => ret tt
    end.

Definition USDC_MINT : PublicKey :=
  "EPjFWdd5AufqSSqeM2qN1xzybapC8G4wEGGkZwyTDt1v".
Definition USDC_DECIMALS : Z := 6.

Definition Qltb (x y : Q) : bool := negb (Qle_bool y x).

(** The token amounts are the numbers that their decimal notation spells:
    [displayAmount] is the raw amount over [10^6] for USDC and the raw
    amount otherwise, and [tokenBalance] is the [uiAmount] of the node.
    The code holds both as doubles; the two readings agree on the
    amounts of [exact_amount] and [decimal15], and
    [createTransferInstruction] encodes a raw amount that is a [u64]. *)
Definition tokenTransfer
    (recipientAddress tokenMintAddress : option string) (amount : option Z)
  : M unit :=
  wallet <- loadWallet (WALLET_PATH cfg) ;;
  let recipient := default (DEFAULT_RECIPIENT cfg) (truthy recipientAddress) in
  let tokenMint := default USDC_MINT (truthy tokenMintAddress) in
  let transferAmount := default 1 amount in
  let isUSDC := String.eqb tokenMint USDC_MINT in
  let tokenName := if isUSDC then "USDC" else "tokens" in
  (* the number that the string [displayAmount] spells: on a whole number
     of raw units, [toFixed(6)] and [parseFloat] lose nothing *)
  let displayAmount : Q :=
    if isUSDC
    then (inject_Z transferAmount / inject_Z (10 ^ USDC_DECIMALS))%Q
    else inject_Z transferAmount in
  let txFee := 5000 in
  let accountCreationRent := 2039280 in
  recipientTokenAccount <-
    await (getAssociatedTokenAddress w tokenMint recipient) ;;
  recipientAccountInfo <- await (getAccountInfo w recipientTokenAccount) ;;
  let needsAccountCreation :=
    negb (bool_decide (is_Some recipientAccountInfo)) in
  let totalSOLNeeded :=
    txFee + (if needsAccountCreation then accountCreationRent else 0) in
  hasBalance <-
    checkBalanceForOperations wallet totalSOLNeeded (Some "token transfer") ;;
  if negb hasBalance then ret tt
  else
    senderTokenAccount <-
      await (getAssociatedTokenAddress w tokenMint (publicKey wallet)) ;;
    senderTokenAccountInfo <- await (getAccountInfo w senderTokenAccount) ;;
    if negb (bool_decide (is_Some senderTokenAccountInfo)) then
      console_error
        [Str "Error: You don't have a token account for this mint"] ;;
      console_error [Str "Token mint: "; Str tokenMint] ;;
      ret tt
    else
      tokenAccountData <- await (getParsedAccountInfo w senderTokenAccount) ;;
      let tokenBalance : Q := default 0%Q tokenAccountData in
      if Qltb tokenBalance displayAmount then
        console_error
          [Str "Error: Insufficient "; Str tokenName; Str " balance"] ;;
        console_error
          [Str "Have: "; Num tokenBalance; Str " "; Str tokenName] ;;
        console_error
          [Str "Need: "; Num displayAmount; Str " "; Str tokenName] ;;
        ret tt
      else
        let instructions := [] in
        let instructions :=
          addComputeBudget instructions default_computeUnits
            default_priorityFee in
        let instructions :=
          if needsAccountCreation then
            instructions
              ++ [createAssociatedTokenAccountInstruction
                    (publicKey wallet) recipientTokenAccount recipient
                    tokenMint]
          else instructions in
        let instructions :=
          instructions
            ++ [createTransferInstruction senderTokenAccount
                  recipientTokenAccount (publicKey wallet) transferAmount] in
        let instructions := addLightSpeedTip instructions (publicKey wallet) in
        blockhash <- await (getLatestBlockhash w) ;;
        message <-
          compileToV0Message
            {| payerKey := publicKey wallet; recentBlockhash := blockhash;
               instructions := instructions; lookupTables := [] |} ;;
        let tx := sign message wallet in
        signature <- sendTxWithRetries tx default_maxAttempts ;;
        match signature with
        | Some signature =>
          monitorTransactionStatus signature default_maxWaitTime ;; ret tt
        | None => ret tt
        end.

(** ** examples/jupiter.ts *)

Definition SOL_MINT : PublicKey :=
  "So11111111111111111111111111111111111111112".

Definition deserializeInstruction (instruction : JupiterInstruction)
  : TransactionInstruction :=
  newTransactionInstruction (jProgramId instruction)
    (map (fun key =>
            {| pubkey := pubkey key; isSigner := isSigner key;
               isWritable := isWritable key |})
         (jAccounts instruction))
    (jData instruction).

(** [Promise.all(addresses.map(async address => ...))]. *)
Fixpoint loadLookupTables (addresses : list string)
  : M (list (option AddressLookupTableAccount)) :=
  match addresses with
  | [] => ret []
  | address :: rest =>
    lookupTableAccount <- await (getAddressLookupTable w address) ;;
    others <- loadLookupTables rest ;;
    ret (lookupTableAccount :: others)
  end.

Definition error_message (error : Error) : string :=
  match error with
  | JsError m => m
  | AxiosError m _ => m
  end.

(** [error.response], which only an axios error carries. *)
Definition error_response (error : Error) : option HttpResponse :=
  match error with
  | JsError _ => None
  | AxiosError _ r => r
  end.

Definition isAxiosError (error : Error) : bool :=
  match error with
  | JsError _ => false
  | AxiosError _ _ => true
  end.

Definition jupiterSwapSOLtoUSDC : M unit :=
  wallet <- loadWallet (WALLET_PATH cfg) ;;
  let amountIn := LAMPORTS_PER_SOL / 1000 in
  let slippageBps := 100 in
  let priorityFee := 50000 in
  let totalNeeded := amountIn + 10000 + priorityFee in
  hasBalance <-
    checkBalanceForOperations wallet totalNeeded (Some "Jupiter swap") ;;
  if negb hasBalance then ret tt
  else
    try_catch
      (quote <-
         await (axios_get_quote w SOL_MINT USDC_MINT amountIn slippageBps) ;;
       instructionsResponse <-
         await (axios_post_swap_instructions w quote (publicKey wallet)) ;;
       match instructionsResponse with
       | None => throw (JsError "No instructions received from Jupiter")
       | Some response =>
         lookupTables <-
           match addressLookupTableAddresses response with
           | Some (address :: rest) => loadLookupTables (address :: rest)
           | _ => ret []
           end ;;
         let addressLookupTableAccounts := omap id lookupTables in
         let instructions :=
           [setComputeUnitLimit 400000; setComputeUnitPrice priorityFee] in
         let instructions :=
           match setupInstructions response with
           | Some (i :: rest) =>
             instructions ++ map deserializeInstruction (i :: rest)
           | _ => instructions
           end in
         let instructions :=
           instructions
             ++ [deserializeInstruction (swapInstruction response)] in
         let instructions :=
           match cleanupInstruction response with
           | Some cleanup => instructions ++ [deserializeInstruction cleanup]
           | None => instructions
           end in
         let instructions := addLightSpeedTip instructions (publicKey wallet) in
         blockhash <- await (getLatestBlockhash w) ;;
         messageV0 <-
           compileToV0Message
             {| payerKey := publicKey wallet; recentBlockhash := blockhash;
                instructions := instructions;
                lookupTables := addressLookupTableAccounts |} ;;
         let transaction := sign messageV0 wallet in
         signature <- sendTxWithRetries transaction default_maxAttempts ;;
         match signature with
         | Some signature =>
           result <- monitorTransactionStatus signature default_maxWaitTime ;;
           match result with
           | Done (Some value) =>
             match err value with
             | Some e => console_error [Str "Swap failed:"; Str e]
             | None => ret tt
             end
           | _ => ret tt
           end
         | None => ret tt
         end
       end)
      (fun error =>
         console_error [Str "Swap error:"; Str (error_message error)] ;;
         match error_response error with
         | Some {| data := Some body |} =>
           console_error [Str "API Error:"; Str body]
         | _ => ret tt
         end ;;
         if isAxiosError error then
           match error_response error with
           | Some response =>
             if status response =? 429 then
               console_error [Str "Rate limited. Try again in a few seconds."]
             else if status response =? 400 then
               console_error [Str "Bad request. Check your parameters."]
             else ret tt
           | None => ret tt
           end
         else ret tt).

(** ** examples.ts *)

Definition EXAMPLE1_RECIPIENT : PublicKey :=
  "DTFhyarmG9UJn2bnt29GLjcEKfPEFRQC7YCgywuhapAv".

Definition example1_solTransfer : M unit :=
  wallet <- loadWallet (WALLET_PATH cfg) ;;
  let recipient := EXAMPLE1_RECIPIENT in
  let transferAmount := LAMPORTS_PER_SOL / 1000 in
  let txFee := 5000 in
  let totalNeeded := transferAmount + TIPS_VIBE_FEE + txFee in
  hasBalance <-
    checkBalanceForOperations wallet totalNeeded (Some "SOL transfer") ;;
  if negb hasBalance then ret tt
  else
    let instructions := [] in
    let instructions :=
      addComputeBudget instructions default_computeUnits default_priorityFee in
    let instructions :=
      instructions
        ++ [SystemProgram_transfer (publicKey wallet) recipient
              transferAmount] in
    let instructions := addLightSpeedTip instructions (publicKey wallet) in
    blockhash <- await (getLatestBlockhash w) ;;
    message <-
      compileToV0Message
        {| payerKey := publicKey wallet; recentBlockhash := blockhash;
           instructions := instructions; lookupTables := [] |} ;;
    let tx := sign message wallet in
    signature <- sendTxWithRetries tx default_maxAttempts ;;
    match signature with
    | Some signature =>
      monitorTransactionStatus signature default_maxWaitTime ;; ret tt
    | None => ret tt
    end.

End Scripts.

(** ** Vocabulary of the statements *)

Definition run {A} (m : M A) : Completion A * State := m initial.

(** The script touched neither the compiled messages nor the submissions. *)
Definition nothing_sent (s s' : State) : Prop :=
  built s' = built s /\ sent s' = sent s.

(** The script compiled exactly one message, [m], and handed the signed
    transaction to the endpoint [n] times, nothing else. *)
Definition proceeded (s s' : State) (m : TransactionMessage)
    (wallet : Keypair) : Prop :=
  built s' = built s ++ [m]
  /\ exists n : nat, sent s' = sent s ++ repeat (sign m wallet) n.

Definition error_line (a : list Arg) : LogLine :=
  {| level := ERROR; args := a |}.

(** *** The balance guard *)

(** The tip term the balance guard adds. *)
Definition tip_due (cfg : Config) : Z :=
  if USE_LIGHTSPEED cfg then TIPS_VIBE_FEE else 0.

(** What the balance guard compares the balance with. *)
Definition total_required (cfg : Config) (requiredLamports : Z) : Z :=
  if USE_LIGHTSPEED cfg then Number_add requiredLamports TIPS_VIBE_FEE
  else requiredLamports.

(** A base cost whose sum with the tip is an integer that the doubles
    hold exactly. *)
Definition safe_cost (requiredLamports : Z) : Prop :=
  Z.abs (requiredLamports + TIPS_VIBE_FEE) < 2 ^ 53.

(** The lines the guard writes when the balance falls short. *)
Definition insufficient_report (cfg : Config) (balance totalRequired : Z)
    (description : option string) : list LogLine :=
  [error_line
     [Str (String.append "Insufficient balance" (for_description description))];
   error_line [Str "Have: "; Num (in_SOL balance); Str " SOL"];
   error_line [Str "Need: "; Num (in_SOL totalRequired); Str " SOL"]]
  ++ (if USE_LIGHTSPEED cfg
      then [error_line [Str "(includes "; Num (in_SOL TIPS_VIBE_FEE);
                        Str " SOL LightSpeed tip)"]]
      else []).

(** *** The retry pipeline *)

(** A submission attempt fails when the call raises or yields no
    identifier. *)
Definition attempt_fails (c : Completion string) : Prop :=
  match c with
  | Normal signature => signature = ""
  | Throw _ => True
  end.

(** *** Confirmation polling *)

(** A status the loop keeps waiting on: neither confirmed or finalized, nor
    carrying an error. *)
Definition pending (c : Completion (option SignatureStatus)) : Prop :=
  exists value, c = Normal value /\ is_confirmed value = false
                /\ has_err value = None.

Definition pendingb (c : Completion (option SignatureStatus)) : bool :=
  match c with
  | Normal value =>
    negb (is_confirmed value) && negb (bool_decide (is_Some (has_err value)))
  | Throw _ => false
  end.

(** The state after one turn of the polling loop that went on to sleep:
    one more poll, and the clock moved by the query and by the sleep. *)
Definition after_turn (w : World) (s : State) : State :=
  {| console := console s; built := built s; sent := sent s;
     polls := S (polls s);
     clock := (clock s + queryTime w (polls s)
               + (1000 + sleepExtra w (polls s)))%N |}.

(** Time taken by [k] such turns, the first of which makes poll number
    [first]. *)
Fixpoint turns_time (w : World) (first k : nat) : N :=
  match k with
  | O => 0
  | S k' =>
    (queryTime w first + (1000 + sleepExtra w first)
     + turns_time w (S first) k')%N
  end.

(** Status queries answer at once and timers fire on time. *)
Definition instantaneous (w : World) : Prop :=
  forall n, queryTime w n = 0%N /\ sleepExtra w n = 0%N.

Definition timeout_line : LogLine :=
  error_line [Str "Transaction confirmation timeout"].

Definition failed_line (e : string) : LogLine :=
  error_line [Str "Transaction failed: "; Str e].

(** What a caller can learn from a run of the polling loop from [s] to
    [s'] that completed with [c]. *)
Definition monitor_outcome (w : World) (signature : string) (s s' : State)
    (c : Completion (LoopResult (option SignatureStatus))) : Prop :=
  match c with
  | Normal (Done (Some value)) =>
    (confirmationStatus value = Some confirmed
     \/ confirmationStatus value = Some finalized)
    /\ (polls s < polls s')%nat
    /\ getSignatureStatus w (pred (polls s')) signature = Normal (Some value)
    /\ console s' = console s
  | Normal (Done None) =>
    console s' = console s ++ [timeout_line]
    \/ exists e, console s' = console s ++ [failed_line e]
  | Normal OutOfFuel => False
  | Throw e =>
    (polls s < polls s')%nat
    /\ getSignatureStatus w (pred (polls s')) signature = Throw e
  end.

(** *** Instruction lists *)

(** What the tip step appends to an instruction list. *)
Definition tip_suffix (cfg : Config) (payer : PublicKey)
  : list TransactionInstruction :=
  if USE_LIGHTSPEED cfg then [tipInstruction payer] else [].

(** The instructions of their own that the three scenarios are expected
    to compose. *)
Definition native_core (payer recipient : PublicKey)
  : list TransactionInstruction :=
  [SystemProgram_transfer payer recipient 1000000].

Definition token_core (payer recipient mint recipientTokenAccount
    senderTokenAccount : PublicKey) (needsAccountCreation : bool)
    (amount : Z) : list TransactionInstruction :=
  (if needsAccountCreation
   then [createAssociatedTokenAccountInstruction payer recipientTokenAccount
           recipient mint]
   else [])
  ++ [createTransferInstruction senderTokenAccount recipientTokenAccount
        payer amount].

Definition swap_core (response : SwapInstructions)
  : list TransactionInstruction :=
  map deserializeInstruction (default [] (setupInstructions response))
  ++ [deserializeInstruction (swapInstruction response)]
  ++ match cleanupInstruction response with
     | Some cleanup => [deserializeInstruction cleanup]
     | None => []
     end.

(** Compute-budget directives, the scenario's own instructions, the tip. *)
Definition composed (cfg : Config) (payer : PublicKey) (units price : Z)
    (core : list TransactionInstruction) : list TransactionInstruction :=
  setComputeUnitLimit units :: setComputeUnitPrice price
    :: core ++ tip_suffix cfg payer.

Definition compiled (payer : PublicKey) (blockhash : string)
    (l : list TransactionInstruction)
    (tables : list AddressLookupTableAccount) : TransactionMessage :=
  {| payerKey := payer; recentBlockhash := blockhash; instructions := l;
     lookupTables := tables |}.


(** *** The token transfer *)

(** The number [displayAmount] spells in [tokenTransfer]. *)
Definition display_amount (tokenMint : PublicKey) (transferAmount : Z) : Q :=
  if String.eqb tokenMint USDC_MINT
  then (inject_Z transferAmount / inject_Z (10 ^ USDC_DECIMALS))%Q
  else inject_Z transferAmount.

(** A raw amount of a token with [decimals] decimals, as a decimal
    number. *)
Definition human_readable (amount : Z) (decimals : nat) : Q :=
  (inject_Z amount / inject_Z (10 ^ Z.of_nat decimals))%Q.

(** The amounts on which the token check of the script is the comparison
    of two decimal numbers.  A raw amount below [10^15] is shown by
    [toFixed(6)] and read back by [parseFloat] without loss, and two
    decimal numbers of at most fifteen significant digits compare as the
    doubles nearest to them do. *)
Definition exact_amount (a : Z) : Prop := 0 <= a < 10 ^ 15.

Definition decimal15 (q : Q) : Prop :=
  exists (k : Z) (d : nat),
    Z.abs k < 10 ^ 15 /\ (q == inject_Z k / inject_Z (10 ^ Z.of_nat d))%Q.


(** *** The swap *)

(** One of the two calls to the aggregator raised [e]. *)
Definition aggregator_fails (w : World) (payer : PublicKey) (e : Error)
  : Prop :=
  axios_get_quote w SOL_MINT USDC_MINT 1000000 100 = Throw e
  \/ exists quote,
       axios_get_quote w SOL_MINT USDC_MINT 1000000 100 = Normal quote
       /\ axios_post_swap_instructions w quote payer = Throw e.

Definition rate_limited_line : LogLine :=
  error_line [Str "Rate limited. Try again in a few seconds."].

Definition bad_request_line : LogLine :=
  error_line [Str "Bad request. Check your parameters."].

Definition api_error_lines (body : option string) : list LogLine :=
  match body with
  | Some b => [error_line [Str "API Error:"; Str b]]
  | None => []
  end.

(** The lines [jupiterSwapSOLtoUSDC] writes for an error it caught. *)
Definition swap_error_report (error : Error) : list LogLine :=
  [error_line [Str "Swap error:"; Str (error_message error)]]
  ++ api_error_lines
       match error_response error with
       | Some response => data response
       | None => None
       end
  ++ match error with
     | AxiosError _ (Some response) =>
       if status response =? 429 then [rate_limited_line]
       else if status response =? 400 then [bad_request_line]
       else []
     | _ => []
     end.

(** *** Configuration *)

(** The configuration utils.ts builds from an environment whose three
    required variables hold [rpc], [lightspeed] and [wallet_path]. *)
Definition config_from (w : World) (env : gmap string string)
    (rpc lightspeed wallet_path : string) : Config :=
  {| USE_LIGHTSPEED := eqb_opt (env !! "USE_LIGHTSPEED") "true";
     DEFAULT_RECIPIENT :=
       default PLACEHOLDER_RECIPIENT (getenv env "DEFAULT_RECIPIENT");
     WALLET_PATH := path_resolve w wallet_path;
     RPC_ENDPOINT := rpc;
     RPC_LIGHTSPEED_ENDPOINT := lightspeed |}.

Definition raises {A} (c : Completion A) : Prop := exists e, c = Throw e.

Definition placeholder_warning : LogLine :=
  {| level := WARN;
     args := [Str "DEFAULT_RECIPIENT not set in .env file, using placeholder"] |}.

(** ** Worlds and settings to run the scripts in *)

Definition wallet0 : Keypair :=
  {| publicKey := "9xQeWvG816bUx9EPjHmaT23yvVM2ZWbrrpZb9PusVFin";
     secretKey := [] |}.

Definition signature0 : string := "5VERv8NMvzbJMEkV".

(** An environment with the three required variables only, and the
    configuration loaded from it, with tipping switched on or off. *)
Definition env0 : gmap string string :=
  {[ "RPC_ENDPOINT" := "https://rpc.example";
     "RPC_LIGHTSPEED_ENDPOINT" := "https://lightspeed.example";
     "WALLET_PATH" := "./wallets/wallet.json" ]}.

Definition settings (use : bool) : Config :=
  {| USE_LIGHTSPEED := use;
     DEFAULT_RECIPIENT := PLACEHOLDER_RECIPIENT;
     WALLET_PATH := "./wallets/wallet.json";
     RPC_ENDPOINT := "https://rpc.example";
     RPC_LIGHTSPEED_ENDPOINT := "https://lightspeed.example" |}.

Definition status_pending : option SignatureStatus := None.

Definition status_confirmed : option SignatureStatus :=
  Some {| confirmationStatus := Some confirmed; err := None |}.

(** An error reported for a transaction that is not confirmed. *)
Definition status_failed : option SignatureStatus :=
  Some {| confirmationStatus := Some processed;
          err := Some "InsufficientFundsForRent" |}.

(** A transaction that the network confirmed although it failed on
    chain. *)
Definition status_reverted : option SignatureStatus :=
  Some {| confirmationStatus := Some confirmed;
          err := Some "InstructionError" |}.

Definition quote0 : Quote :=
  {| outAmount := "150000"; routeLabels := ["Orca"]; priceImpactPct := "0" |}.

Definition swap0 : SwapInstructions :=
  {| computeBudgetInstructions := [];
     setupInstructions := None;
     swapInstruction :=
       {| jProgramId := "JUP6LkbZbjS1jKKwapdHNy74zcZ3tLUZoi5QNyVTaV4";
          jAccounts := []; jData := "" |};
     cleanupInstruction := None;
     addressLookupTableAddresses := None |}.

Definition tx0 : VersionedTransaction :=
  sign {| payerKey := publicKey wallet0; recentBlockhash := "blockhash";
          instructions := []; lookupTables := [] |} wallet0.

(** A mint with nine decimals, and the decimals of the mints used below:
    six for USDC, nine for the rest. *)
Definition BONK_LIKE_MINT : PublicKey :=
  "DezXAZ8z7PnrnRJjz3wXBoRgixCa6xjnB7YaB1pPB263".

Definition decimals_of (mint : PublicKey) : nat :=
  if String.eqb mint USDC_MINT then 6%nat else 9%nat.

Definition too_many_requests : Error :=
  AxiosError "Request failed with status code 429"
    (Some {| status := 429; data := Some "Rate limit exceeded" |}).

Definition bad_request : Error :=
  AxiosError "Request failed with status code 400"
    (Some {| status := 400; data := None |}).

(** A network: the wallet file holds [wallet0], which owns [balance]
    lamports and [ui] tokens in a token account of its own; the recipient's
    token account exists or not; the [n]-th submission answers
    [submission n]; the [n]-th status query answers [statuses n] after
    [latency] ms; timers fire on time; the aggregator answers [quote] and
    [swap]. *)
Definition network (balance : Z) (ui : option Q) (recipientHasAccount : bool)
    (submission : nat -> Completion string)
    (statuses : nat -> option SignatureStatus) (latency : N)
    (quote : Completion Quote)
    (swap : Completion (option SwapInstructions)) : World :=
  {| readWallet := fun _ => Normal wallet0;
     path_resolve := fun p => p;
     newConnection := fun _ => Normal tt;
     getBalance := fun _ => Normal balance;
     getAccountInfo := fun account =>
       if String.eqb account (String.append "ata:" (publicKey wallet0))
       then Normal (Some tt)
       else Normal (if recipientHasAccount then Some tt else None);
     getParsedAccountInfo := fun _ => Normal ui;
     getLatestBlockhash := Normal "blockhash";
     getAddressLookupTable := fun _ => Normal None;
     getSignatureStatus := fun n _ => Normal (statuses n);
     queryTime := fun _ => latency;
     sleepExtra := fun _ => 0%N;
     sendRawTransaction := fun n _ => submission n;
     getAssociatedTokenAddress := fun _ owner =>
       Normal (String.append "ata:" owner);
     axios_get_quote := fun _ _ _ _ => quote;
     axios_post_swap_instructions := fun _ _ => swap |}.

(** The wallet holds [balance] lamports and [ui] tokens; the recipient has
    a token account or not; everything else works at once. *)
Definition holding (balance : Z) (ui : option Q) (recipientHasAccount : bool)
  : World :=
  network balance ui recipientHasAccount (fun _ => Normal signature0)
    (fun _ => status_confirmed) 0 (Normal quote0) (Normal (Some swap0)).

Definition calm (balance : Z) : World := holding balance (Some 5%Q) true.



(** The submission endpoint answers [submission n] to its [n]-th call. *)
Definition submitting (submission : nat -> Completion string) : World :=
  network 10000000 (Some 5%Q) true submission (fun _ => status_confirmed) 0
    (Normal quote0) (Normal (Some swap0)).

(** It raises on its first [failures] calls and answers an identifier from
    then on. *)
Definition flaky (failures : nat) : World :=
  submitting
    (fun n => if (n <? failures)%nat then Throw (JsError "fetch failed")
              else Normal signature0).

(** It never answers an identifier: it raises on even calls and answers
    the empty string on odd ones. *)
Definition dead_endpoint : World :=
  submitting
    (fun n => if Nat.even n then Throw (JsError "fetch failed") else Normal "").

(** The [n]-th status query answers [statuses n] after [latency] ms. *)
Definition watching (statuses : nat -> option SignatureStatus) (latency : N)
  : World :=
  network 10000000 (Some 5%Q) true (fun _ => Normal signature0) statuses
    latency (Normal quote0) (Normal (Some swap0)).

(** Status queries that take 40 ms each: pending 29 times, then
    confirmed. *)
Definition sluggish : World :=
  watching
    (fun n => if (n <? 29)%nat then status_pending else status_confirmed) 40.

(** Pending for ever, each query taking 5 s. *)
Definition stalled_slow : World := watching (fun _ => status_pending) 5000.

(** Instantaneous queries: pending for ever; an error on the first query;
    confirmed with an error; pending [k] times, then confirmed. *)
Definition stalled : World := watching (fun _ => status_pending) 0.

Definition rejected : World := watching (fun _ => status_failed) 0.

Definition reverted : World := watching (fun _ => status_reverted) 0.

Definition confirms_after (k : nat) : World :=
  watching
    (fun n => if (n <? k)%nat then status_pending else status_confirmed) 0.

(** The aggregator answers with the given outcomes. *)
Definition aggregator (quote : Completion Quote)
    (swap : Completion (option SwapInstructions)) : World :=
  network 10000000 (Some 5%Q) true (fun _ => Normal signature0)
    (fun _ => status_confirmed) 0 quote swap.

(** ** The rest of the code: index.ts, the second script of examples.ts *)

Section Callers.

Variable cfg : Config.
Variable w : World.

(** [main] of index.ts.  Its banner is written with [console.log]; what
    is left is the wallet, the balance, the token transfer with every
    argument left out, and the [catch]. *)
Definition main : M unit :=
  try_catch
    (wallet <- loadWallet w (WALLET_PATH cfg) ;;
     balance <- await (getBalance w (publicKey wallet)) ;;
     tokenTransfer cfg w None None None)
    (fun error => console_error [Str "Error in main execution:"; Obj error]).

(** [new PublicKey(text)], which raises on text that is not a key.  The
    scripts modelled above take their addresses as well formed;
    [example2_tokenTransfer] is shipped with two texts to be replaced, so
    here the constructor is a parameter. *)
Variable newPublicKey : string -> Completion PublicKey.

Definition example2_tokenTransfer : M unit :=
  wallet <- loadWallet w (WALLET_PATH cfg) ;;
  recipient <- await (newPublicKey "RECIPIENT_PUBLIC_KEY") ;;
  tokenMint <- await (newPublicKey "TOKEN_MINT_ADDRESS") ;;
  let amount := 1000000 in
  let txFee := 5000 in
  let accountCreationRent := 2039280 in
  recipientTokenAccount <-
    await (getAssociatedTokenAddress w tokenMint recipient) ;;
  recipientAccountInfo <- await (getAccountInfo w recipientTokenAccount) ;;
  let needsAccountCreation :=
    negb (bool_decide (is_Some recipientAccountInfo)) in
  let totalNeeded :=
    TIPS_VIBE_FEE + txFee
    + (if needsAccountCreation then accountCreationRent else 0) in
  hasBalance <-
    checkBalanceForOperations cfg w wallet totalNeeded
      (Some "token transfer") ;;
  if negb hasBalance then ret tt
  else
    let instructions := [] in
    let instructions :=
      addComputeBudget instructions default_computeUnits
        default_priorityFee in
    senderTokenAccount <-
      await (getAssociatedTokenAddress w tokenMint (publicKey wallet)) ;;
    let instructions :=
      if needsAccountCreation then
        instructions
          ++ [createAssociatedTokenAccountInstruction
                (publicKey wallet) recipientTokenAccount recipient tokenMint]
      else instructions in
    let instructions :=
      instructions
        ++ [createTransferInstruction senderTokenAccount
              recipientTokenAccount (publicKey wallet) amount] in
    let instructions := addLightSpeedTip cfg instructions (publicKey wallet) in
    blockhash <- await (getLatestBlockhash w) ;;
    message <-
      compileToV0Message
        {| payerKey := publicKey wallet; recentBlockhash := blockhash;
           instructions := instructions; lookupTables := [] |} ;;
    let tx := sign message wallet in
    signature <- sendTxWithRetries w tx default_maxAttempts ;;
    match signature with
    | Some signature =>
      monitorTransactionStatus w signature default_maxWaitTime ;; ret tt
    | None => ret tt
    end.

End Callers.

(** ** More vocabulary *)

(** A variable of the environment that the checks of utils.ts take as not
    set. *)
Definition unset (env : gmap string string) (k : string) : Prop :=
  env !! k = None \/ env !! k = Some "".

(** The error an attempt of [sendTxWithRetries] reports: what the call
    raised, or the one raised for a missing identifier. *)
Definition attempt_error (c : Completion string) : Error :=
  match c with
  | Throw e => e
  | Normal _ => JsError "No signature returned"
  end.

Definition attempt_line (attempt : nat) (e : Error) : LogLine :=
  error_line [Str "Attempt "; Num (inject_Z (Z.of_nat attempt));
              Str " failed:"; Obj e].

Definition max_retries_line : LogLine :=
  error_line [Str "Max retries reached"].

(** The lines of [k] failed attempts in a row, the first of which is the
    call of rank [first] and is numbered [attempt]. *)
Definition failed_attempts (w : World) (tx : VersionedTransaction)
    (first attempt k : nat) : list LogLine :=
  map (fun i =>
         attempt_line (attempt + i)
           (attempt_error (sendRawTransaction w (first + i) tx)))
      (seq 0 k).

(** The lamports that the system transfers of a list move. *)
Fixpoint lamports_moved (l : list TransactionInstruction) : Z :=
  match l with
  | [] => 0
  | SystemProgram_transfer _ _ lamports :: rest =>
    lamports + lamports_moved rest
  | _ :: rest => lamports_moved rest
  end.

(** The lines [tokenTransfer] writes when the tokens fall short. *)
Definition insufficient_tokens_report (tokenMint : PublicKey)
    (tokenBalance displayAmount : Q) : list LogLine :=
  let tokenName :=
    if String.eqb tokenMint USDC_MINT then "USDC" else "tokens" in
  [error_line [Str "Error: Insufficient "; Str tokenName; Str " balance"];
   error_line [Str "Have: "; Num tokenBalance; Str " "; Str tokenName];
   error_line [Str "Need: "; Num displayAmount; Str " "; Str tokenName]].

Definition main_error_line (e : Error) : LogLine :=
  error_line [Str "Error in main execution:"; Obj e].

(** The script compiled exactly one message, [m], and handed the same
    signed transaction to the endpoint between one and three times. *)
Definition submitted (s s' : State) (m : TransactionMessage)
    (wallet : Keypair) : Prop :=
  built s' = built s ++ [m]
  /\ exists n : nat,
       (1 <= n <= default_maxAttempts)%nat
       /\ sent s' = sent s ++ repeat (sign m wallet) n.

(** ** More worlds *)

(** [w], but with the lookup tables and the blockhash decided by hand. *)
Definition with_tables (w : World)
    (tables : PublicKey -> Completion (option AddressLookupTableAccount))
  : World :=
  {| readWallet := readWallet w;
     path_resolve := path_resolve w;
     newConnection := newConnection w;
     getBalance := getBalance w;
     getAccountInfo := getAccountInfo w;
     getParsedAccountInfo := getParsedAccountInfo w;
     getLatestBlockhash := getLatestBlockhash w;
     getAddressLookupTable := tables;
     getSignatureStatus := getSignatureStatus w;
     queryTime := queryTime w;
     sleepExtra := sleepExtra w;
     sendRawTransaction := sendRawTransaction w;
     getAssociatedTokenAddress := getAssociatedTokenAddress w;
     axios_get_quote := axios_get_quote w;
     axios_post_swap_instructions := axios_post_swap_instructions w |}.

(** [w], but the wallet file cannot be read, or the balance. *)
Definition without_wallet (w : World) (e : Error) : World :=
  {| readWallet := fun _ => Throw e;
     path_resolve := path_resolve w;
     newConnection := newConnection w;
     getBalance := getBalance w;
     getAccountInfo := getAccountInfo w;
     getParsedAccountInfo := getParsedAccountInfo w;
     getLatestBlockhash := getLatestBlockhash w;
     getAddressLookupTable := getAddressLookupTable w;
     getSignatureStatus := getSignatureStatus w;
     queryTime := queryTime w;
     sleepExtra := sleepExtra w;
     sendRawTransaction := sendRawTransaction w;
     getAssociatedTokenAddress := getAssociatedTokenAddress w;
     axios_get_quote := axios_get_quote w;
     axios_post_swap_instructions := axios_post_swap_instructions w |}.

Definition without_balance (w : World) (e : Error) : World :=
  {| readWallet := readWallet w;
     path_resolve := path_resolve w;
     newConnection := newConnection w;
     getBalance := fun _ => Throw e;
     getAccountInfo := getAccountInfo w;
     getParsedAccountInfo := getParsedAccountInfo w;
     getLatestBlockhash := getLatestBlockhash w;
     getAddressLookupTable := getAddressLookupTable w;
     getSignatureStatus := getSignatureStatus w;
     queryTime := queryTime w;
     sleepExtra := sleepExtra w;
     sendRawTransaction := sendRawTransaction w;
     getAssociatedTokenAddress := getAssociatedTokenAddress w;
     axios_get_quote := axios_get_quote w;
     axios_post_swap_instructions := axios_post_swap_instructions w |}.

(** The status queries raise. *)
Definition with_statuses (w : World)
    (statuses : nat -> string -> Completion (option SignatureStatus))
  : World :=
  {| readWallet := readWallet w;
     path_resolve := path_resolve w;
     newConnection := newConnection w;
     getBalance := getBalance w;
     getAccountInfo := getAccountInfo w;
     getParsedAccountInfo := getParsedAccountInfo w;
     getLatestBlockhash := getLatestBlockhash w;
     getAddressLookupTable := getAddressLookupTable w;
     getSignatureStatus := statuses;
     queryTime := queryTime w;
     sleepExtra := sleepExtra w;
     sendRawTransaction := sendRawTransaction w;
     getAssociatedTokenAddress := getAssociatedTokenAddress w;
     axios_get_quote := axios_get_quote w;
     axios_post_swap_instructions := axios_post_swap_instructions w |}.

Definition rpc_down : Error := JsError "fetch failed".



(** A key constructor that takes no text. *)
Definition no_key (text : string) : Completion PublicKey :=
  Throw (JsError "Invalid public key input").

(** A response of the aggregator that names two lookup tables. *)
Definition swap1 : SwapInstructions :=
  {| computeBudgetInstructions := [];
     setupInstructions := None;
     swapInstruction := swapInstruction swap0;
     cleanupInstruction := None;
     addressLookupTableAddresses := Some ["table1"; "table2"] |}.

(** The state once message [m] is compiled and the signed transaction
    handed over once. *)
Definition after_submission (s : State) (m : TransactionMessage)
    (wallet : Keypair) : State :=
  {| console := console s; built := built s ++ [m];
     sent := sent s ++ [sign m wallet]; polls := polls s;
     clock := clock s |}.

(** [s], with more lines on the console. *)
Definition logged (s : State) (lines : list LogLine) : State :=
  {| console := console s ++ lines; built := built s; sent := sent s;
     polls := polls s; clock := clock s |}.

Definition swap_failed_line (e : string) : LogLine :=
  error_line [Str "Swap failed:"; Str e].

(** The lookup tables the swap script is given for the addresses of a
    response, when every lookup answers. *)
Definition looked_up (w : World) (response : SwapInstructions)
  : list (option AddressLookupTableAccount) :=
  map (fun address =>
         match getAddressLookupTable w address with
         | Normal table => table
         | Throw _ => None
         end)
      (default [] (addressLookupTableAddresses response)).

(** The messages the native transfer and the swap compile. *)
Definition native_message (cfg : Config) (wallet : Keypair)
    (recipient : PublicKey) (blockhash : string) : TransactionMessage :=
  compiled (publicKey wallet) blockhash
    (composed cfg (publicKey wallet) 200000 1000
       (native_core (publicKey wallet) recipient))
    [].

Definition swap_message (cfg : Config) (w : World) (wallet : Keypair)
    (response : SwapInstructions) (blockhash : string)
  : TransactionMessage :=
  compiled (publicKey wallet) blockhash
    (composed cfg (publicKey wallet) 400000 50000 (swap_core response))
    (omap id (looked_up w response)).

(** A world in which the first lookup table exists and the second
    cannot be fetched. *)
Definition broken_table : World :=
  with_tables (aggregator (Normal quote0) (Normal (Some swap1)))
    (fun address =>
       if String.eqb address "table1"
       then Normal (Some {| tableKey := address |})
       else Throw rpc_down).

(** A world in which the first lookup table does not exist and the
    second does. *)
Definition one_table : World :=
  with_tables (aggregator (Normal quote0) (Normal (Some swap1)))
    (fun address =>
       if String.eqb address "table1" then Normal None
       else Normal (Some {| tableKey := address |})).


(** The message the token transfer compiles. *)
Definition token_message (cfg : Config) (wallet : Keypair)
    (recipient mint recipientTokenAccount senderTokenAccount : PublicKey)
    (needsAccountCreation : bool) (amount : Z) (blockhash : string)
  : TransactionMessage :=
  compiled (publicKey wallet) blockhash
    (composed cfg (publicKey wallet) 200000 1000
       (token_core (publicKey wallet) recipient mint recipientTokenAccount
          senderTokenAccount needsAccountCreation amount))
    [].

(** * Proofs *)

(** ** Stepping through a script *)

Lemma bind_normal {A B} (m : M A) (k : A -> M B) s a s1 :
  m s = (Normal a, s1) -> bind m k s = k a s1.
Proof. unfold bind. intros ->. reflexivity. Qed.

Lemma bind_throw {A B} (m : M A) (k : A -> M B) s e s1 :
  m s = (Throw e, s1) -> bind m k s = (Throw e, s1).
Proof. unfold bind. intros ->. reflexivity. Qed.

Lemma bind_await_normal {A B} (a : A) (k : A -> M B) s :
  bind (await (Normal a)) k s = k a s.
Proof. reflexivity. Qed.

Lemma bind_await_throw {A B} e (k : A -> M B) s :
  bind (await (Throw e : Completion A)) k s = (Throw e, s).
Proof. reflexivity. Qed.

(** ** The balance guard *)

Lemma round_to_double_safe x : Z.abs x < 2 ^ 53 -> round_to_double x = x.
Proof.
  intros H. unfold round_to_double. apply Z.ltb_lt in H. rewrite H.
  reflexivity.
Qed.

(** Above [2^53] only every second integer is a double, then every
    fourth: a sum in between goes to the nearest, a tie to the even
    significand. *)
Example round_to_double_above_2_53 :
  round_to_double (2 ^ 53 + 1) = 2 ^ 53
  /\ round_to_double (2 ^ 53 + 2) = 2 ^ 53 + 2
  /\ round_to_double (2 ^ 53 + 3) = 2 ^ 53 + 4
  /\ round_to_double (2 ^ 54 + 3) = 2 ^ 54 + 4
  /\ round_to_double (- 2 ^ 53 - 1) = - 2 ^ 53.
Proof. vm_compute. repeat split. Qed.

Lemma total_required_tip_due cfg requiredLamports :
  safe_cost requiredLamports ->
  total_required cfg requiredLamports = requiredLamports + tip_due cfg.
Proof.
  intros Hsafe. unfold total_required, tip_due, Number_add.
  destruct (USE_LIGHTSPEED cfg); [|lia].
  apply round_to_double_safe. exact Hsafe.
Qed.

(** The costs the scripts ask the guard for are safe. *)
Ltac safe_cost :=
  unfold safe_cost;
  repeat match goal with
         | |- context [match ?x with _ => _ end] => destruct x
         end;
  vm_compute; reflexivity.

Lemma checkBalance_outcome cfg w wallet requiredLamports description balance s :
  getBalance w (publicKey wallet) = Normal balance ->
  exists s',
    checkBalanceForOperations cfg w wallet requiredLamports description s
    = (Normal (negb (balance <? total_required cfg requiredLamports)), s')
    /\ built s' = built s /\ sent s' = sent s
    /\ polls s' = polls s /\ clock s' = clock s
    /\ console s'
       = console s
         ++ (if balance <? total_required cfg requiredLamports
             then insufficient_report cfg balance
                    (total_required cfg requiredLamports) description
             else []).
Proof.
  intros Hbal.
  unfold checkBalanceForOperations, bind, await, total_required,
    insufficient_report.
  rewrite Hbal.
  destruct (USE_LIGHTSPEED cfg); cbn;
    match goal with
    | |- context [ (balance <? ?t) ] => destruct (balance <? t) eqn:Hlt
    end; cbn; eexists; repeat split; cbn;
    rewrite <- ?app_assoc, ?app_nil_r; reflexivity.
Qed.

Lemma checkBalance_throws cfg w wallet requiredLamports description e s :
  getBalance w (publicKey wallet) = Throw e ->
  checkBalanceForOperations cfg w wallet requiredLamports description s
  = (Throw e, s).
Proof.
  intros H. unfold checkBalanceForOperations, bind, await. rewrite H.
  reflexivity.
Qed.

(** C2, amended.  The guard always answers, [false] for the insufficient
    case, and neither builds nor sends anything.  It answers [true]
    exactly when the balance is at least the total it computes: the base
    cost, or with tipping enabled the sum of the base cost and
    [TIPS_VIBE_FEE] as doubles add.  That sum is the exact one, so that
    the answer is [true] exactly when
    [balance >= base_cost + (tip_enabled ? TIPS_VIBE_FEE : 0)], for every
    balance whenever the exact sum is below [2^53] in magnitude, and for
    every balance and base cost with tipping disabled. *)
Theorem checkBalanceForOperations_sufficient_iff
    cfg w wallet (requiredLamports : Z) description (balance : Z) s :
  getBalance w (publicKey wallet) = Normal balance ->
  exists sufficient s',
    checkBalanceForOperations cfg w wallet requiredLamports description s
    = (Normal sufficient, s')
    /\ (sufficient = true
        <-> balance >= (if USE_LIGHTSPEED cfg
                        then Number_add requiredLamports TIPS_VIBE_FEE
                        else requiredLamports))
    /\ (safe_cost requiredLamports \/ USE_LIGHTSPEED cfg = false ->
        (sufficient = true
         <-> balance >= requiredLamports
                        + (if USE_LIGHTSPEED cfg then TIPS_VIBE_FEE else 0)))
    /\ nothing_sent s s'.
Proof.
  intros Hbal.
  destruct (checkBalance_outcome cfg w wallet requiredLamports description
              balance s Hbal) as (s' & Hrun & Hb & Hs & _).
  exists (negb (balance <? total_required cfg requiredLamports)), s'.
  split; [exact Hrun|].
  rewrite negb_true_iff, Z.ltb_ge. unfold total_required, Number_add.
  split; [lia|]. split; [|split; assumption].
  intros [Hsafe| ->]; [|lia].
  rewrite (round_to_double_safe _ Hsafe).
  destruct (USE_LIGHTSPEED cfg); lia.
Qed.

Lemma checkBalanceForOperations_witness :
  exists sufficient s',
    checkBalanceForOperations (settings true) (calm 2000000) wallet0 1005000
      (Some "SOL transfer") initial
    = (Normal sufficient, s')
    /\ (sufficient = true
        <-> 2000000 >= (if USE_LIGHTSPEED (settings true)
                        then Number_add 1005000 TIPS_VIBE_FEE
                        else 1005000))
    /\ (safe_cost 1005000 \/ USE_LIGHTSPEED (settings true) = false ->
        (sufficient = true
         <-> 2000000 >= 1005000
                        + (if USE_LIGHTSPEED (settings true)
                           then TIPS_VIBE_FEE else 0)))
    /\ nothing_sent initial s'.
Proof.
  apply (checkBalanceForOperations_sufficient_iff (settings true)
           (calm 2000000) wallet0 1005000 (Some "SOL transfer") 2000000
           initial).
  reflexivity.
Defined.

(** C2 as stated fails beyond the integers that doubles hold exactly.
    With tipping enabled, a wallet of [2^53] lamports and a base cost of
    9007199253740993, the exact total is [2^53 + 1], one lamport more than
    the wallet holds; the sum the guard takes is [2^53], and its answer is
    [true]. *)
Lemma checkBalanceForOperations_rounding_counterexample :
  USE_LIGHTSPEED (settings true) = true
  /\ round_to_double 9007199254740992 = 9007199254740992
  /\ round_to_double 9007199253740993 = 9007199253740993
  /\ ~ (9007199254740992 >= 9007199253740993 + TIPS_VIBE_FEE)
  /\ run (checkBalanceForOperations (settings true) (calm 9007199254740992)
            wallet0 9007199253740993 (Some "SOL transfer"))
     = (Normal true, initial).
Proof.
  split; [reflexivity|]. split; [reflexivity|]. split; [reflexivity|].
  split; [vm_compute; congruence | vm_compute; reflexivity].
Qed.

(** ** The retry pipeline *)

Section Retry.

Variable w : World.
Variable tx : VersionedTransaction.
Variable maxAttempts : nat.

(** One failed attempt: the call is made, the failure is logged, the loop
    goes on. *)
Lemma sendTx_loop_failed_attempt remaining attempt s :
  attempt_fails (sendRawTransaction w (length (sent s)) tx) ->
  exists s1,
    sendTx_loop w tx maxAttempts (S remaining) attempt s
    = sendTx_loop w tx maxAttempts remaining (S attempt) s1
    /\ sent s1 = sent s ++ [tx] /\ built s1 = built s
    /\ polls s1 = polls s /\ clock s1 = clock s.
Proof.
  intros Hfail. cbn [sendTx_loop].
  unfold bind at 1. unfold try_catch, bind at 1. unfold submit at 1.
  destruct (sendRawTransaction w (length (sent s)) tx) as [signature|e].
  - cbn in Hfail. subst signature. cbn.
    destruct (Nat.eqb attempt maxAttempts); cbn;
      eexists; split; [reflexivity | cbn; auto | reflexivity | cbn; auto].
  - cbn. destruct (Nat.eqb attempt maxAttempts); cbn;
      eexists; split; [reflexivity | cbn; auto | reflexivity | cbn; auto].
Qed.

(** One successful attempt: the identifier is returned at once. *)
Lemma sendTx_loop_successful_attempt remaining attempt s signature :
  sendRawTransaction w (length (sent s)) tx = Normal signature ->
  signature <> "" ->
  exists s1,
    sendTx_loop w tx maxAttempts (S remaining) attempt s
    = (Normal (Some signature), s1)
    /\ sent s1 = sent s ++ [tx] /\ built s1 = built s
    /\ polls s1 = polls s /\ clock s1 = clock s
    /\ console s1 = console s.
Proof.
  intros Hsend Hne. cbn [sendTx_loop].
  unfold bind at 1. unfold try_catch, bind at 1. unfold submit at 1.
  rewrite Hsend.
  destruct (String.eqb signature "") eqn:E.
  - apply String.eqb_eq in E. contradiction.
  - cbn. eexists. split; [reflexivity|]. cbn. auto.
Qed.

Lemma sendTx_loop_succeeds N :
  forall remaining attempt s signature,
    (N < remaining)%nat ->
    (forall i, (i < N)%nat ->
       attempt_fails (sendRawTransaction w (length (sent s) + i) tx)) ->
    sendRawTransaction w (length (sent s) + N) tx = Normal signature ->
    signature <> "" ->
    exists s',
      sendTx_loop w tx maxAttempts remaining attempt s
      = (Normal (Some signature), s')
      /\ sent s' = sent s ++ repeat tx (S N) /\ built s' = built s
      /\ polls s' = polls s /\ clock s' = clock s.
Proof.
  induction N as [|N IH]; intros remaining attempt s signature Hlt Hfail Hok Hne.
  - destruct remaining as [|remaining]; [lia|].
    rewrite Nat.add_0_r in Hok.
    destruct (sendTx_loop_successful_attempt remaining attempt s signature
                Hok Hne) as (s1 & -> & Hs & Hb & Hp & Hc & _).
    exists s1. cbn. auto.
  - destruct remaining as [|remaining]; [lia|].
    destruct (sendTx_loop_failed_attempt remaining attempt s)
      as (s1 & -> & Hs & Hb & Hp & Hc).
    { specialize (Hfail 0%nat). rewrite Nat.add_0_r in Hfail.
      apply Hfail. lia. }
    destruct (IH remaining (S attempt) s1 signature) as (s' & -> & Hs' & Hb' & Hp' & Hc').
    + lia.
    + intros i Hi. rewrite Hs, length_app. cbn.
      replace (length (sent s) + 1 + i)%nat with (length (sent s) + S i)%nat
        by lia.
      apply Hfail. lia.
    + rewrite Hs, length_app. cbn.
      replace (length (sent s) + 1 + N)%nat with (length (sent s) + S N)%nat
        by lia.
      exact Hok.
    + exact Hne.
    + exists s'. split; [reflexivity|].
      rewrite Hs', Hs, <- app_assoc. cbn. repeat split; congruence.
Qed.

Lemma sendTx_loop_gives_up :
  forall remaining attempt s,
    (forall i, (i < remaining)%nat ->
       attempt_fails (sendRawTransaction w (length (sent s) + i) tx)) ->
    exists s',
      sendTx_loop w tx maxAttempts remaining attempt s = (Normal None, s')
      /\ sent s' = sent s ++ repeat tx remaining /\ built s' = built s
      /\ polls s' = polls s /\ clock s' = clock s.
Proof.
  induction remaining as [|remaining IH]; intros attempt s Hfail.
  - exists s. cbn. rewrite app_nil_r. auto.
  - destruct (sendTx_loop_failed_attempt remaining attempt s)
      as (s1 & -> & Hs & Hb & Hp & Hc).
    { specialize (Hfail 0%nat). rewrite Nat.add_0_r in Hfail.
      apply Hfail. lia. }
    destruct (IH (S attempt) s1) as (s' & -> & Hs' & Hb' & Hp' & Hc').
    + intros i Hi. rewrite Hs, length_app. cbn.
      replace (length (sent s) + 1 + i)%nat with (length (sent s) + S i)%nat
        by lia.
      apply Hfail. lia.
    + exists s'. split; [reflexivity|].
      rewrite Hs', Hs, <- app_assoc. cbn. repeat split; congruence.
Qed.

(** Whatever the network does, the pipeline returns, raises nothing and
    leaves the compiled messages, the polls and the clock alone. *)
Lemma sendTx_loop_returns :
  forall remaining attempt s,
    exists r s',
      sendTx_loop w tx maxAttempts remaining attempt s = (Normal r, s')
      /\ built s' = built s /\ polls s' = polls s /\ clock s' = clock s
      /\ (exists n, sent s' = sent s ++ repeat tx n)
      /\ (r = None -> sent s' = sent s ++ repeat tx remaining).
Proof.
  induction remaining as [|remaining IH]; intros attempt s.
  - exists None, s. cbn. repeat split; auto.
    + exists 0%nat. cbn. now rewrite app_nil_r.
    + intros _. now rewrite app_nil_r.
  - destruct (sendRawTransaction w (length (sent s)) tx) as [signature|e] eqn:E.
    + destruct (String.eqb_spec signature "") as [->|Hne].
      * destruct (sendTx_loop_failed_attempt remaining attempt s)
          as (s1 & -> & Hs & Hb & Hp & Hc); [rewrite E; reflexivity|].
        destruct (IH (S attempt) s1) as (r & s' & -> & Hb' & Hp' & Hc' & [n Hn] & Hnone).
        exists r, s'. repeat split; try congruence.
        -- exists (S n). rewrite Hn, Hs, <- app_assoc. reflexivity.
        -- intros Hr. rewrite (Hnone Hr), Hs, <- app_assoc. reflexivity.
      * destruct (sendTx_loop_successful_attempt remaining attempt s
                    signature E Hne) as (s1 & -> & Hs & Hb & Hp & Hc & _).
        exists (Some signature), s1. repeat split; auto.
        -- exists 1%nat. exact Hs.
        -- discriminate.
    + destruct (sendTx_loop_failed_attempt remaining attempt s)
        as (s1 & -> & Hs & Hb & Hp & Hc); [rewrite E; exact I|].
      destruct (IH (S attempt) s1) as (r & s' & -> & Hb' & Hp' & Hc' & [n Hn] & Hnone).
      exists r, s'. repeat split; try congruence.
      * exists (S n). rewrite Hn, Hs, <- app_assoc. reflexivity.
      * intros Hr. rewrite (Hnone Hr), Hs, <- app_assoc. reflexivity.
Qed.

End Retry.

(** C3. The retry pipeline, for any attempt bound and so for the default
    of 3: when the submission fails [N] times ([N < maxAttempts]) and then
    answers a non-empty identifier, the pipeline returns that identifier
    having made exactly [N + 1] submission calls; when every one of the
    [maxAttempts] attempts fails (raises, or answers no identifier) it
    makes exactly [maxAttempts] calls and returns the absence signal.
    Whatever the submissions do, the pipeline returns normally: no error is
    raised to the caller. *)
Theorem sendTxWithRetries_contract w tx (maxAttempts : nat) s :
  (forall (N : nat) signature,
     (N < maxAttempts)%nat ->
     (forall i, (i < N)%nat ->
        attempt_fails (sendRawTransaction w (length (sent s) + i) tx)) ->
     sendRawTransaction w (length (sent s) + N) tx = Normal signature ->
     signature <> "" ->
     exists s',
       sendTxWithRetries w tx maxAttempts s = (Normal (Some signature), s')
       /\ sent s' = sent s ++ repeat tx (N + 1))
  /\ ((forall i, (i < maxAttempts)%nat ->
         attempt_fails (sendRawTransaction w (length (sent s) + i) tx)) ->
      exists s',
        sendTxWithRetries w tx maxAttempts s = (Normal None, s')
        /\ sent s' = sent s ++ repeat tx maxAttempts)
  /\ (exists r s', sendTxWithRetries w tx maxAttempts s = (Normal r, s')).
Proof.
  unfold sendTxWithRetries. split; [|split].
  - intros N signature Hlt Hfail Hok Hne.
    destruct (sendTx_loop_succeeds w tx maxAttempts N maxAttempts 1%nat s
                signature Hlt Hfail Hok Hne) as (s' & Hrun & Hs & _).
    exists s'. rewrite Nat.add_1_r. auto.
  - intros Hfail.
    destruct (sendTx_loop_gives_up w tx maxAttempts maxAttempts 1%nat s Hfail)
      as (s' & Hrun & Hs & _).
    exists s'. auto.
  - destruct (sendTx_loop_returns w tx maxAttempts maxAttempts 1%nat s)
      as (r & s' & Hrun & _).
    eauto.
Qed.

Lemma sendTxWithRetries_contract_witness :
  (exists s',
     sendTxWithRetries (flaky 2) tx0 default_maxAttempts initial
     = (Normal (Some signature0), s')
     /\ sent s' = sent initial ++ repeat tx0 (2 + 1))
  /\ (exists s',
        sendTxWithRetries dead_endpoint tx0 default_maxAttempts initial
        = (Normal None, s')
        /\ sent s' = sent initial ++ repeat tx0 default_maxAttempts).
Proof.
  split.
  - apply (proj1 (sendTxWithRetries_contract (flaky 2) tx0
                    default_maxAttempts initial) 2%nat signature0).
    + unfold default_maxAttempts. lia.
    + intros i Hi. destruct i as [|[|i]]; cbn; [exact I | exact I | lia].
    + reflexivity.
    + discriminate.
  - apply (proj1 (proj2 (sendTxWithRetries_contract dead_endpoint tx0
                           default_maxAttempts initial))).
    intros i Hi. unfold default_maxAttempts in Hi.
    destruct i as [|[|[|i]]]; cbn; [exact I | reflexivity | exact I | lia].
Defined.

(** ** Confirmation polling *)

Section Monitor.

Variable w : World.
Variable signature : string.
Variables startTime maxWaitTime : N.

Lemma pendingb_pending c : pendingb c = true <-> pending c.
Proof.
  unfold pendingb, pending. split.
  - destruct c as [value|e]; [|discriminate].
    rewrite andb_true_iff, !negb_true_iff. intros [Hc He].
    exists value. repeat split; auto.
    destruct (has_err value) eqn:E; [|reflexivity].
    rewrite bool_decide_eq_false in He. exfalso. apply He. eauto.
  - intros (value & -> & Hc & He). rewrite Hc, He. reflexivity.
Qed.

(** A turn on a pending status. *)
Lemma monitor_loop_pending_turn fuel s :
  (clock s - startTime < maxWaitTime)%N ->
  pending (getSignatureStatus w (polls s) signature) ->
  monitor_loop w (S fuel) signature startTime maxWaitTime s
  = monitor_loop w fuel signature startTime maxWaitTime (after_turn w s).
Proof.
  intros Hlt (value & Hq & Hc & He). cbn [monitor_loop].
  unfold bind at 1. unfold Date_now at 1.
  apply N.ltb_lt in Hlt. rewrite Hlt.
  unfold bind at 1. unfold poll at 1. rewrite Hq, Hc, He.
  unfold bind at 1. reflexivity.
Qed.

(** A turn on a confirmed or finalized status. *)
Lemma monitor_loop_confirmed_turn fuel s value :
  (clock s - startTime < maxWaitTime)%N ->
  getSignatureStatus w (polls s) signature = Normal value ->
  is_confirmed value = true ->
  exists s',
    monitor_loop w (S fuel) signature startTime maxWaitTime s
    = (Normal (Done value), s')
    /\ polls s' = S (polls s) /\ console s' = console s
    /\ built s' = built s /\ sent s' = sent s.
Proof.
  intros Hlt Hq Hc. cbn [monitor_loop].
  unfold bind at 1. unfold Date_now at 1.
  apply N.ltb_lt in Hlt. rewrite Hlt.
  unfold bind at 1. unfold poll at 1. rewrite Hq, Hc.
  eexists. split; [reflexivity|]. cbn. auto.
Qed.

(** The loop test failing. *)
Lemma monitor_loop_timed_out fuel s :
  (maxWaitTime <= clock s - startTime)%N ->
  monitor_loop w (S fuel) signature startTime maxWaitTime s
  = (Normal (Done None),
     {| console := console s ++ [timeout_line]; built := built s;
        sent := sent s; polls := polls s; clock := clock s |}).
Proof.
  intros Hge. cbn [monitor_loop].
  unfold bind at 1. unfold Date_now at 1.
  apply N.ltb_ge in Hge. rewrite Hge. reflexivity.
Qed.

Lemma turns_time_lower first k :
  (1000 * N.of_nat k <= turns_time w first k)%N.
Proof.
  revert first. induction k as [|k IH]; intros first; [cbn; lia|].
  cbn [turns_time]. specialize (IH (S first)). lia.
Qed.

Lemma turns_time_instantaneous first k :
  instantaneous w -> turns_time w first k = (1000 * N.of_nat k)%N.
Proof.
  intros Hi. revert first. induction k as [|k IH]; intros first; [reflexivity|].
  cbn [turns_time]. rewrite IH. destruct (Hi first) as [-> ->]. lia.
Qed.

(** [k] pending answers, then a confirmed one, within the bound. *)
Lemma monitor_loop_confirms k :
  forall fuel s value,
    (k < fuel)%nat ->
    (startTime <= clock s)%N ->
    (forall i, (i < k)%nat ->
       pending (getSignatureStatus w (polls s + i) signature)) ->
    getSignatureStatus w (polls s + k) signature = Normal value ->
    is_confirmed value = true ->
    (clock s - startTime + turns_time w (polls s) k < maxWaitTime)%N ->
    exists s',
      monitor_loop w fuel signature startTime maxWaitTime s
      = (Normal (Done value), s')
      /\ polls s' = (polls s + (k + 1))%nat /\ console s' = console s
      /\ built s' = built s /\ sent s' = sent s.
Proof.
  induction k as [|k IH]; intros fuel s value Hfuel Hstart Hpend Hq Hc Htime.
  - destruct fuel as [|fuel]; [lia|].
    rewrite Nat.add_0_r in Hq. cbn [turns_time] in Htime.
    destruct (monitor_loop_confirmed_turn fuel s value) as (s' & -> & Hp & H);
      [lia | assumption | assumption |].
    exists s'. split; [reflexivity|]. split; [lia | exact H].
  - destruct fuel as [|fuel]; [lia|].
    cbn [turns_time] in Htime.
    rewrite monitor_loop_pending_turn.
    + destruct (IH fuel (after_turn w s) value) as (s' & -> & Hp & H).
      * lia.
      * cbn. lia.
      * intros i Hi. cbn [after_turn polls].
        replace (S (polls s) + i)%nat with (polls s + S i)%nat by lia.
        apply Hpend. lia.
      * cbn [after_turn polls].
        replace (S (polls s) + k)%nat with (polls s + S k)%nat by lia.
        exact Hq.
      * exact Hc.
      * cbn [after_turn polls clock]. lia.
      * exists s'. split; [reflexivity|]. cbn in Hp, H. split; [lia | exact H].
    + lia.
    + specialize (Hpend 0%nat). rewrite Nat.add_0_r in Hpend. apply Hpend. lia.
Qed.

(** Pending answers for ever: the loop stops at the first test at which
    the bound is reached, after [n] queries. *)
Lemma monitor_loop_times_out :
  forall fuel s,
    (1 <= fuel)%nat ->
    (maxWaitTime + 1000 <= clock s - startTime + 1000 * N.of_nat fuel)%N ->
    (startTime <= clock s)%N ->
    (forall i, pending (getSignatureStatus w (polls s + i) signature)) ->
    exists n s',
      monitor_loop w fuel signature startTime maxWaitTime s
      = (Normal (Done None), s')
      /\ polls s' = (polls s + n)%nat
      /\ console s' = console s ++ [timeout_line]
      /\ built s' = built s /\ sent s' = sent s
      /\ (maxWaitTime <= clock s - startTime + turns_time w (polls s) n)%N
      /\ (forall j, (j < n)%nat ->
            (clock s - startTime + turns_time w (polls s) j < maxWaitTime)%N).
Proof.
  induction fuel as [|fuel IH]; intros s Hfuel Hbound Hstart Hpend; [lia|].
  destruct (N.ltb_spec (clock s - startTime) maxWaitTime) as [Hlt|Hge].
  - rewrite monitor_loop_pending_turn; [|exact Hlt|].
    2:{ specialize (Hpend 0%nat). now rewrite Nat.add_0_r in Hpend. }
    destruct (IH (after_turn w s)) as (n & s' & -> & Hp & Hcon & Hb & Hs & Hn & Hj).
    + lia.
    + cbn [after_turn clock]. lia.
    + cbn [after_turn clock]. lia.
    + intros i. cbn [after_turn polls].
      replace (S (polls s) + i)%nat with (polls s + S i)%nat by lia.
      apply Hpend.
    + exists (S n), s'. split; [reflexivity|].
      cbn [after_turn polls clock console built sent] in *.
      repeat split; auto.
      * lia.
      * cbn [turns_time]. lia.
      * intros j Hjn. destruct j as [|j]; [cbn; lia|].
        cbn [turns_time]. specialize (Hj j). lia.
  - rewrite monitor_loop_timed_out by exact Hge.
    eexists 0%nat, _. split; [reflexivity|]. cbn.
    repeat split; auto; try lia.
Qed.

(** A turn on a status that carries an error and is not confirmed. *)
Lemma monitor_loop_failed_turn fuel s value e :
  (clock s - startTime < maxWaitTime)%N ->
  getSignatureStatus w (polls s) signature = Normal value ->
  is_confirmed value = false ->
  has_err value = Some e ->
  exists s',
    monitor_loop w (S fuel) signature startTime maxWaitTime s
    = (Normal (Done None), s')
    /\ polls s' = S (polls s) /\ console s' = console s ++ [failed_line e]
    /\ built s' = built s /\ sent s' = sent s.
Proof.
  intros Hlt Hq Hc He. cbn [monitor_loop].
  unfold bind at 1. unfold Date_now at 1.
  apply N.ltb_lt in Hlt. rewrite Hlt.
  unfold bind at 1. unfold poll at 1. rewrite Hq, Hc, He.
  eexists. split; [reflexivity|]. cbn. auto.
Qed.

(** A turn on a status query that raises. *)
Lemma monitor_loop_raising_turn fuel s e :
  (clock s - startTime < maxWaitTime)%N ->
  getSignatureStatus w (polls s) signature = Throw e ->
  exists s',
    monitor_loop w (S fuel) signature startTime maxWaitTime s = (Throw e, s')
    /\ polls s' = S (polls s) /\ console s' = console s
    /\ built s' = built s /\ sent s' = sent s.
Proof.
  intros Hlt Hq. cbn [monitor_loop].
  unfold bind at 1. unfold Date_now at 1.
  apply N.ltb_lt in Hlt. rewrite Hlt.
  unfold bind at 1. unfold poll at 1. rewrite Hq.
  eexists. split; [reflexivity|]. cbn. auto.
Qed.

Lemma is_confirmed_status value :
  is_confirmed value = true ->
  exists v, value = Some v
            /\ (confirmationStatus v = Some confirmed
                \/ confirmationStatus v = Some finalized).
Proof.
  destruct value as [v|]; [|discriminate]. cbn.
  destruct (confirmationStatus v) as [[| |]|] eqn:E; try discriminate;
    intros _; exists v; auto.
Qed.

(** With enough fuel the loop returns, whatever the network answers, and
    its result is one of four kinds. *)
Lemma monitor_loop_returns :
  forall fuel s,
    (1 <= fuel)%nat ->
    (maxWaitTime + 1000 <= clock s - startTime + 1000 * N.of_nat fuel)%N ->
    (startTime <= clock s)%N ->
    exists c s',
      monitor_loop w fuel signature startTime maxWaitTime s = (c, s')
      /\ built s' = built s /\ sent s' = sent s
      /\ monitor_outcome w signature s s' c.
Proof.
  induction fuel as [|fuel IH]; intros s Hfuel Hbound Hstart; [lia|].
  destruct (N.ltb_spec (clock s - startTime) maxWaitTime) as [Hlt|Hge].
  - destruct (getSignatureStatus w (polls s) signature) as [value|e] eqn:Hq.
    + destruct (is_confirmed value) eqn:Hc.
      * destruct (monitor_loop_confirmed_turn fuel s value Hlt Hq Hc)
          as (s' & -> & Hp & Hcon & Hb & Hs).
        destruct (is_confirmed_status value Hc) as (v & -> & Hv).
        exists (Normal (Done (Some v))), s'. repeat split; auto.
        -- lia.
        -- rewrite Hp. exact Hq.
      * destruct (has_err value) as [e|] eqn:He.
        -- destruct (monitor_loop_failed_turn fuel s value e Hlt Hq Hc He)
             as (s' & -> & Hp & Hcon & Hb & Hs).
           exists (Normal (Done None)), s'. repeat split; auto.
           right. eauto.
        -- rewrite monitor_loop_pending_turn; [|exact Hlt|].
           2:{ exists value. rewrite Hq. auto. }
           destruct (IH (after_turn w s)) as (c & s' & -> & Hb & Hs & Hout).
           ++ lia.
           ++ cbn [after_turn clock]. lia.
           ++ cbn [after_turn clock]. lia.
           ++ exists c, s'. repeat split; auto.
              unfold monitor_outcome in *. cbn [after_turn polls console] in Hout.
              destruct c as [[[v|]|]|e]; auto.
              ** destruct Hout as (? & ? & ? & ?). repeat split; auto. lia.
              ** destruct Hout as (? & ?). split; auto. lia.
    + destruct (monitor_loop_raising_turn fuel s e Hlt Hq)
        as (s' & -> & Hp & Hcon & Hb & Hs).
      exists (Throw e), s'. repeat split; auto.
      * lia.
      * rewrite Hp. exact Hq.
  - rewrite monitor_loop_timed_out by exact Hge.
    eexists _, _. split; [reflexivity|]. cbn. auto.
Qed.

(** [k] pending answers, then one that carries an error, within the
    bound. *)
Lemma monitor_loop_fails k :
  forall fuel s value e,
    (k < fuel)%nat ->
    (startTime <= clock s)%N ->
    (forall i, (i < k)%nat ->
       pending (getSignatureStatus w (polls s + i) signature)) ->
    getSignatureStatus w (polls s + k) signature = Normal value ->
    is_confirmed value = false ->
    has_err value = Some e ->
    (clock s - startTime + turns_time w (polls s) k < maxWaitTime)%N ->
    exists s',
      monitor_loop w fuel signature startTime maxWaitTime s
      = (Normal (Done None), s')
      /\ polls s' = (polls s + (k + 1))%nat
      /\ console s' = console s ++ [failed_line e]
      /\ built s' = built s /\ sent s' = sent s.
Proof.
  induction k as [|k IH]; intros fuel s value e Hfuel Hstart Hpend Hq Hc He Htime.
  - destruct fuel as [|fuel]; [lia|].
    rewrite Nat.add_0_r in Hq. cbn [turns_time] in Htime.
    destruct (monitor_loop_failed_turn fuel s value e) as (s' & -> & Hp & H);
      [lia | assumption | assumption | assumption |].
    exists s'. split; [reflexivity|]. split; [lia | exact H].
  - destruct fuel as [|fuel]; [lia|].
    cbn [turns_time] in Htime.
    rewrite monitor_loop_pending_turn.
    + destruct (IH fuel (after_turn w s) value e) as (s' & -> & Hp & H).
      * lia.
      * cbn. lia.
      * intros i Hi. cbn [after_turn polls].
        replace (S (polls s) + i)%nat with (polls s + S i)%nat by lia.
        apply Hpend. lia.
      * cbn [after_turn polls].
        replace (S (polls s) + k)%nat with (polls s + S k)%nat by lia.
        exact Hq.
      * exact Hc.
      * exact He.
      * cbn [after_turn polls clock]. lia.
      * exists s'. split; [reflexivity|]. cbn in Hp, H. split; [lia | exact H].
    + lia.
    + specialize (Hpend 0%nat). rewrite Nat.add_0_r in Hpend. apply Hpend. lia.
Qed.

End Monitor.

Lemma monitor_fuel_enough maxWaitTime :
  (maxWaitTime + 1000 <= 0 + 1000 * N.of_nat (monitor_fuel maxWaitTime))%N.
Proof.
  unfold monitor_fuel. rewrite !Nat2N.inj_succ, N2Nat.id.
  pose proof (N.mod_lt maxWaitTime 1000 ltac:(lia)).
  pose proof (N.div_mod maxWaitTime 1000 ltac:(lia)). lia.
Qed.

Lemma monitor_fuel_above maxWaitTime (k : nat) :
  (1000 * N.of_nat k < maxWaitTime)%N -> (k < monitor_fuel maxWaitTime)%nat.
Proof.
  intros Hk. unfold monitor_fuel.
  pose proof (N.mod_lt maxWaitTime 1000 ltac:(lia)).
  pose proof (N.div_mod maxWaitTime 1000 ltac:(lia)).
  assert (N.of_nat k <= maxWaitTime / 1000)%N by lia. lia.
Qed.

Lemma monitorTransactionStatus_unfold w signature maxWaitTime s :
  monitorTransactionStatus w signature maxWaitTime s
  = monitor_loop w (monitor_fuel maxWaitTime) signature (clock s)
      maxWaitTime s.
Proof. reflexivity. Qed.

(** Polling always returns: the fuel of [monitorTransactionStatus] is
    never used up. *)
Lemma monitorTransactionStatus_returns w signature maxWaitTime s :
  exists c s',
    monitorTransactionStatus w signature maxWaitTime s = (c, s')
    /\ built s' = built s /\ sent s' = sent s
    /\ monitor_outcome w signature s s' c.
Proof.
  rewrite monitorTransactionStatus_unfold.
  apply monitor_loop_returns.
  - unfold monitor_fuel. apply le_n_S, Nat.le_0_l.
  - rewrite N.sub_diag. apply monitor_fuel_enough.
  - lia.
Qed.

(** C4, amended.  Polling every 1000 ms under a bound (30000 ms by
    default), on the clock the loop reads.  If the status source answers
    pending to the first [k] queries and confirmed (or finalized) to the
    next, polling returns that status after exactly [k + 1] queries
    provided the time the first [k] turns took -- the [k] queries and the
    [k] sleeps of at least 1000 ms -- is under the bound; when queries
    answer at once and timers fire on time that is [k * 1000 < bound].  If
    the source stays pending for ever, polling stops with the timed-out
    outcome after [n] queries, where [n] is at most the bound divided by
    1000, rounded up, and exactly that when queries answer at once and
    timers fire on time. *)
Theorem monitorTransactionStatus_polling w signature (maxWaitTime : N) s :
  (forall (k : nat) value,
     (forall i, (i < k)%nat ->
        pending (getSignatureStatus w (polls s + i) signature)) ->
     getSignatureStatus w (polls s + k) signature = Normal value ->
     is_confirmed value = true ->
     (turns_time w (polls s) k < maxWaitTime)%N ->
     exists s',
       monitorTransactionStatus w signature maxWaitTime s
       = (Normal (Done value), s')
       /\ polls s' = (polls s + (k + 1))%nat)
  /\ (instantaneous w ->
      forall k : nat, turns_time w (polls s) k = (N.of_nat k * 1000)%N)
  /\ ((forall i, pending (getSignatureStatus w (polls s + i) signature)) ->
      exists (n : nat) s',
        monitorTransactionStatus w signature maxWaitTime s
        = (Normal (Done None), s')
        /\ polls s' = (polls s + n)%nat
        /\ console s' = console s ++ [timeout_line]
        /\ (N.of_nat n * 1000 < maxWaitTime + 1000)%N)
  /\ ((forall i, pending (getSignatureStatus w (polls s + i) signature)) ->
      instantaneous w ->
      exists (n : nat) s',
        monitorTransactionStatus w signature maxWaitTime s
        = (Normal (Done None), s')
        /\ polls s' = (polls s + n)%nat
        /\ (maxWaitTime <= N.of_nat n * 1000 < maxWaitTime + 1000)%N).
Proof.
  assert (Hstall :
    (forall i, pending (getSignatureStatus w (polls s + i) signature)) ->
    exists (n : nat) s',
      monitorTransactionStatus w signature maxWaitTime s
      = (Normal (Done None), s')
      /\ polls s' = (polls s + n)%nat
      /\ console s' = console s ++ [timeout_line]
      /\ (N.of_nat n * 1000 < maxWaitTime + 1000)%N
      /\ (maxWaitTime <= turns_time w (polls s) n)%N).
  { intros Hpend. rewrite monitorTransactionStatus_unfold.
    destruct (monitor_loop_times_out w signature (clock s) maxWaitTime
                (monitor_fuel maxWaitTime) s)
      as (n & s' & Hrun & Hp & Hcon & _ & _ & Hn & Hj).
    - unfold monitor_fuel. apply le_n_S, Nat.le_0_l.
    - rewrite N.sub_diag. apply monitor_fuel_enough.
    - lia.
    - exact Hpend.
    - exists n, s'. rewrite N.sub_diag in Hn, Hj.
      repeat split; auto.
      destruct n as [|n]; [lia|].
      specialize (Hj n ltac:(lia)).
      pose proof (turns_time_lower w (polls s) n). lia. }
  repeat split.
  - intros k value Hpend Hq Hc Htime.
    rewrite monitorTransactionStatus_unfold.
    pose proof (turns_time_lower w (polls s) k) as Hlow.
    destruct (monitor_loop_confirms w signature (clock s) maxWaitTime k
                (monitor_fuel maxWaitTime) s value)
      as (s' & Hrun & Hp & _).
    + apply monitor_fuel_above. lia.
    + lia.
    + exact Hpend.
    + exact Hq.
    + exact Hc.
    + rewrite N.sub_diag. exact Htime.
    + eauto.
  - intros Hi k. rewrite turns_time_instantaneous by exact Hi. lia.
  - intros Hpend.
    destruct (Hstall Hpend) as (n & s' & Hrun & Hp & Hcon & Hn & _). eauto 6.
  - intros Hpend Hi.
    destruct (Hstall Hpend) as (n & s' & Hrun & Hp & Hcon & Hn & Hge).
    rewrite turns_time_instantaneous in Hge by exact Hi.
    exists n, s'. repeat split; auto; lia.
Qed.

Lemma monitorTransactionStatus_polling_witness :
  (exists s',
     monitorTransactionStatus (confirms_after 3) signature0
       default_maxWaitTime initial
     = (Normal (Done status_confirmed), s')
     /\ polls s' = (polls initial + (3 + 1))%nat)
  /\ (forall k : nat,
        turns_time (confirms_after 3) (polls initial) k
        = (N.of_nat k * 1000)%N)
  /\ (exists (n : nat) s',
        monitorTransactionStatus stalled_slow signature0
          default_maxWaitTime initial
        = (Normal (Done None), s')
        /\ polls s' = (polls initial + n)%nat
        /\ console s' = console initial ++ [timeout_line]
        /\ (N.of_nat n * 1000 < default_maxWaitTime + 1000)%N)
  /\ (exists (n : nat) s',
        monitorTransactionStatus stalled signature0
          default_maxWaitTime initial
        = (Normal (Done None), s')
        /\ polls s' = (polls initial + n)%nat
        /\ (default_maxWaitTime <= N.of_nat n * 1000
            < default_maxWaitTime + 1000)%N).
Proof.
  split; [|split; [|split]].
  - apply (proj1 (monitorTransactionStatus_polling (confirms_after 3)
                    signature0 default_maxWaitTime initial)
             3%nat status_confirmed).
    + intros i Hi. apply pendingb_pending.
      destruct i as [|[|[|i]]]; [reflexivity | reflexivity | reflexivity | lia].
    + reflexivity.
    + reflexivity.
    + reflexivity.
  - apply (proj1 (proj2 (monitorTransactionStatus_polling (confirms_after 3)
                           signature0 default_maxWaitTime initial))).
    intros n. split; reflexivity.
  - apply (proj1 (proj2 (proj2 (monitorTransactionStatus_polling stalled_slow
                                  signature0 default_maxWaitTime
                                  initial)))).
    intros i. apply pendingb_pending. reflexivity.
  - apply (proj2 (proj2 (proj2 (monitorTransactionStatus_polling stalled
                                  signature0 default_maxWaitTime
                                  initial)))).
    + intros i. apply pendingb_pending. reflexivity.
    + intros n. split; reflexivity.
Defined.

(** C4 as stated fails once status queries take time.  With 40 ms per
    query, a source that is pending 29 times and then confirmed
    ([29 * 1000 < 30000]) is never asked a 30th time: polling times out
    after 29 queries.  With 5 s per query, a source that never resolves is
    given up on after 5 queries, not 30 give or take one. *)
Lemma monitorTransactionStatus_latency_counterexample :
  forallb (fun i => pendingb (getSignatureStatus sluggish i signature0))
    (seq 0 29) = true
  /\ getSignatureStatus sluggish 29 signature0 = Normal status_confirmed
  /\ (29 * 1000 < default_maxWaitTime)%N
  /\ fst (run (monitorTransactionStatus sluggish signature0
                 default_maxWaitTime))
     = Normal (Done None)
  /\ polls (snd (run (monitorTransactionStatus sluggish signature0
                        default_maxWaitTime)))
     = 29%nat
  /\ fst (run (monitorTransactionStatus stalled_slow signature0
                 default_maxWaitTime))
     = Normal (Done None)
  /\ polls (snd (run (monitorTransactionStatus stalled_slow
                        signature0 default_maxWaitTime)))
     = 5%nat.
Proof. vm_compute. repeat split. Qed.

(** C5, amended.  Polling always returns.  It returns null for the failed
    outcome (an answer that carries an error, for a transaction that is
    not confirmed) and for the timed-out outcome alike; the two are told
    apart on the console only, by the lines "Transaction failed: ..." and
    "Transaction confirmation timeout".  An outcome that the network has
    not confirmed is never returned as a success: a value other than null
    is the answer of the last query, and its confirmation status is
    confirmed or finalized. *)
Theorem monitorTransactionStatus_outcomes w signature (maxWaitTime : N) s :
  (exists c s',
     monitorTransactionStatus w signature maxWaitTime s = (c, s')
     /\ nothing_sent s s'
     /\ monitor_outcome w signature s s' c)
  /\ (forall (k : nat) value e,
        (forall i, (i < k)%nat ->
           pending (getSignatureStatus w (polls s + i) signature)) ->
        getSignatureStatus w (polls s + k) signature = Normal value ->
        is_confirmed value = false ->
        has_err value = Some e ->
        (turns_time w (polls s) k < maxWaitTime)%N ->
        exists s',
          monitorTransactionStatus w signature maxWaitTime s
          = (Normal (Done None), s')
          /\ console s' = console s ++ [failed_line e])
  /\ ((forall i, pending (getSignatureStatus w (polls s + i) signature)) ->
      exists s',
        monitorTransactionStatus w signature maxWaitTime s
        = (Normal (Done None), s')
        /\ console s' = console s ++ [timeout_line])
  /\ (forall e, failed_line e <> timeout_line).
Proof.
  split; [|split; [|split]].
  - destruct (monitorTransactionStatus_returns w signature maxWaitTime s)
      as (c & s' & Hrun & Hb & Hs & Hout).
    exists c, s'. unfold nothing_sent. auto.
  - intros k value e Hpend Hq Hc He Htime.
    rewrite monitorTransactionStatus_unfold.
    pose proof (turns_time_lower w (polls s) k) as Hlow.
    destruct (monitor_loop_fails w signature (clock s) maxWaitTime k
                (monitor_fuel maxWaitTime) s value e)
      as (s' & Hrun & _ & Hcon & _).
    + apply monitor_fuel_above. lia.
    + lia.
    + exact Hpend.
    + exact Hq.
    + exact Hc.
    + exact He.
    + rewrite N.sub_diag. exact Htime.
    + eauto.
  - intros Hpend. rewrite monitorTransactionStatus_unfold.
    destruct (monitor_loop_times_out w signature (clock s) maxWaitTime
                (monitor_fuel maxWaitTime) s)
      as (n & s' & Hrun & _ & Hcon & _).
    + unfold monitor_fuel. apply le_n_S, Nat.le_0_l.
    + rewrite N.sub_diag. apply monitor_fuel_enough.
    + lia.
    + exact Hpend.
    + eauto.
  - intros e. discriminate.
Qed.

Lemma monitorTransactionStatus_outcomes_witness :
  (exists s',
     monitorTransactionStatus rejected signature0 default_maxWaitTime
       initial
     = (Normal (Done None), s')
     /\ console s' = console initial ++ [failed_line "InsufficientFundsForRent"])
  /\ (exists s',
        monitorTransactionStatus stalled signature0
          default_maxWaitTime initial
        = (Normal (Done None), s')
        /\ console s' = console initial ++ [timeout_line]).
Proof.
  split.
  - apply (proj1 (proj2 (monitorTransactionStatus_outcomes rejected
                           signature0 default_maxWaitTime initial))
             0%nat status_failed "InsufficientFundsForRent").
    + intros i Hi. lia.
    + reflexivity.
    + reflexivity.
    + reflexivity.
    + reflexivity.
  - apply (proj1 (proj2 (proj2 (monitorTransactionStatus_outcomes stalled
                                  signature0 default_maxWaitTime
                                  initial)))).
    intros i. apply pendingb_pending. reflexivity.
Defined.

(** C5 as stated fails: a transaction the network reports as failed and a
    transaction whose status never resolves give the caller the same
    return value. *)
Lemma monitorTransactionStatus_same_null_counterexample :
  getSignatureStatus rejected 0 signature0 = Normal status_failed
  /\ forallb (fun i => pendingb (getSignatureStatus stalled i signature0))
       (seq 0 31) = true
  /\ fst (run (monitorTransactionStatus rejected signature0
                 default_maxWaitTime))
     = Normal (Done None)
  /\ fst (run (monitorTransactionStatus stalled signature0
                 default_maxWaitTime))
     = Normal (Done None).
Proof. vm_compute. repeat split. Qed.

(** The loop tests the confirmation status before the error: on a
    network that confirms a transaction and reports an error for it, the
    answer comes back as the network gave it, and the swap script reports
    the error. *)
Example monitorTransactionStatus_confirmed_with_err :
  fst (run (monitorTransactionStatus reverted signature0
              default_maxWaitTime))
  = Normal (Done status_reverted)
  /\ console (snd (run (jupiterSwapSOLtoUSDC (settings true) reverted)))
     = [error_line [Str "Swap failed:"; Str "InstructionError"]].
Proof. vm_compute. split; reflexivity. Qed.

(** ** The scenario drivers *)

Lemma addLightSpeedTip_suffix cfg l payer :
  addLightSpeedTip cfg l payer = l ++ tip_suffix cfg payer.
Proof.
  unfold addLightSpeedTip, tip_suffix.
  destruct (USE_LIGHTSPEED cfg); cbn; [reflexivity | now rewrite app_nil_r].
Qed.

Lemma bind_compileToV0Message {B} m (k : TransactionMessage -> M B) s :
  bind (compileToV0Message m) k s
  = k m {| console := console s; built := built s ++ [m]; sent := sent s;
           polls := polls s; clock := clock s |}.
Proof. reflexivity. Qed.

(** Submitting and then watching the transaction: the script hands [tx]
    to the endpoint some number of times and compiles nothing. *)
Lemma send_then_monitor w tx s :
  exists c s' (n : nat),
    (signature <- sendTxWithRetries w tx default_maxAttempts ;;
     match signature with
     | Some signature =>
       monitorTransactionStatus w signature default_maxWaitTime ;; ret tt
     | None => ret tt
     end) s = (c, s')
    /\ built s' = built s /\ sent s' = sent s ++ repeat tx n.
Proof.
  destruct (sendTx_loop_returns w tx default_maxAttempts default_maxAttempts
              1%nat s) as (r & s1 & Hrun & Hb & _ & _ & [n Hn] & _).
  unfold sendTxWithRetries. rewrite (bind_normal _ _ _ _ _ Hrun).
  destruct r as [signature|].
  - destruct (monitorTransactionStatus_returns w signature
                default_maxWaitTime s1) as (c & s' & Hmon & Hb' & Hs' & _).
    destruct c as [a|e].
    + rewrite (bind_normal _ _ _ _ _ Hmon). exists (Normal tt), s', n.
      cbn. repeat split; congruence.
    + rewrite (bind_throw _ _ _ _ _ Hmon). exists (Throw e), s', n.
      repeat split; congruence.
  - exists (Normal tt), s1, n. cbn. auto.
Qed.

(** The run stops here, having compiled and sent nothing. *)
Ltac abort_here :=
  eexists _, _; split; [reflexivity|]; left;
  split; first [reflexivity | assumption | congruence].

Ltac await_or_abort :=
  match goal with
  | |- context [bind (await ?c) _ _] =>
    let E := fresh "E" in
    destruct c eqn:E;
    [ rewrite bind_await_normal
    | rewrite bind_await_throw; abort_here ]
  end.

Ltac guard_or_abort cfg w wallet required description s :=
  let balance := fresh "balance" in
  let Hbal := fresh "Hbal" in
  let Hguard := fresh "Hguard" in
  destruct (getBalance w (publicKey wallet)) as [balance|?] eqn:Hbal;
  [ destruct (checkBalance_outcome cfg w wallet required description balance
                s Hbal) as (?s & Hguard & ?Hb & ?Hs & _ & _ & ?Hcon);
    rewrite (bind_normal _ _ _ _ _ Hguard); clear Hguard
  | rewrite (bind_throw _ _ _ _ _
               (checkBalance_throws cfg w wallet required description _ s
                  Hbal));
    abort_here ].

Lemma solTransfer_runs cfg w recipientAddress s :
  exists c s',
    solTransfer cfg w recipientAddress s = (c, s')
    /\ (nothing_sent s s'
        \/ exists wallet balance blockhash,
             readWallet w (WALLET_PATH cfg) = Normal wallet
             /\ getBalance w (publicKey wallet) = Normal balance
             /\ total_required cfg 1005000 <= balance
             /\ proceeded s s'
                  (compiled (publicKey wallet) blockhash
                     (composed cfg (publicKey wallet) 200000 1000
                        (native_core (publicKey wallet)
                           (default (DEFAULT_RECIPIENT cfg)
                              (truthy recipientAddress))))
                     [])
                  wallet).
Proof.
  unfold solTransfer, loadWallet.
  change (LAMPORTS_PER_SOL / 1000) with 1000000.
  change (1000000 + 5000) with 1005000.
  await_or_abort. rename a into wallet.
  guard_or_abort cfg w wallet 1005000 (Some "SOL transfer") s.
  destruct (balance <? total_required cfg 1005000) eqn:Hlt; cbn [negb].
  { abort_here. }
  await_or_abort. rename a into blockhash.
  rewrite bind_compileToV0Message, addLightSpeedTip_suffix.
  match goal with
  | |- context [bind (sendTxWithRetries w ?tx _) _ ?s2] =>
    destruct (send_then_monitor w tx s2) as (c & s' & n & -> & Hb' & Hs')
  end.
  exists c, s'. split; [reflexivity|]. right.
  exists wallet, balance, blockhash. repeat split; auto.
  - apply Z.ltb_ge. exact Hlt.
  - rewrite Hb'. cbn. rewrite Hb. reflexivity.
  - exists n. rewrite Hs'. cbn. rewrite Hs. reflexivity.
Qed.


Lemma loadLookupTables_pure w addresses s :
  exists c, loadLookupTables w addresses s = (c, s).
Proof.
  induction addresses as [|address rest IH]; cbn [loadLookupTables].
  - eexists. reflexivity.
  - destruct (getAddressLookupTable w address) as [table|e].
    + rewrite bind_await_normal. destruct IH as [[tables|e] IH].
      * rewrite (bind_normal _ _ _ _ _ IH). eexists. reflexivity.
      * rewrite (bind_throw _ _ _ _ _ IH). eexists. reflexivity.
    + rewrite bind_await_throw. eexists. reflexivity.
Qed.


Lemma try_catch_normal {A} (body : M A) handler s a s1 :
  body s = (Normal a, s1) -> try_catch body handler s = (Normal a, s1).
Proof. unfold try_catch. intros ->. reflexivity. Qed.

Lemma try_catch_throw {A} (body : M A) handler s e s1 :
  body s = (Throw e, s1) -> try_catch body handler s = handler e s1.
Proof. unfold try_catch. intros ->. reflexivity. Qed.


(** Each script does proceed on a network on which everything works. *)
Example solTransfer_proceeds :
  map instructions
    (built (snd (run (solTransfer (settings true) (calm 10000000) None))))
  = [[setComputeUnitLimit 200000; setComputeUnitPrice 1000;
      SystemProgram_transfer (publicKey wallet0) PLACEHOLDER_RECIPIENT 1000000;
      tipInstruction (publicKey wallet0)]]
  /\ length
       (sent (snd (run (solTransfer (settings true) (calm 10000000) None))))
     = 1%nat.
Proof. vm_compute. split; reflexivity. Qed.

Example tokenTransfer_proceeds :
  map instructions
    (built (snd (run (tokenTransfer (settings true)
                        (holding 10000000 (Some 5%Q) false) None None None))))
  = [[setComputeUnitLimit 200000; setComputeUnitPrice 1000;
      createAssociatedTokenAccountInstruction (publicKey wallet0)
        (String.append "ata:" PLACEHOLDER_RECIPIENT) PLACEHOLDER_RECIPIENT
        USDC_MINT;
      createTransferInstruction
        (String.append "ata:" (publicKey wallet0))
        (String.append "ata:" PLACEHOLDER_RECIPIENT) (publicKey wallet0) 1;
      tipInstruction (publicKey wallet0)]]
  /\ length
       (sent (snd (run (tokenTransfer (settings true)
                          (holding 10000000 (Some 5%Q) false) None None
                          None))))
     = 1%nat.
Proof. vm_compute. split; reflexivity. Qed.

Example jupiterSwap_proceeds :
  map instructions
    (built (snd (run (jupiterSwapSOLtoUSDC (settings true) (calm 10000000)))))
  = [[setComputeUnitLimit 400000; setComputeUnitPrice 50000;
      deserializeInstruction (swapInstruction swap0);
      tipInstruction (publicKey wallet0)]]
  /\ length
       (sent (snd (run (jupiterSwapSOLtoUSDC (settings true)
                          (calm 10000000)))))
     = 1%nat.
Proof. vm_compute. split; reflexivity. Qed.





(** The native transfer has no guard on its recipient.  Sent to the
    fee-collection address with tipping disabled, its own transfer of
    1000000 lamports is the last element of the list, and nothing was
    appended to it. *)
Example solTransfer_to_the_fee_address :
  map instructions
    (built (snd (run (solTransfer (settings false) (calm 10000000)
                        (Some TIPS_VIBE_STATION)))))
  = [[setComputeUnitLimit 200000; setComputeUnitPrice 1000]
       ++ native_core (publicKey wallet0) TIPS_VIBE_STATION].
Proof. vm_compute. reflexivity. Qed.

(** *** The swap, when the aggregator fails *)

Lemma swap_error_report_http msg code body :
  swap_error_report (AxiosError msg (Some {| status := code; data := body |}))
  = [error_line [Str "Swap error:"; Str msg]]
    ++ api_error_lines body
    ++ (if code =? 429 then [rate_limited_line]
        else if code =? 400 then [bad_request_line] else []).
Proof. unfold swap_error_report. destruct body; reflexivity. Qed.

Lemma jupiterSwap_aggregator_error cfg w s wallet balance e :
  readWallet w (WALLET_PATH cfg) = Normal wallet ->
  getBalance w (publicKey wallet) = Normal balance ->
  total_required cfg 1060000 <= balance ->
  aggregator_fails w (publicKey wallet) e ->
  exists s',
    jupiterSwapSOLtoUSDC cfg w s = (Normal tt, s')
    /\ nothing_sent s s'
    /\ console s' = console s ++ swap_error_report e.
Proof.
  intros Hwallet Hbal Hge Hfail. unfold jupiterSwapSOLtoUSDC, loadWallet.
  change (LAMPORTS_PER_SOL / 1000) with 1000000.
  change (1000000 + 10000 + 50000) with 1060000.
  rewrite Hwallet, bind_await_normal.
  destruct (checkBalance_outcome cfg w wallet 1060000 (Some "Jupiter swap")
              balance s Hbal)
    as (s0 & Hguard & Hb & Hs & _ & _ & Hcon).
  rewrite (bind_normal _ _ _ _ _ Hguard).
  apply Z.ltb_ge in Hge. rewrite Hge in Hcon |- *. cbn [negb].
  rewrite app_nil_r in Hcon.
  match goal with
  | |- context [try_catch ?b ?h s0] =>
    assert (Hbody : b s0 = (Throw e, s0))
  end.
  { destruct Hfail as [Hq|(quote & Hq & Hp)]; rewrite Hq; [reflexivity|].
    rewrite bind_await_normal, Hp. reflexivity. }
  rewrite (try_catch_throw _ _ _ _ _ Hbody).
  destruct e as [m|m [[code [body|]]|]]; cbn;
    repeat match goal with
           | |- context [if ?b then _ else _] => destruct b
           end; cbn;
    (eexists; split; [reflexivity|]; cbn; split; [split; assumption|]);
    rewrite Hcon, <- ?app_assoc; reflexivity.
Qed.

(** C9. In the swap scenario, when a call to the aggregator fails with
    HTTP status 429 the operation ends without compiling or sending any
    transaction and the rate-limit message is written; with status 400 the
    bad-request message is written instead; the two messages differ; and
    in both cases the script returns normally, the error is not passed on
    to the caller. *)
Theorem jupiterSwap_http_errors cfg w s wallet (balance : Z) msg body :
  readWallet w (WALLET_PATH cfg) = Normal wallet ->
  getBalance w (publicKey wallet) = Normal balance ->
  1060000 + tip_due cfg <= balance ->
  (aggregator_fails w (publicKey wallet)
     (AxiosError msg (Some {| status := 429; data := body |})) ->
   exists s',
     jupiterSwapSOLtoUSDC cfg w s = (Normal tt, s')
     /\ nothing_sent s s'
     /\ console s'
        = console s
          ++ [error_line [Str "Swap error:"; Str msg]]
          ++ api_error_lines body ++ [rate_limited_line])
  /\ (aggregator_fails w (publicKey wallet)
        (AxiosError msg (Some {| status := 400; data := body |})) ->
      exists s',
        jupiterSwapSOLtoUSDC cfg w s = (Normal tt, s')
        /\ nothing_sent s s'
        /\ console s'
           = console s
             ++ [error_line [Str "Swap error:"; Str msg]]
             ++ api_error_lines body ++ [bad_request_line])
  /\ rate_limited_line <> bad_request_line.
Proof.
  intros Hwallet Hbal Hge. rewrite <- total_required_tip_due in Hge by safe_cost.
  split; [|split].
  - intros Hfail.
    destruct (jupiterSwap_aggregator_error cfg w s wallet balance _ Hwallet
                Hbal Hge Hfail) as (s' & Hrun & Hno & Hcon).
    exists s'. rewrite swap_error_report_http in Hcon. auto.
  - intros Hfail.
    destruct (jupiterSwap_aggregator_error cfg w s wallet balance _ Hwallet
                Hbal Hge Hfail) as (s' & Hrun & Hno & Hcon).
    exists s'. rewrite swap_error_report_http in Hcon. auto.
  - discriminate.
Qed.

Lemma jupiterSwap_http_errors_witness :
  (exists s',
     jupiterSwapSOLtoUSDC (settings true)
       (aggregator (Throw too_many_requests) (Normal (Some swap0))) initial
     = (Normal tt, s')
     /\ nothing_sent initial s'
     /\ console s'
        = console initial
          ++ [error_line [Str "Swap error:";
                          Str "Request failed with status code 429"]]
          ++ api_error_lines (Some "Rate limit exceeded")
          ++ [rate_limited_line])
  /\ (exists s',
        jupiterSwapSOLtoUSDC (settings true)
          (aggregator (Normal quote0) (Throw bad_request)) initial
        = (Normal tt, s')
        /\ nothing_sent initial s'
        /\ console s'
           = console initial
             ++ [error_line [Str "Swap error:";
                             Str "Request failed with status code 400"]]
             ++ api_error_lines None ++ [bad_request_line]).
Proof.
  split.
  - apply (proj1 (jupiterSwap_http_errors (settings true)
                    (aggregator (Throw too_many_requests)
                       (Normal (Some swap0)))
                    initial wallet0 10000000
                    "Request failed with status code 429"
                    (Some "Rate limit exceeded") eq_refl eq_refl
                    ltac:(vm_compute; discriminate))).
    left. reflexivity.
  - apply (proj1 (proj2 (jupiterSwap_http_errors (settings true)
                           (aggregator (Normal quote0) (Throw bad_request))
                           initial wallet0 10000000
                           "Request failed with status code 400" None
                           eq_refl eq_refl
                           ltac:(vm_compute; discriminate)))).
    right. exists quote0. split; reflexivity.
Defined.

(** ** The two native-transfer scripts *)

Lemma example1_solTransfer_runs cfg w s :
  exists c s',
    example1_solTransfer cfg w s = (c, s')
    /\ (nothing_sent s s'
        \/ exists wallet balance blockhash,
             readWallet w (WALLET_PATH cfg) = Normal wallet
             /\ getBalance w (publicKey wallet) = Normal balance
             /\ total_required cfg (1005000 + TIPS_VIBE_FEE) <= balance
             /\ proceeded s s'
                  (compiled (publicKey wallet) blockhash
                     (composed cfg (publicKey wallet) 200000 1000
                        (native_core (publicKey wallet) EXAMPLE1_RECIPIENT))
                     [])
                  wallet).
Proof.
  unfold example1_solTransfer, loadWallet.
  change (LAMPORTS_PER_SOL / 1000) with 1000000.
  change (1000000 + TIPS_VIBE_FEE + 5000) with (1005000 + TIPS_VIBE_FEE).
  await_or_abort. rename a into wallet.
  guard_or_abort cfg w wallet (1005000 + TIPS_VIBE_FEE) (Some "SOL transfer") s.
  destruct (balance <? total_required cfg (1005000 + TIPS_VIBE_FEE)) eqn:Hlt;
    cbn [negb].
  { abort_here. }
  await_or_abort. rename a into blockhash.
  rewrite bind_compileToV0Message, addLightSpeedTip_suffix.
  match goal with
  | |- context [bind (sendTxWithRetries w ?tx _) _ ?s2] =>
    destruct (send_then_monitor w tx s2) as (c & s' & n & -> & Hb' & Hs')
  end.
  exists c, s'. split; [reflexivity|]. right.
  exists wallet, balance, blockhash. repeat split; auto.
  - apply Z.ltb_ge. exact Hlt.
  - rewrite Hb'. cbn. rewrite Hb. reflexivity.
  - exists n. rewrite Hs'. cbn. rewrite Hs. reflexivity.
Qed.

(** C6 does not hold of the code.  [solTransfer] leaves the tip to the
    guard; [example1_solTransfer] puts [TIPS_VIBE_FEE] in the base cost
    and the guard adds it again.  For the same transfer to the same
    recipient, from a wallet of 2 500 000 lamports with tipping enabled,
    the first proceeds and the second is refused for want of 3 005 000;
    with tipping disabled and 1 500 000 lamports the first proceeds and
    the second still asks for the tip it will not send.  In general the
    second proceeds only on a balance that covers the tip twice (once,
    with tipping disabled). *)
Theorem example1_solTransfer_counts_tip_twice :
  (length (sent (snd (run (solTransfer (settings true) (calm 2500000)
                             (Some EXAMPLE1_RECIPIENT)))))
   = 1%nat
   /\ run (example1_solTransfer (settings true) (calm 2500000))
      = (Normal tt,
         {| console :=
              insufficient_report (settings true) 2500000
                (1000000 + 5000 + TIPS_VIBE_FEE + TIPS_VIBE_FEE)
                (Some "SOL transfer");
            built := []; sent := []; polls := 0; clock := 0 |}))
  /\ (length (sent (snd (run (solTransfer (settings false) (calm 1500000)
                                (Some EXAMPLE1_RECIPIENT)))))
      = 1%nat
      /\ run (example1_solTransfer (settings false) (calm 1500000))
         = (Normal tt,
            {| console :=
                 insufficient_report (settings false) 1500000
                   (1000000 + 5000 + TIPS_VIBE_FEE) (Some "SOL transfer");
               built := []; sent := []; polls := 0; clock := 0 |}))
  /\ (forall cfg w s,
        exists c s',
          example1_solTransfer cfg w s = (c, s')
          /\ (nothing_sent s s'
              \/ exists wallet balance,
                   getBalance w (publicKey wallet) = Normal balance
                   /\ 1000000 + 5000 + TIPS_VIBE_FEE + tip_due cfg
                      <= balance)).
Proof.
  split; [|split].
  - split; vm_compute; reflexivity.
  - split; vm_compute; reflexivity.
  - intros cfg w s.
    destruct (example1_solTransfer_runs cfg w s)
      as (c & s' & Hrun & [Hno|(wallet & balance & blockhash & _ & Hbal & Hge
                                & _)]);
      exists c, s'; (split; [exact Hrun|]); [left; exact Hno|].
    right. exists wallet, balance. split; [exact Hbal|].
    rewrite total_required_tip_due in Hge by safe_cost. unfold TIPS_VIBE_FEE in *. lia.
Qed.


(** * The scripts, case by case *)

(** ** Loading the configuration *)

Lemma unset_getenv env k : unset env k <-> getenv env k = None.
Proof.
  unfold unset, getenv, truthy.
  destruct (env !! k) as [[|c x]|]; split; intros H; auto;
    try discriminate; destruct H; discriminate.
Qed.


Lemma getenv_unset env k : env !! k = None -> getenv env k = None.
Proof. unfold getenv. intros ->. reflexivity. Qed.

(** The state after the check of [DEFAULT_RECIPIENT]. *)
Lemma load_config_unfold w env s rpc lightspeed wallet_path :
  getenv env "RPC_ENDPOINT" = Some rpc ->
  getenv env "RPC_LIGHTSPEED_ENDPOINT" = Some lightspeed ->
  getenv env "WALLET_PATH" = Some wallet_path ->
  let cfg := config_from w env rpc lightspeed wallet_path in
  let s1 :=
    if bool_decide (getenv env "DEFAULT_RECIPIENT" = None)
    then {| console := console s ++ [placeholder_warning];
            built := built s; sent := sent s; polls := polls s;
            clock := clock s |}
    else s in
  load_config w env s
  = match newConnection w rpc with
    | Throw e => (Throw e, s1)
    | Normal _ =>
      match newConnection w (selectedEndpoint cfg) with
      | Throw e => (Throw e, s1)
      | Normal _ => (Normal cfg, s1)
      end
    end.
Proof.
  intros Hrpc Hls Hwp. unfold load_config. rewrite Hrpc, Hls, Hwp.
  fold (config_from w env rpc lightspeed wallet_path).
  destruct (bool_decide (getenv env "DEFAULT_RECIPIENT" = None));
    cbv [when bind console_warn write ret await];
    change (RPC_ENDPOINT (config_from w env rpc lightspeed wallet_path))
      with rpc;
    destruct (newConnection w rpc);
    try destruct (newConnection w
                    (selectedEndpoint
                       (config_from w env rpc lightspeed wallet_path)));
    reflexivity.
Qed.

(** X1.  The three required variables are checked in the order of the file,
    an empty value counts as none, and the first one that is missing names
    the error; nothing is written before it is raised. *)
Theorem load_config_required_variables w env s :
  (unset env "RPC_ENDPOINT" ->
   load_config w env s
   = (Throw (JsError "RPC_ENDPOINT is not set in .env file"), s))
  /\ (~ unset env "RPC_ENDPOINT" ->
      unset env "RPC_LIGHTSPEED_ENDPOINT" ->
      load_config w env s
      = (Throw (JsError "RPC_LIGHTSPEED_ENDPOINT is not set in .env file"),
         s))
  /\ (~ unset env "RPC_ENDPOINT" ->
      ~ unset env "RPC_LIGHTSPEED_ENDPOINT" ->
      unset env "WALLET_PATH" ->
      load_config w env s
      = (Throw (JsError "WALLET_PATH is not set in .env file"), s)).
Proof.
  rewrite !unset_getenv. unfold load_config.
  split; [|split].
  - intros ->. reflexivity.
  - intros Hrpc ->. destruct (getenv env "RPC_ENDPOINT"); [reflexivity|].
    contradiction.
  - intros Hrpc Hls ->.
    destruct (getenv env "RPC_ENDPOINT"); [|contradiction].
    destruct (getenv env "RPC_LIGHTSPEED_ENDPOINT"); [reflexivity|].
    contradiction.
Qed.

Lemma load_config_required_variables_witness :
  load_config (calm 10000000) ∅ initial
  = (Throw (JsError "RPC_ENDPOINT is not set in .env file"), initial)
  /\ load_config (calm 10000000)
       {[ "RPC_ENDPOINT" := "https://rpc.example";
          "RPC_LIGHTSPEED_ENDPOINT" := "" ]} initial
     = (Throw (JsError "RPC_LIGHTSPEED_ENDPOINT is not set in .env file"),
        initial)
  /\ load_config (calm 10000000)
       {[ "RPC_ENDPOINT" := "https://rpc.example";
          "RPC_LIGHTSPEED_ENDPOINT" := "https://lightspeed.example" ]}
       initial
     = (Throw (JsError "WALLET_PATH is not set in .env file"), initial).
Proof.
  split; [|split].
  - apply (proj1 (load_config_required_variables (calm 10000000) ∅ initial)).
    left. reflexivity.
  - apply (proj1 (proj2 (load_config_required_variables (calm 10000000)
                           {[ "RPC_ENDPOINT" := "https://rpc.example";
                              "RPC_LIGHTSPEED_ENDPOINT" := "" ]} initial))).
    + intros [H|H]; vm_compute in H; discriminate.
    + right. reflexivity.
  - apply (proj2 (proj2 (load_config_required_variables (calm 10000000)
                           {[ "RPC_ENDPOINT" := "https://rpc.example";
                              "RPC_LIGHTSPEED_ENDPOINT" :=
                                "https://lightspeed.example" ]} initial))).
    + intros [H|H]; vm_compute in H; discriminate.
    + intros [H|H]; vm_compute in H; discriminate.
    + left. reflexivity.
Defined.



(** ** The two helpers that edit an instruction list *)

(** X3.  On a unit limit and a price that the SDK encodes, the two
    helpers commute, and between them they keep the caller's instructions
    as they are, in their order, between the compute-budget pair and the
    tip. *)
Theorem addComputeBudget_addLightSpeedTip cfg l payer units price :
  is_u32 units ->
  is_u64 price ->
  addComputeBudget (addLightSpeedTip cfg l payer) units price
  = addLightSpeedTip cfg (addComputeBudget l units price) payer
  /\ addLightSpeedTip cfg (addComputeBudget l units price) payer
     = composed cfg payer units price l
  /\ take (length l) (drop 2 (composed cfg payer units price l)) = l.
Proof.
  intros _ _.
  rewrite !addLightSpeedTip_suffix. unfold addComputeBudget, composed.
  repeat split. cbn [drop]. apply take_app_length.
Qed.

Lemma addComputeBudget_addLightSpeedTip_witness :
  let l := native_core (publicKey wallet0) EXAMPLE1_RECIPIENT in
  addComputeBudget
    (addLightSpeedTip (settings true) l (publicKey wallet0))
    default_computeUnits default_priorityFee
  = addLightSpeedTip (settings true)
      (addComputeBudget l default_computeUnits default_priorityFee)
      (publicKey wallet0)
  /\ addLightSpeedTip (settings true)
       (addComputeBudget l default_computeUnits default_priorityFee)
       (publicKey wallet0)
     = composed (settings true) (publicKey wallet0) default_computeUnits
         default_priorityFee l
  /\ take (length l)
       (drop 2
          (composed (settings true) (publicKey wallet0) default_computeUnits
             default_priorityFee l))
     = l.
Proof.
  intros l.
  apply (addComputeBudget_addLightSpeedTip (settings true) l
           (publicKey wallet0) default_computeUnits default_priorityFee);
    split; vm_compute; congruence.
Defined.


(** ** The retry pipeline, in full *)

Section RetryTrace.

Variable w : World.
Variable tx : VersionedTransaction.
Variable maxAttempts : nat.

Lemma failed_attempts_S first attempt k :
  failed_attempts w tx first attempt (S k)
  = attempt_line attempt (attempt_error (sendRawTransaction w first tx))
    :: failed_attempts w tx (S first) (S attempt) k.
Proof.
  unfold failed_attempts. cbn [seq map]. rewrite !Nat.add_0_r. f_equal.
  rewrite <- seq_shift, map_map. apply map_ext. intros i.
  rewrite !Nat.add_succ_r. reflexivity.
Qed.

(** One failed attempt, with what it writes. *)
Lemma sendTx_loop_failed_attempt_log remaining attempt s :
  attempt_fails (sendRawTransaction w (length (sent s)) tx) ->
  exists s1,
    sendTx_loop w tx maxAttempts (S remaining) attempt s
    = sendTx_loop w tx maxAttempts remaining (S attempt) s1
    /\ sent s1 = sent s ++ [tx] /\ built s1 = built s
    /\ polls s1 = polls s /\ clock s1 = clock s
    /\ console s1
       = console s
         ++ attempt_line attempt
              (attempt_error (sendRawTransaction w (length (sent s)) tx))
            :: (if Nat.eqb attempt maxAttempts then [max_retries_line]
                else []).
Proof.
  intros Hfail. cbn [sendTx_loop].
  unfold bind at 1. unfold try_catch, bind at 1. unfold submit at 1.
  destruct (sendRawTransaction w (length (sent s)) tx) as [signature|e].
  - cbn in Hfail. subst signature. cbn.
    destruct (Nat.eqb attempt maxAttempts); cbn;
      (eexists; split; [reflexivity|]); cbn; rewrite <- ?app_assoc; auto 6.
  - cbn. destruct (Nat.eqb attempt maxAttempts); cbn;
      (eexists; split; [reflexivity|]); cbn; rewrite <- ?app_assoc; auto 6.
Qed.

(** The whole loop: how many calls, what comes back, what is written. *)
Lemma sendTx_loop_trace :
  forall remaining attempt s,
    (attempt + remaining = S maxAttempts)%nat ->
    exists r s' (n : nat),
      sendTx_loop w tx maxAttempts remaining attempt s = (Normal r, s')
      /\ sent s' = sent s ++ repeat tx n
      /\ (n <= remaining)%nat
      /\ match r with
         | Some signature =>
           (1 <= n)%nat /\ signature <> ""
           /\ sendRawTransaction w (length (sent s) + (n - 1)) tx
              = Normal signature
           /\ (forall i, (i < n - 1)%nat ->
                 attempt_fails
                   (sendRawTransaction w (length (sent s) + i) tx))
           /\ console s'
              = console s
                ++ failed_attempts w tx (length (sent s)) attempt (n - 1)
         | None =>
           n = remaining
           /\ (forall i, (i < n)%nat ->
                 attempt_fails
                   (sendRawTransaction w (length (sent s) + i) tx))
           /\ console s'
              = console s
                ++ failed_attempts w tx (length (sent s)) attempt n
                ++ (if Nat.eqb remaining 0 then [] else [max_retries_line])
         end.
Proof.
  induction remaining as [|remaining IH]; intros attempt s Hatt.
  - exists None, s, 0%nat. cbn. rewrite !app_nil_r.
    repeat split; auto. intros i Hi. lia.
  - destruct (sendRawTransaction w (length (sent s)) tx) as [signature|e]
      eqn:E.
    + destruct (String.eqb_spec signature "") as [->|Hne].
      * destruct (sendTx_loop_failed_attempt_log remaining attempt s)
          as (s1 & -> & Hs & _ & _ & _ & Hcon); [rewrite E; reflexivity|].
        destruct (IH (S attempt) s1 ltac:(lia))
          as (r & s' & n & -> & Hs' & Hn & Hr).
        exists r, s', (S n). split; [reflexivity|].
        rewrite Hs, length_app in Hr. cbn [length] in Hr.
        rewrite Hs, <- app_assoc in Hs'.
        split; [exact Hs'|]. split; [lia|].
        rewrite E in Hcon. cbn [attempt_error] in Hcon.
        destruct r as [sig|].
        -- destruct Hr as (H1 & Hsig & Hlast & Hfail & Hlog).
           split; [lia|]. split; [exact Hsig|].
           split.
           { replace (length (sent s) + (S n - 1))%nat
               with (length (sent s) + 1 + (n - 1))%nat by lia.
             exact Hlast. }
           split.
           { intros i Hi. destruct i as [|i].
             - rewrite Nat.add_0_r, E. reflexivity.
             - replace (length (sent s) + S i)%nat
                 with (length (sent s) + 1 + i)%nat by lia.
               apply Hfail. lia. }
           replace (S n - 1)%nat with (S (n - 1)) by lia.
           rewrite failed_attempts_S, E. cbn [attempt_error].
           rewrite Hlog, Hcon.
           destruct (Nat.eqb_spec attempt maxAttempts) as [->|_]; [lia|].
           rewrite <- app_assoc. cbn.
           replace (length (sent s) + 1)%nat with (S (length (sent s)))
             by lia.
           reflexivity.
        -- destruct Hr as (-> & Hfail & Hlog).
           split; [reflexivity|].
           split.
           { intros i Hi. destruct i as [|i].
             - rewrite Nat.add_0_r, E. reflexivity.
             - replace (length (sent s) + S i)%nat
                 with (length (sent s) + 1 + i)%nat by lia.
               apply Hfail. lia. }
           rewrite failed_attempts_S, E. cbn [attempt_error].
           rewrite Hlog, Hcon. cbn [Nat.eqb].
           replace (length (sent s) + 1)%nat with (S (length (sent s)))
             by lia.
           destruct (Nat.eqb_spec attempt maxAttempts) as [Heq|Hneq];
             destruct (Nat.eqb_spec remaining 0) as [H0|H0];
             try lia; rewrite <- app_assoc; cbn.
           ++ subst remaining. cbn. reflexivity.
           ++ reflexivity.
      * destruct (sendTx_loop_successful_attempt w tx maxAttempts remaining
                    attempt s signature E Hne)
          as (s1 & -> & Hs & _ & _ & _ & Hcon).
        exists (Some signature), s1, 1%nat. split; [reflexivity|].
        split; [exact Hs|]. split; [lia|].
        split; [lia|]. split; [exact Hne|].
        split; [cbn; rewrite Nat.add_0_r; exact E|].
        split; [intros i Hi; lia|].
        cbn. rewrite app_nil_r. exact Hcon.
    + destruct (sendTx_loop_failed_attempt_log remaining attempt s)
        as (s1 & -> & Hs & _ & _ & _ & Hcon); [rewrite E; exact I|].
      destruct (IH (S attempt) s1 ltac:(lia))
        as (r & s' & n & -> & Hs' & Hn & Hr).
      exists r, s', (S n). split; [reflexivity|].
      rewrite Hs, length_app in Hr. cbn [length] in Hr.
      rewrite Hs, <- app_assoc in Hs'.
      split; [exact Hs'|]. split; [lia|].
      rewrite E in Hcon. cbn [attempt_error] in Hcon.
      destruct r as [sig|].
      * destruct Hr as (H1 & Hsig & Hlast & Hfail & Hlog).
        split; [lia|]. split; [exact Hsig|].
        split.
        { replace (length (sent s) + (S n - 1))%nat
            with (length (sent s) + 1 + (n - 1))%nat by lia.
          exact Hlast. }
        split.
        { intros i Hi. destruct i as [|i].
          - rewrite Nat.add_0_r, E. exact I.
          - replace (length (sent s) + S i)%nat
              with (length (sent s) + 1 + i)%nat by lia.
            apply Hfail. lia. }
        replace (S n - 1)%nat with (S (n - 1)) by lia.
        rewrite failed_attempts_S, E. cbn [attempt_error].
        rewrite Hlog, Hcon.
        destruct (Nat.eqb_spec attempt maxAttempts) as [->|_]; [lia|].
        rewrite <- app_assoc. cbn.
        replace (length (sent s) + 1)%nat with (S (length (sent s))) by lia.
        reflexivity.
      * destruct Hr as (-> & Hfail & Hlog).
        split; [reflexivity|].
        split.
        { intros i Hi. destruct i as [|i].
          - rewrite Nat.add_0_r, E. exact I.
          - replace (length (sent s) + S i)%nat
              with (length (sent s) + 1 + i)%nat by lia.
            apply Hfail. lia. }
        rewrite failed_attempts_S, E. cbn [attempt_error].
        rewrite Hlog, Hcon. cbn [Nat.eqb].
        replace (length (sent s) + 1)%nat with (S (length (sent s))) by lia.
        destruct (Nat.eqb_spec attempt maxAttempts) as [Heq|Hneq];
          destruct (Nat.eqb_spec remaining 0) as [H0|H0];
          try lia; rewrite <- app_assoc; cbn.
        -- subst remaining. cbn. reflexivity.
        -- reflexivity.
Qed.

End RetryTrace.


(** X4.  Whatever the endpoint answers, [sendTxWithRetries] makes at most
    [maxAttempts] calls (none when the bound is 0).  An identifier it
    returns is never empty: it is the answer of the last call made, and
    every call before that one failed.  It returns the absence signal only
    after [maxAttempts] failed calls. *)
Theorem sendTxWithRetries_outcome w tx (maxAttempts : nat) s :
  exists r s' (n : nat),
    sendTxWithRetries w tx maxAttempts s = (Normal r, s')
    /\ sent s' = sent s ++ repeat tx n
    /\ (n <= maxAttempts)%nat
    /\ match r with
       | Some signature =>
         (1 <= n)%nat /\ signature <> ""
         /\ sendRawTransaction w (length (sent s) + (n - 1)) tx
            = Normal signature
         /\ (forall i, (i < n - 1)%nat ->
               attempt_fails (sendRawTransaction w (length (sent s) + i) tx))
       | None =>
         n = maxAttempts
         /\ (forall i, (i < n)%nat ->
               attempt_fails (sendRawTransaction w (length (sent s) + i) tx))
       end.
Proof.
  destruct (sendTx_loop_trace w tx maxAttempts maxAttempts 1%nat s
              ltac:(lia)) as (r & s' & n & Hrun & Hs & Hn & Hr).
  exists r, s', n. unfold sendTxWithRetries.
  split; [exact Hrun|]. split; [exact Hs|]. split; [exact Hn|].
  destruct r as [signature|].
  - destruct Hr as (? & ? & ? & ? & _). auto.
  - destruct Hr as (? & ? & _). auto.
Qed.

(** X5.  What [sendTxWithRetries] writes: one line for each failed attempt,
    numbered from 1 and carrying the error of that attempt, and after
    them the line "Max retries reached" exactly when every attempt failed.
    A submission that succeeds at once writes nothing. *)
Theorem sendTxWithRetries_console w tx (maxAttempts : nat) s :
  exists r s' (n : nat),
    sendTxWithRetries w tx maxAttempts s = (Normal r, s')
    /\ sent s' = sent s ++ repeat tx n
    /\ console s'
       = console s
         ++ match r with
            | Some _ =>
              failed_attempts w tx (length (sent s)) 1 (n - 1)
            | None =>
              failed_attempts w tx (length (sent s)) 1 maxAttempts
              ++ (if Nat.eqb maxAttempts 0 then [] else [max_retries_line])
            end.
Proof.
  destruct (sendTx_loop_trace w tx maxAttempts maxAttempts 1%nat s
              ltac:(lia)) as (r & s' & n & Hrun & Hs & Hn & Hr).
  exists r, s', n. unfold sendTxWithRetries.
  split; [exact Hrun|]. split; [exact Hs|].
  destruct r as [signature|].
  - destruct Hr as (_ & _ & _ & _ & Hlog). exact Hlog.
  - destruct Hr as (-> & _ & Hlog). exact Hlog.
Qed.

(** ** One transaction, submitted one to three times *)

Lemma send_then_monitor_bounded w tx s :
  exists c s' (n : nat),
    (signature <- sendTxWithRetries w tx default_maxAttempts ;;
     match signature with
     | Some signature =>
       monitorTransactionStatus w signature default_maxWaitTime ;; ret tt
     | None => ret tt
     end) s = (c, s')
    /\ built s' = built s
    /\ (1 <= n <= default_maxAttempts)%nat
    /\ sent s' = sent s ++ repeat tx n.
Proof.
  destruct (sendTx_loop_trace w tx default_maxAttempts default_maxAttempts
              1%nat s eq_refl) as (r & s1 & n & Hrun & Hs & Hn & Hr).
  destruct (sendTx_loop_returns w tx default_maxAttempts default_maxAttempts
              1%nat s) as (r' & s1' & Hrun' & Hb & _).
  rewrite Hrun in Hrun'. injection Hrun' as <- <-.
  unfold sendTxWithRetries. rewrite (bind_normal _ _ _ _ _ Hrun).
  assert (Hbound : (1 <= n <= default_maxAttempts)%nat).
  { destruct r; [destruct Hr as (? & _); lia|].
    destruct Hr as (-> & _). unfold default_maxAttempts. lia. }
  destruct r as [signature|].
  - destruct (monitorTransactionStatus_returns w signature
                default_maxWaitTime s1) as (c & s' & Hmon & Hb' & Hs' & _).
    destruct c as [a|e].
    + rewrite (bind_normal _ _ _ _ _ Hmon). exists (Normal tt), s', n.
      cbn. repeat split; try congruence; lia.
    + rewrite (bind_throw _ _ _ _ _ Hmon). exists (Throw e), s', n.
      repeat split; try congruence; lia.
  - exists (Normal tt), s1, n. cbn. repeat split; auto; lia.
Qed.

Lemma send_then_monitor_swap_bounded w tx s :
  exists c s' (n : nat),
    (signature <- sendTxWithRetries w tx default_maxAttempts ;;
     match signature with
     | Some signature =>
       result <- monitorTransactionStatus w signature default_maxWaitTime ;;
       match result with
       | Done (Some value) =>
         match err value with
         | Some e => console_error [Str "Swap failed:"; Str e]
         | None => ret tt
         end
       | _ => ret tt
       end
     | None => ret tt
     end) s = (c, s')
    /\ built s' = built s
    /\ (1 <= n <= default_maxAttempts)%nat
    /\ sent s' = sent s ++ repeat tx n.
Proof.
  destruct (sendTx_loop_trace w tx default_maxAttempts default_maxAttempts
              1%nat s eq_refl) as (r & s1 & n & Hrun & Hs & Hn & Hr).
  destruct (sendTx_loop_returns w tx default_maxAttempts default_maxAttempts
              1%nat s) as (r' & s1' & Hrun' & Hb & _).
  rewrite Hrun in Hrun'. injection Hrun' as <- <-.
  unfold sendTxWithRetries. rewrite (bind_normal _ _ _ _ _ Hrun).
  assert (Hbound : (1 <= n <= default_maxAttempts)%nat).
  { destruct r; [destruct Hr as (? & _); lia|].
    destruct Hr as (-> & _). unfold default_maxAttempts. lia. }
  destruct r as [signature|].
  - destruct (monitorTransactionStatus_returns w signature
                default_maxWaitTime s1) as (c & s' & Hmon & Hb' & Hs' & _).
    destruct c as [result|e].
    + rewrite (bind_normal _ _ _ _ _ Hmon).
      destruct result as [[value|]|];
        try (exists (Normal tt), s', n; cbn; repeat split;
             try congruence; lia).
      destruct (err value) as [e|].
      * eexists _, _, n. split; [reflexivity|]. cbn.
        repeat split; try congruence; lia.
      * exists (Normal tt), s', n. cbn. repeat split; try congruence; lia.
    + rewrite (bind_throw _ _ _ _ _ Hmon). exists (Throw e), s', n.
      repeat split; try congruence; lia.
  - exists (Normal tt), s1, n. cbn. repeat split; auto; lia.
Qed.

(** The token transfer compiles at most one message and hands the one
    signed transaction over at most three times. *)
Lemma tokenTransfer_submits_once
    cfg w recipientAddress tokenMintAddress amount s :
  exists c s',
    tokenTransfer cfg w recipientAddress tokenMintAddress amount s = (c, s')
    /\ (nothing_sent s s' \/ exists wallet m, submitted s s' m wallet).
Proof.
  unfold tokenTransfer, loadWallet.
  await_or_abort. rename a into wallet.
  await_or_abort. rename a into rata.
  await_or_abort. rename a into info.
  guard_or_abort cfg w wallet
    (5000 + (if negb (bool_decide (is_Some info)) then 2039280 else 0))
    (Some "token transfer") s.
  destruct (balance <? total_required cfg _) eqn:Hlt; cbn [negb].
  { abort_here. }
  await_or_abort. rename a into sata.
  await_or_abort. rename a into senderInfo.
  destruct senderInfo as [[]|]; cbn [negb].
  2:{ abort_here. }
  change (bool_decide (is_Some (Some ()))) with true. cbn [negb].
  await_or_abort. rename a into ui.
  match goal with
  | |- context [if Qltb ?x ?y then _ else _] => destruct (Qltb x y)
  end.
  { abort_here. }
  await_or_abort. rename a into blockhash.
  rewrite bind_compileToV0Message.
  match goal with
  | |- context [bind (sendTxWithRetries w ?tx _) _ ?s2] =>
    destruct (send_then_monitor_bounded w tx s2)
      as (c & s' & n & -> & Hb' & Hn & Hs')
  end.
  exists c, s'. split; [reflexivity|]. right.
  eexists wallet, _. split.
  - rewrite Hb'. cbn [built]. rewrite Hb. reflexivity.
  - exists n. split; [exact Hn|]. rewrite Hs'. cbn [sent]. rewrite Hs.
    reflexivity.
Qed.

(** X6.  Each of the three scripts either compiles and sends nothing, or
    compiles one message, signs it once and hands that same transaction
    to the endpoint between one and three times: a retry never takes a new
    blockhash. *)
Theorem scripts_submit_one_transaction cfg w s :
  (forall recipientAddress,
     exists c s',
       solTransfer cfg w recipientAddress s = (c, s')
       /\ (nothing_sent s s' \/ exists wallet m, submitted s s' m wallet))
  /\ (forall recipientAddress tokenMintAddress amount,
        exists c s',
          tokenTransfer cfg w recipientAddress tokenMintAddress amount s
          = (c, s')
          /\ (nothing_sent s s' \/ exists wallet m, submitted s s' m wallet))
  /\ (exists c s',
        jupiterSwapSOLtoUSDC cfg w s = (c, s')
        /\ (nothing_sent s s' \/ exists wallet m, submitted s s' m wallet)).
Proof.
  split; [|split].
  - intros recipientAddress. unfold solTransfer, loadWallet.
    await_or_abort. rename a into wallet.
    guard_or_abort cfg w wallet (LAMPORTS_PER_SOL / 1000 + 5000)
      (Some "SOL transfer") s.
    destruct (balance <? total_required cfg _) eqn:Hlt; cbn [negb].
    { abort_here. }
    await_or_abort. rename a into blockhash.
    rewrite bind_compileToV0Message.
    match goal with
    | |- context [bind (sendTxWithRetries w ?tx _) _ ?s2] =>
      destruct (send_then_monitor_bounded w tx s2)
        as (c & s' & n & -> & Hb' & Hn & Hs')
    end.
    exists c, s'. split; [reflexivity|]. right.
    eexists wallet, _. split.
    + rewrite Hb'. cbn [built]. rewrite Hb. reflexivity.
    + exists n. split; [exact Hn|]. rewrite Hs'. cbn [sent]. rewrite Hs.
      reflexivity.
  - intros recipientAddress tokenMintAddress amount.
    apply tokenTransfer_submits_once.
  - unfold jupiterSwapSOLtoUSDC, loadWallet.
    await_or_abort. rename a into wallet.
    guard_or_abort cfg w wallet (LAMPORTS_PER_SOL / 1000 + 10000 + 50000)
      (Some "Jupiter swap") s.
    destruct (balance <? total_required cfg _) eqn:Hlt; cbn [negb].
    { abort_here. }
    match goal with
    | |- context [try_catch ?b ?h s0] => set (body := b); set (handler := h)
    end.
    assert (Hhandler : forall e s1,
              exists s2, handler e s1 = (Normal tt, s2)
                         /\ built s2 = built s1 /\ sent s2 = sent s1).
    { intros e s1. subst handler. cbv beta.
      destruct e as [m|m [[st [body'|]]|]]; cbn;
        repeat match goal with
               | |- context [if ?b then _ else _] => destruct b
               end; cbn; eexists; split; reflexivity || (split; reflexivity). }
    assert (Hbody : exists c s1,
              body s0 = (c, s1)
              /\ (nothing_sent s s1 \/ exists m, submitted s s1 m wallet)).
    { subst body.
      await_or_abort. rename a into quote.
      await_or_abort. rename a into instructionsResponse.
      destruct instructionsResponse as [response|]; [|abort_here].
      match goal with
      | |- context [bind ?m _ s0] =>
        assert (Htables : exists c, m s0 = (c, s0))
      end.
      { destruct (addressLookupTableAddresses response) as [[|address rest]|];
          try (eexists; reflexivity).
        apply loadLookupTables_pure. }
      destruct Htables as [[tables|e] Htables].
      2:{ rewrite (bind_throw _ _ _ _ _ Htables). abort_here. }
      rewrite (bind_normal _ _ _ _ _ Htables).
      await_or_abort. rename a into blockhash.
      rewrite bind_compileToV0Message.
      match goal with
      | |- context [bind (sendTxWithRetries w ?tx _) _ ?s2] =>
        destruct (send_then_monitor_swap_bounded w tx s2)
          as (c & s' & n & -> & Hb' & Hn & Hs')
      end.
      exists c, s'. split; [reflexivity|]. right. eexists. split.
      - rewrite Hb'. cbn [built]. rewrite Hb. reflexivity.
      - exists n. split; [exact Hn|]. rewrite Hs'. cbn [sent]. rewrite Hs.
        reflexivity. }
    destruct Hbody as ([[]|e] & s1 & Hrun & Hpost).
    + rewrite (try_catch_normal _ _ _ _ _ Hrun). exists (Normal tt), s1.
      split; [reflexivity|].
      destruct Hpost as [Hpost|[m Hpost]]; [left; exact Hpost|].
      right. exists wallet, m. exact Hpost.
    + rewrite (try_catch_throw _ _ _ _ _ Hrun).
      destruct (Hhandler e s1) as (s2 & -> & Hb2 & Hs2).
      exists (Normal tt), s2. split; [reflexivity|].
      destruct Hpost as [[Hb1 Hs1]|(m & Hb1 & n & Hn & Hs1)].
      * left. split; congruence.
      * right. exists wallet, m. split; [congruence|].
        exists n. split; [exact Hn | congruence].
Qed.


(** ** Polling, for any status source *)

Section MonitorBound.

Variable w : World.
Variable signature : string.
Variables startTime maxWaitTime : N.

Lemma monitor_loop_bound :
  forall fuel s,
    (startTime <= clock s)%N ->
    exists c s',
      monitor_loop w fuel signature startTime maxWaitTime s = (c, s')
      /\ (polls s <= polls s')%nat
      /\ (polls s' = polls s
          \/ (clock s - startTime
              + 1000 * N.of_nat (polls s' - polls s - 1) < maxWaitTime)%N)
      /\ (console s' = console s ++ [timeout_line] ->
          (maxWaitTime <= clock s' - startTime)%N).
Proof.
  induction fuel as [|fuel IH]; intros s Hstart.
  - exists (Normal OutOfFuel), s. cbn. repeat split; auto.
    intros H. apply (f_equal (@length _)) in H.
    rewrite length_app in H. cbn in H. lia.
  - destruct (N.ltb_spec (clock s - startTime) maxWaitTime) as [Hlt|Hge].
    + destruct (getSignatureStatus w (polls s) signature) as [value|e] eqn:Hq.
      * destruct (is_confirmed value) eqn:Hc.
        -- destruct (monitor_loop_confirmed_turn w signature startTime
                       maxWaitTime fuel s value Hlt Hq Hc)
             as (s' & -> & Hp & Hcon & _).
           exists (Normal (Done value)), s'. split; [reflexivity|].
           rewrite Hp. split; [lia|]. split.
           ++ right. replace (S (polls s) - polls s - 1)%nat with 0%nat by lia.
              lia.
           ++ rewrite Hcon. intros H. apply (f_equal (@length _)) in H.
              rewrite length_app in H. cbn in H. lia.
        -- destruct (has_err value) as [e|] eqn:He.
           ++ destruct (monitor_loop_failed_turn w signature startTime
                          maxWaitTime fuel s value e Hlt Hq Hc He)
                as (s' & -> & Hp & Hcon & _).
              exists (Normal (Done None)), s'. split; [reflexivity|].
              rewrite Hp. split; [lia|]. split.
              ** right.
                 replace (S (polls s) - polls s - 1)%nat with 0%nat by lia.
                 lia.
              ** rewrite Hcon. intros H. apply app_inv_head in H.
                 discriminate.
           ++ rewrite monitor_loop_pending_turn; [|exact Hlt|].
              2:{ exists value. rewrite Hq. auto. }
              destruct (IH (after_turn w s)) as (c & s' & -> & Hp & Hn & Ht).
              { cbn [after_turn clock]. lia. }
              cbn [after_turn polls clock console] in Hp, Hn, Ht.
              exists c, s'. split; [reflexivity|]. split; [lia|].
              split; [|exact Ht].
              right.
              destruct (Nat.eq_dec (polls s') (S (polls s))) as [Heq|Hneq].
              ** rewrite Heq.
                 replace (S (polls s) - polls s - 1)%nat with 0%nat by lia.
                 lia.
              ** destruct Hn as [Hn|Hn]; [lia|].
                 replace (polls s' - polls s - 1)%nat
                   with (S (polls s' - S (polls s) - 1)) by lia.
                 lia.
      * destruct (monitor_loop_raising_turn w signature startTime maxWaitTime
                    fuel s e Hlt Hq) as (s' & -> & Hp & Hcon & _).
        exists (Throw e), s'. split; [reflexivity|].
        rewrite Hp. split; [lia|]. split.
        -- right. replace (S (polls s) - polls s - 1)%nat with 0%nat by lia.
           lia.
        -- rewrite Hcon. intros H. apply (f_equal (@length _)) in H.
           rewrite length_app in H. cbn in H. lia.
    + rewrite monitor_loop_timed_out by exact Hge.
      eexists _, _. split; [reflexivity|]. cbn. repeat split; auto.
Qed.

End MonitorBound.

(** X7.  For any status source, polling under a bound of [maxWaitTime] ms
    makes no more status queries than there are started seconds in the
    bound, and it reports a timeout only once [maxWaitTime] ms have passed
    on the clock.  Under a bound of 0 it makes no query at all and reports
    the timeout at once. *)
Theorem monitorTransactionStatus_bounds w signature (maxWaitTime : N) s :
  (exists c s',
     monitorTransactionStatus w signature maxWaitTime s = (c, s')
     /\ (polls s <= polls s')%nat
     /\ (N.of_nat (polls s' - polls s) * 1000 < maxWaitTime + 1000)%N
     /\ (console s' = console s ++ [timeout_line] ->
         (maxWaitTime <= clock s' - clock s)%N))
  /\ monitorTransactionStatus w signature 0 s
     = (Normal (Done None), logged s [timeout_line]).
Proof.
  split.
  - rewrite monitorTransactionStatus_unfold.
    destruct (monitor_loop_bound w signature (clock s) maxWaitTime
                (monitor_fuel maxWaitTime) s ltac:(lia))
      as (c & s' & Hrun & Hp & Hn & Ht).
    exists c, s'. split; [exact Hrun|]. split; [exact Hp|].
    split; [|exact Ht].
    rewrite N.sub_diag in Hn. destruct Hn as [Hn|Hn].
    + rewrite Hn, Nat.sub_diag. lia.
    + lia.
  - rewrite monitorTransactionStatus_unfold. unfold monitor_fuel.
    rewrite monitor_loop_timed_out by lia. reflexivity.
Qed.

(** ** Failures before and after the submission *)

Lemma checkBalance_passes cfg w wallet requiredLamports description balance s :
  getBalance w (publicKey wallet) = Normal balance ->
  total_required cfg requiredLamports <= balance ->
  checkBalanceForOperations cfg w wallet requiredLamports description s
  = (Normal true, s).
Proof.
  intros Hbal Hge. unfold checkBalanceForOperations.
  rewrite Hbal, bind_await_normal. fold (total_required cfg requiredLamports).
  apply Z.ltb_ge in Hge. rewrite Hge. reflexivity.
Qed.

(** X8.  A wallet that cannot be loaded, or a balance that cannot be read,
    stops each script with that very error: no diagnostic line is written
    ([console.warn], [console.error]), nothing is compiled or sent, and
    the swap script does not catch it either, its [try] block starting
    after the balance guard. *)
Theorem scripts_pass_on_early_failures cfg w s e :
  (readWallet w (WALLET_PATH cfg) = Throw e ->
   (forall r, solTransfer cfg w r s = (Throw e, s))
   /\ (forall r m a, tokenTransfer cfg w r m a s = (Throw e, s))
   /\ jupiterSwapSOLtoUSDC cfg w s = (Throw e, s)
   /\ example1_solTransfer cfg w s = (Throw e, s))
  /\ (forall wallet,
        readWallet w (WALLET_PATH cfg) = Normal wallet ->
        getBalance w (publicKey wallet) = Throw e ->
        (forall r, solTransfer cfg w r s = (Throw e, s))
        /\ jupiterSwapSOLtoUSDC cfg w s = (Throw e, s)
        /\ example1_solTransfer cfg w s = (Throw e, s)
        /\ (forall r m a rata info,
              getAssociatedTokenAddress w (default USDC_MINT (truthy m))
                (default (DEFAULT_RECIPIENT cfg) (truthy r))
              = Normal rata ->
              getAccountInfo w rata = Normal info ->
              tokenTransfer cfg w r m a s = (Throw e, s))).
Proof.
  split.
  - intros Hw. repeat split; intros;
      unfold solTransfer, tokenTransfer, jupiterSwapSOLtoUSDC,
        example1_solTransfer, loadWallet; rewrite Hw; reflexivity.
  - intros wallet Hw Hbal. repeat split; intros;
      unfold solTransfer, tokenTransfer, jupiterSwapSOLtoUSDC,
        example1_solTransfer, loadWallet; rewrite Hw, bind_await_normal.
    + rewrite (bind_throw _ _ _ _ _
                 (checkBalance_throws cfg w wallet _ _ e s Hbal)).
      reflexivity.
    + rewrite (bind_throw _ _ _ _ _
                 (checkBalance_throws cfg w wallet _ _ e s Hbal)).
      reflexivity.
    + rewrite (bind_throw _ _ _ _ _
                 (checkBalance_throws cfg w wallet _ _ e s Hbal)).
      reflexivity.
    + match goal with H : getAssociatedTokenAddress _ _ _ = _ |- _ =>
        rewrite H, bind_await_normal end.
      match goal with H : getAccountInfo _ _ = _ |- _ =>
        rewrite H, bind_await_normal end.
      rewrite (bind_throw _ _ _ _ _
                 (checkBalance_throws cfg w wallet _ _ e s Hbal)).
      reflexivity.
Qed.

Lemma scripts_pass_on_early_failures_witness :
  ((forall r,
      solTransfer (settings true) (without_wallet (calm 10000000) rpc_down)
        r initial = (Throw rpc_down, initial))
   /\ (forall r m a,
         tokenTransfer (settings true)
           (without_wallet (calm 10000000) rpc_down) r m a initial
         = (Throw rpc_down, initial))
   /\ jupiterSwapSOLtoUSDC (settings true)
        (without_wallet (calm 10000000) rpc_down) initial
      = (Throw rpc_down, initial)
   /\ example1_solTransfer (settings true)
        (without_wallet (calm 10000000) rpc_down) initial
      = (Throw rpc_down, initial))
  /\ jupiterSwapSOLtoUSDC (settings true)
       (without_balance (calm 10000000) rpc_down) initial
     = (Throw rpc_down, initial).
Proof.
  split.
  - apply (proj1 (scripts_pass_on_early_failures (settings true)
                    (without_wallet (calm 10000000) rpc_down) initial
                    rpc_down)).
    reflexivity.
  - apply (proj2 (scripts_pass_on_early_failures (settings true)
                    (without_balance (calm 10000000) rpc_down) initial
                    rpc_down) wallet0 eq_refl eq_refl).
Defined.


Lemma sendTxWithRetries_first_try w tx s signature :
  sendRawTransaction w (length (sent s)) tx = Normal signature ->
  signature <> "" ->
  sendTxWithRetries w tx default_maxAttempts s
  = (Normal (Some signature),
     {| console := console s; built := built s; sent := sent s ++ [tx];
        polls := polls s; clock := clock s |}).
Proof.
  intros Hsend Hne. unfold sendTxWithRetries, default_maxAttempts.
  cbn [sendTx_loop]. unfold bind at 1. unfold try_catch, bind at 1.
  unfold submit at 1. rewrite Hsend.
  destruct (String.eqb_spec signature ""); [contradiction|]. reflexivity.
Qed.

(** The native transfer once its transaction is handed over: what is
    left is the polling. *)
Lemma solTransfer_after_submission
    cfg w recipientAddress s wallet balance blockhash signature :
  let recipient := default (DEFAULT_RECIPIENT cfg) (truthy recipientAddress) in
  let m := native_message cfg wallet recipient blockhash in
  readWallet w (WALLET_PATH cfg) = Normal wallet ->
  getBalance w (publicKey wallet) = Normal balance ->
  total_required cfg 1005000 <= balance ->
  getLatestBlockhash w = Normal blockhash ->
  sendRawTransaction w (length (sent s)) (sign m wallet) = Normal signature ->
  signature <> "" ->
  solTransfer cfg w recipientAddress s
  = match monitorTransactionStatus w signature default_maxWaitTime
            (after_submission s m wallet) with
    | (Normal _, s') => (Normal tt, s')
    | (Throw e, s') => (Throw e, s')
    end.
Proof.
  intros recipient m Hwallet Hbal Hge Hhash Hsend Hne.
  unfold solTransfer, loadWallet. fold recipient.
  change (LAMPORTS_PER_SOL / 1000) with 1000000.
  change (1000000 + 5000) with 1005000.
  rewrite Hwallet, bind_await_normal.
  rewrite (bind_normal _ _ _ _ _
             (checkBalance_passes cfg w wallet 1005000 _ balance s Hbal Hge)).
  cbn [negb]. rewrite Hhash, bind_await_normal.
  rewrite bind_compileToV0Message, addLightSpeedTip_suffix.
  change {| payerKey := publicKey wallet; recentBlockhash := blockhash;
            instructions :=
              (addComputeBudget [] default_computeUnits default_priorityFee
               ++ [SystemProgram_transfer (publicKey wallet) recipient
                     1000000])
              ++ tip_suffix cfg (publicKey wallet);
            lookupTables := [] |} with m.
  match goal with
  | |- context [bind (sendTxWithRetries w _ _) _ ?s2] =>
    rewrite (bind_normal _ _ _ _ _
               (sendTxWithRetries_first_try w (sign m wallet) s2 signature
                  Hsend Hne))
  end.
  cbn [console built sent polls clock]. fold (after_submission s m wallet).
  unfold bind.
  destruct (monitorTransactionStatus w signature default_maxWaitTime
              (after_submission s m wallet)) as [[a|e] s']; reflexivity.
Qed.

(** Enough lamports and a blockhash: the native transfer compiles its
    message and hands it over. *)
Lemma solTransfer_submits
    cfg w recipientAddress s wallet (balance : Z) blockhash :
  let recipient := default (DEFAULT_RECIPIENT cfg) (truthy recipientAddress) in
  readWallet w (WALLET_PATH cfg) = Normal wallet ->
  getBalance w (publicKey wallet) = Normal balance ->
  1005000 + tip_due cfg <= balance ->
  getLatestBlockhash w = Normal blockhash ->
  exists c s',
    solTransfer cfg w recipientAddress s = (c, s')
    /\ submitted s s' (native_message cfg wallet recipient blockhash) wallet.
Proof.
  intros recipient Hwallet Hbal Hge Hhash.
  rewrite <- total_required_tip_due in Hge by safe_cost.
  unfold solTransfer, loadWallet. fold recipient.
  change (LAMPORTS_PER_SOL / 1000) with 1000000.
  change (1000000 + 5000) with 1005000.
  rewrite Hwallet, bind_await_normal.
  rewrite (bind_normal _ _ _ _ _
             (checkBalance_passes cfg w wallet 1005000 _ balance s Hbal Hge)).
  cbn [negb]. rewrite Hhash, bind_await_normal.
  rewrite bind_compileToV0Message, addLightSpeedTip_suffix.
  match goal with
  | |- context [bind (sendTxWithRetries w ?tx _) _ ?s2] =>
    destruct (send_then_monitor_bounded w tx s2)
      as (c & s' & n & -> & Hb & Hn & Hs)
  end.
  exists c, s'. split; [reflexivity|]. split; [exact Hb|]. eauto.
Qed.

Lemma monitor_first_query_raises w signature s e :
  getSignatureStatus w (polls s) signature = Throw e ->
  exists s',
    monitorTransactionStatus w signature default_maxWaitTime s = (Throw e, s')
    /\ console s' = console s /\ built s' = built s /\ sent s' = sent s.
Proof.
  intros Hq. rewrite monitorTransactionStatus_unfold. unfold monitor_fuel.
  destruct (monitor_loop_raising_turn w signature (clock s)
              default_maxWaitTime (S (N.to_nat (default_maxWaitTime / 1000)))
              s e) as (s' & Hrun & _ & Hcon & Hb & Hs).
  - rewrite N.sub_diag. reflexivity.
  - exact Hq.
  - exists s'. auto.
Qed.

Lemma monitor_first_query_confirmed w signature s value :
  getSignatureStatus w (polls s) signature = Normal value ->
  is_confirmed value = true ->
  exists s',
    monitorTransactionStatus w signature default_maxWaitTime s
    = (Normal (Done value), s')
    /\ console s' = console s /\ built s' = built s /\ sent s' = sent s.
Proof.
  intros Hq Hc. rewrite monitorTransactionStatus_unfold. unfold monitor_fuel.
  destruct (monitor_loop_confirmed_turn w signature (clock s)
              default_maxWaitTime (S (N.to_nat (default_maxWaitTime / 1000)))
              s value) as (s' & Hrun & _ & Hcon & Hb & Hs).
  - rewrite N.sub_diag. reflexivity.
  - exact Hq.
  - exact Hc.
  - exists s'. auto.
Qed.

(** X9.  When the status query raises after the transaction was handed
    over, [solTransfer] raises that error to its caller: the transaction
    has been handed over once, and no diagnostic line ([console.warn],
    [console.error]) is written for the failure. *)
Theorem solTransfer_raises_after_submission
    cfg w recipientAddress s wallet (balance : Z) blockhash signature e :
  let recipient := default (DEFAULT_RECIPIENT cfg) (truthy recipientAddress) in
  let m := native_message cfg wallet recipient blockhash in
  readWallet w (WALLET_PATH cfg) = Normal wallet ->
  getBalance w (publicKey wallet) = Normal balance ->
  1005000 + tip_due cfg <= balance ->
  getLatestBlockhash w = Normal blockhash ->
  sendRawTransaction w (length (sent s)) (sign m wallet) = Normal signature ->
  signature <> "" ->
  getSignatureStatus w (polls s) signature = Throw e ->
  exists s',
    solTransfer cfg w recipientAddress s = (Throw e, s')
    /\ console s' = console s
    /\ built s' = built s ++ [m]
    /\ sent s' = sent s ++ [sign m wallet].
Proof.
  intros recipient m Hwallet Hbal Hge Hhash Hsend Hne Hq.
  rewrite <- total_required_tip_due in Hge by safe_cost.
  rewrite (solTransfer_after_submission cfg w recipientAddress s wallet
             balance blockhash signature Hwallet Hbal Hge Hhash Hsend Hne).
  fold recipient m.
  destruct (monitor_first_query_raises w signature
              (after_submission s m wallet) e Hq)
    as (s' & -> & Hcon & Hb & Hs).
  exists s'. auto.
Qed.

Lemma solTransfer_raises_after_submission_witness :
  exists s',
    solTransfer (settings true)
      (with_statuses (calm 10000000) (fun _ _ => Throw rpc_down)) None initial
    = (Throw rpc_down, s')
    /\ console s' = console initial
    /\ built s'
       = built initial
         ++ [native_message (settings true) wallet0 PLACEHOLDER_RECIPIENT
               "blockhash"]
    /\ sent s'
       = sent initial
         ++ [sign (native_message (settings true) wallet0
                     PLACEHOLDER_RECIPIENT "blockhash") wallet0].
Proof.
  apply (solTransfer_raises_after_submission (settings true)
           (with_statuses (calm 10000000) (fun _ _ => Throw rpc_down)) None
           initial wallet0 10000000 "blockhash" signature0 rpc_down
           eq_refl eq_refl ltac:(vm_compute; discriminate) eq_refl eq_refl
           ltac:(discriminate) eq_refl).
Defined.

(** X10.  A status that is confirmed or finalized ends [solTransfer] normally
    and without a line on the console, whether or not it carries an
    on-chain error. *)
Theorem solTransfer_silent_on_confirmed
    cfg w recipientAddress s wallet (balance : Z) blockhash signature value :
  let recipient := default (DEFAULT_RECIPIENT cfg) (truthy recipientAddress) in
  let m := native_message cfg wallet recipient blockhash in
  readWallet w (WALLET_PATH cfg) = Normal wallet ->
  getBalance w (publicKey wallet) = Normal balance ->
  1005000 + tip_due cfg <= balance ->
  getLatestBlockhash w = Normal blockhash ->
  sendRawTransaction w (length (sent s)) (sign m wallet) = Normal signature ->
  signature <> "" ->
  getSignatureStatus w (polls s) signature = Normal value ->
  is_confirmed value = true ->
  exists s',
    solTransfer cfg w recipientAddress s = (Normal tt, s')
    /\ console s' = console s
    /\ built s' = built s ++ [m]
    /\ sent s' = sent s ++ [sign m wallet].
Proof.
  intros recipient m Hwallet Hbal Hge Hhash Hsend Hne Hq Hc.
  rewrite <- total_required_tip_due in Hge by safe_cost.
  rewrite (solTransfer_after_submission cfg w recipientAddress s wallet
             balance blockhash signature Hwallet Hbal Hge Hhash Hsend Hne).
  fold recipient m.
  destruct (monitor_first_query_confirmed w signature
              (after_submission s m wallet) value Hq Hc)
    as (s' & -> & Hcon & Hb & Hs).
  exists s'. auto.
Qed.

Lemma solTransfer_silent_on_confirmed_witness :
  exists s',
    solTransfer (settings true) reverted None initial = (Normal tt, s')
    /\ console s' = console initial
    /\ built s'
       = built initial
         ++ [native_message (settings true) wallet0 PLACEHOLDER_RECIPIENT
               "blockhash"]
    /\ sent s'
       = sent initial
         ++ [sign (native_message (settings true) wallet0
                     PLACEHOLDER_RECIPIENT "blockhash") wallet0].
Proof.
  apply (solTransfer_silent_on_confirmed (settings true) reverted None
           initial wallet0 10000000 "blockhash" signature0 status_reverted
           eq_refl eq_refl ltac:(vm_compute; discriminate) eq_refl eq_refl
           ltac:(discriminate) eq_refl eq_refl).
Defined.


(** ** The swap: lookup tables, and what its [catch] sees *)

Lemma loadLookupTables_found w addresses s :
  (forall address, In address addresses ->
     exists table, getAddressLookupTable w address = Normal table) ->
  loadLookupTables w addresses s
  = (Normal
       (map (fun address =>
               match getAddressLookupTable w address with
               | Normal table => table
               | Throw _ => None
               end) addresses), s).
Proof.
  induction addresses as [|address rest IH]; intros Hall; [reflexivity|].
  cbn [loadLookupTables map].
  destruct (Hall address (or_introl eq_refl)) as [table Htable].
  rewrite Htable, bind_await_normal.
  rewrite (bind_normal _ _ _ _ _ (IH (fun a Ha => Hall a (or_intror Ha)))).
  reflexivity.
Qed.

Lemma loadLookupTables_raises w addresses e s :
  (exists address,
     In address addresses /\ getAddressLookupTable w address = Throw e) ->
  (forall address e',
     In address addresses -> getAddressLookupTable w address = Throw e' ->
     e' = e) ->
  loadLookupTables w addresses s = (Throw e, s).
Proof.
  induction addresses as [|a rest IH]; intros (address & Hin & Hraise) Hsame.
  - destruct Hin.
  - cbn [loadLookupTables].
    destruct (getAddressLookupTable w a) as [table|e'] eqn:Ha.
    + rewrite bind_await_normal.
      assert (Hrest : In address rest).
      { destruct Hin as [->|Hin]; [congruence | exact Hin]. }
      rewrite (bind_throw _ _ _ _ _
                 (IH (ex_intro _ address (conj Hrest Hraise))
                     (fun x e' Hx => Hsame x e' (or_intror Hx)))).
      reflexivity.
    + rewrite bind_await_throw.
      rewrite (Hsame a e' (or_introl eq_refl) Ha). reflexivity.
Qed.

Lemma swap_instructions_composed cfg payer response :
  addLightSpeedTip cfg
    match cleanupInstruction response with
    | Some cleanup =>
      (match setupInstructions response with
       | Some (i :: rest) =>
         [setComputeUnitLimit 400000; setComputeUnitPrice 50000]
           ++ map deserializeInstruction (i :: rest)
       | _ => [setComputeUnitLimit 400000; setComputeUnitPrice 50000]
       end ++ [deserializeInstruction (swapInstruction response)])
      ++ [deserializeInstruction cleanup]
    | None =>
      match setupInstructions response with
      | Some (i :: rest) =>
        [setComputeUnitLimit 400000; setComputeUnitPrice 50000]
          ++ map deserializeInstruction (i :: rest)
      | _ => [setComputeUnitLimit 400000; setComputeUnitPrice 50000]
      end ++ [deserializeInstruction (swapInstruction response)]
    end payer
  = composed cfg payer 400000 50000 (swap_core response).
Proof.
  rewrite addLightSpeedTip_suffix. unfold composed, swap_core.
  destruct (setupInstructions response) as [[|i rest]|];
    destruct (cleanupInstruction response); cbn; rewrite <- ?app_assoc;
    reflexivity.
Qed.

(** The [catch] block of the swap script on error [e]. *)
Ltac swap_catch e :=
  destruct e as [?|? [[? [?|]]|]]; cbn;
  repeat match goal with
         | |- context [if ?b then _ else _] => destruct b
         end;
  unfold logged, rate_limited_line, bad_request_line, error_line,
    console_error, write, ret;
  cbn; rewrite <- ?app_assoc; reflexivity.

Section SwapSteps.

Variable cfg : Config.
Variable w : World.
Variable wallet : Keypair.
Variable balance : Z.
Variable quote : Quote.

Hypothesis wallet_loaded : readWallet w (WALLET_PATH cfg) = Normal wallet.
Hypothesis balance_read : getBalance w (publicKey wallet) = Normal balance.
Hypothesis balance_enough : 1060000 + tip_due cfg <= balance.
Hypothesis quoted :
  axios_get_quote w SOL_MINT USDC_MINT 1000000 100 = Normal quote.

Lemma jupiterSwap_guard_passes s :
  checkBalanceForOperations cfg w wallet 1060000 (Some "Jupiter swap") s
  = (Normal true, s).
Proof.
  apply (checkBalance_passes cfg w wallet 1060000 _ balance s balance_read).
  rewrite total_required_tip_due by safe_cost. exact balance_enough.
Qed.

(** X11.  When the aggregator answers the second call without a payload,
    the swap ends normally with the one line "Swap error: No instructions
    received from Jupiter"; nothing is compiled or sent. *)
Theorem jupiterSwap_no_payload s :
  axios_post_swap_instructions w quote (publicKey wallet) = Normal None ->
  jupiterSwapSOLtoUSDC cfg w s
  = (Normal tt,
     logged s
       [error_line [Str "Swap error:";
                    Str "No instructions received from Jupiter"]]).
Proof.
  intros Hpost. unfold jupiterSwapSOLtoUSDC, loadWallet.
  change (LAMPORTS_PER_SOL / 1000) with 1000000.
  change (1000000 + 10000 + 50000) with 1060000.
  rewrite wallet_loaded, bind_await_normal.
  rewrite (bind_normal _ _ _ _ _ (jupiterSwap_guard_passes s)).
  cbn [negb]. unfold try_catch.
  rewrite quoted, bind_await_normal, Hpost, bind_await_normal.
  reflexivity.
Qed.

Variable response : SwapInstructions.

Hypothesis answered :
  axios_post_swap_instructions w quote (publicKey wallet)
  = Normal (Some response).

(** X12.  When a lookup table named by the aggregator cannot be fetched,
    the swap ends normally with the lines of its [catch] block for that
    error; nothing is compiled or sent, however many of the other tables
    were fetched. *)
Theorem jupiterSwap_table_failure s addresses e :
  addressLookupTableAddresses response = Some addresses ->
  (exists address,
     In address addresses /\ getAddressLookupTable w address = Throw e) ->
  (forall address e',
     In address addresses -> getAddressLookupTable w address = Throw e' ->
     e' = e) ->
  jupiterSwapSOLtoUSDC cfg w s
  = (Normal tt, logged s (swap_error_report e)).
Proof.
  intros Haddr Hraise Hsame. unfold jupiterSwapSOLtoUSDC, loadWallet.
  change (LAMPORTS_PER_SOL / 1000) with 1000000.
  change (1000000 + 10000 + 50000) with 1060000.
  rewrite wallet_loaded, bind_await_normal.
  rewrite (bind_normal _ _ _ _ _ (jupiterSwap_guard_passes s)).
  cbn [negb]. unfold try_catch.
  rewrite quoted, bind_await_normal, answered, bind_await_normal.
  rewrite Haddr.
  assert (Hload :
    match addresses with
    | [] => ret []
    | a :: rest => loadLookupTables w (a :: rest)
    end s = (Throw e, s)).
  { pose proof (loadLookupTables_raises w addresses e s Hraise Hsame) as H.
    destruct addresses; [|exact H].
    destruct Hraise as (? & [] & _). }
  rewrite (bind_throw _ _ _ _ _ Hload).
  swap_catch e.
Qed.

Hypothesis tables_found :
  forall address,
    In address (default [] (addressLookupTableAddresses response)) ->
    exists table, getAddressLookupTable w address = Normal table.

Variable blockhash : string.

Hypothesis blockhash_fetched : getLatestBlockhash w = Normal blockhash.

Local Abbreviation m := (swap_message cfg w wallet response blockhash).

Lemma swap_tables_loaded s :
  match addressLookupTableAddresses response with
  | Some (address :: rest) => loadLookupTables w (address :: rest)
  | _ => ret []
  end s = (Normal (looked_up w response), s).
Proof.
  unfold looked_up. pose proof tables_found as Hall.
  destruct (addressLookupTableAddresses response) as [[|address rest]|];
    try reflexivity.
  apply loadLookupTables_found. exact Hall.
Qed.

(** The script up to the compiled message: what is left is to submit it
    and to watch it, inside the [try] block. *)
Lemma jupiterSwap_compiled s :
  exists handler,
    (forall e s1, handler e s1 = (Normal tt, logged s1 (swap_error_report e)))
    /\ jupiterSwapSOLtoUSDC cfg w s
       = try_catch
           (signature <-
              sendTxWithRetries w (sign m wallet) default_maxAttempts ;;
            match signature with
            | Some signature =>
              result <-
                monitorTransactionStatus w signature default_maxWaitTime ;;
              match result with
              | Done (Some value) =>
                match err value with
                | Some e => console_error [Str "Swap failed:"; Str e]
                | None => ret tt
                end
              | _ => ret tt
              end
            | None => ret tt
            end)
           handler
           {| console := console s; built := built s ++ [m];
              sent := sent s; polls := polls s; clock := clock s |}.
Proof.
  unfold jupiterSwapSOLtoUSDC, loadWallet.
  change (LAMPORTS_PER_SOL / 1000) with 1000000.
  change (1000000 + 10000 + 50000) with 1060000.
  rewrite wallet_loaded, bind_await_normal.
  rewrite (bind_normal _ _ _ _ _ (jupiterSwap_guard_passes s)).
  cbn [negb].
  match goal with
  | |- context [try_catch _ ?h s] => exists h
  end.
  split; [intros e s1; swap_catch e|].
  unfold try_catch.
  rewrite quoted, bind_await_normal, answered, bind_await_normal.
  rewrite (bind_normal _ _ _ _ _ (swap_tables_loaded s)).
  rewrite blockhash_fetched, bind_await_normal.
  rewrite bind_compileToV0Message, swap_instructions_composed.
  reflexivity.
Qed.

(** X13.  With the quote, the swap instructions, the lookup tables and
    the blockhash at hand, the swap does go through and ends normally: it
    compiles the message made of the local compute budget (400000 units at
    50000), the aggregator's setup, swap and cleanup instructions and the
    tip, with the lookup tables that exist, in the order named, and hands
    it over between one and three times. *)
Theorem jupiterSwap_goes_through s :
  exists s',
    jupiterSwapSOLtoUSDC cfg w s = (Normal tt, s')
    /\ submitted s s' m wallet.
Proof.
  destruct (jupiterSwap_compiled s) as (handler & Hhandler & ->).
  match goal with
  | |- context [try_catch ?b _ ?s2] =>
    destruct (send_then_monitor_swap_bounded w (sign m wallet) s2)
      as (c & s' & n & Hrun & Hb & Hn & Hs)
  end.
  unfold try_catch. rewrite Hrun. cbn [built sent] in Hb, Hs.
  destruct c as [[]|e].
  - exists s'. split; [reflexivity|]. split; [exact Hb|]. eauto.
  - rewrite Hhandler. eexists. split; [reflexivity|]. unfold logged.
    split; [exact Hb|]. eauto.
Qed.

Variable signature : string.

(** The swap once its transaction is handed over: what is left is the
    polling, the line for a failed swap, and the [catch]. *)
Lemma jupiterSwap_after_submission s :
  sendRawTransaction w (length (sent s)) (sign m wallet) = Normal signature ->
  signature <> "" ->
  jupiterSwapSOLtoUSDC cfg w s
  = match monitorTransactionStatus w signature default_maxWaitTime
            (after_submission s m wallet) with
    | (Normal (Done (Some value)), s') =>
      match err value with
      | Some e => (Normal tt, logged s' [swap_failed_line e])
      | None => (Normal tt, s')
      end
    | (Normal _, s') => (Normal tt, s')
    | (Throw e, s') => (Normal tt, logged s' (swap_error_report e))
    end.
Proof.
  intros Hsend Hne.
  destruct (jupiterSwap_compiled s) as (handler & Hhandler & ->).
  unfold try_catch.
  match goal with
  | |- context [bind (sendTxWithRetries w _ _) _ ?s2] =>
    rewrite (bind_normal _ _ _ _ _
               (sendTxWithRetries_first_try w (sign m wallet) s2 signature
                  Hsend Hne))
  end.
  cbn [console built sent polls clock]. fold (after_submission s m wallet).
  unfold bind.
  destruct (monitorTransactionStatus w signature default_maxWaitTime
              (after_submission s m wallet)) as [[[[value|]|]|e] s'];
    try reflexivity.
  - destruct (err value); reflexivity.
  - apply Hhandler.
Qed.

(** X14.  When the status query raises after the swap was handed over,
    the swap does not raise: its [catch] writes the error as a "Swap
    error", as it does for an aggregator failure, although the transaction
    has been sent. *)
Theorem jupiterSwap_catches_after_submission s e :
  sendRawTransaction w (length (sent s)) (sign m wallet) = Normal signature ->
  signature <> "" ->
  getSignatureStatus w (polls s) signature = Throw e ->
  exists s',
    jupiterSwapSOLtoUSDC cfg w s = (Normal tt, s')
    /\ console s' = console s ++ swap_error_report e
    /\ built s' = built s ++ [m]
    /\ sent s' = sent s ++ [sign m wallet].
Proof.
  intros Hsend Hne Hq.
  rewrite (jupiterSwap_after_submission s Hsend Hne).
  destruct (monitor_first_query_raises w signature
              (after_submission s m wallet) e Hq)
    as (s' & -> & Hcon & Hb & Hs).
  eexists. split; [reflexivity|]. unfold logged. cbn.
  rewrite Hcon, Hb, Hs. auto.
Qed.

(** X15.  A swap that is confirmed with an error is reported: the one
    line "Swap failed:" with the error, after which the script ends
    normally. *)
Theorem jupiterSwap_reports_failed_swap s value e :
  sendRawTransaction w (length (sent s)) (sign m wallet) = Normal signature ->
  signature <> "" ->
  getSignatureStatus w (polls s) signature = Normal (Some value) ->
  is_confirmed (Some value) = true ->
  err value = Some e ->
  exists s',
    jupiterSwapSOLtoUSDC cfg w s = (Normal tt, s')
    /\ console s' = console s ++ [swap_failed_line e]
    /\ built s' = built s ++ [m]
    /\ sent s' = sent s ++ [sign m wallet].
Proof.
  intros Hsend Hne Hq Hc He.
  rewrite (jupiterSwap_after_submission s Hsend Hne).
  destruct (monitor_first_query_confirmed w signature
              (after_submission s m wallet) (Some value) Hq Hc)
    as (s' & -> & Hcon & Hb & Hs).
  rewrite He. eexists. split; [reflexivity|]. unfold logged. cbn.
  rewrite Hcon, Hb, Hs. auto.
Qed.

End SwapSteps.

Lemma jupiterSwap_no_payload_witness :
  jupiterSwapSOLtoUSDC (settings true)
    (aggregator (Normal quote0) (Normal None)) initial
  = (Normal tt,
     logged initial
       [error_line [Str "Swap error:";
                    Str "No instructions received from Jupiter"]]).
Proof.
  apply (jupiterSwap_no_payload (settings true)
           (aggregator (Normal quote0) (Normal None)) wallet0 10000000 quote0
           eq_refl eq_refl ltac:(vm_compute; discriminate) eq_refl initial
           eq_refl).
Defined.

Lemma jupiterSwap_table_failure_witness :
  jupiterSwapSOLtoUSDC (settings true) broken_table initial
  = (Normal tt, logged initial (swap_error_report rpc_down)).
Proof.
  apply (jupiterSwap_table_failure (settings true) broken_table wallet0
           10000000 quote0 eq_refl eq_refl ltac:(vm_compute; discriminate)
           eq_refl swap1 eq_refl initial ["table1"; "table2"] rpc_down
           eq_refl).
  - exists "table2". split; [right; left; reflexivity | reflexivity].
  - intros address e' _ H. unfold broken_table in H. cbn in H.
    destruct (String.eqb address "table1"); congruence.
Defined.

Lemma jupiterSwap_goes_through_witness :
  exists s',
    jupiterSwapSOLtoUSDC (settings true) one_table initial = (Normal tt, s')
    /\ submitted initial s'
         (swap_message (settings true) one_table wallet0 swap1 "blockhash")
         wallet0.
Proof.
  apply (jupiterSwap_goes_through (settings true) one_table wallet0 10000000
           quote0 eq_refl eq_refl ltac:(vm_compute; discriminate) eq_refl
           swap1 eq_refl).
  - intros address _. unfold one_table. cbn.
    destruct (String.eqb address "table1"); eexists; reflexivity.
  - reflexivity.
Defined.

(** The message of that run names the one table that exists. *)
Example swap_message_drops_missing_tables :
  lookupTables
    (swap_message (settings true) one_table wallet0 swap1 "blockhash")
  = [{| tableKey := "table2" |}].
Proof. reflexivity. Qed.

Lemma jupiterSwap_catches_after_submission_witness :
  let w := with_statuses (calm 10000000) (fun _ _ => Throw rpc_down) in
  let m := swap_message (settings true) w wallet0 swap0 "blockhash" in
  exists s',
    jupiterSwapSOLtoUSDC (settings true) w initial = (Normal tt, s')
    /\ console s' = console initial ++ swap_error_report rpc_down
    /\ built s' = built initial ++ [m]
    /\ sent s' = sent initial ++ [sign m wallet0].
Proof.
  intros w m.
  apply (jupiterSwap_catches_after_submission (settings true) w wallet0
           10000000 quote0 eq_refl eq_refl ltac:(vm_compute; discriminate)
           eq_refl swap0 eq_refl
           (fun address H => match H with end) "blockhash" eq_refl signature0
           initial rpc_down eq_refl ltac:(discriminate) eq_refl).
Defined.

Lemma jupiterSwap_reports_failed_swap_witness :
  let m := swap_message (settings true) reverted wallet0 swap0 "blockhash" in
  exists s',
    jupiterSwapSOLtoUSDC (settings true) reverted initial = (Normal tt, s')
    /\ console s' = console initial ++ [swap_failed_line "InstructionError"]
    /\ built s' = built initial ++ [m]
    /\ sent s' = sent initial ++ [sign m wallet0].
Proof.
  intros m.
  apply (jupiterSwap_reports_failed_swap (settings true) reverted wallet0
           10000000 quote0 eq_refl eq_refl ltac:(vm_compute; discriminate)
           eq_refl swap0 eq_refl
           (fun address H => match H with end) "blockhash" eq_refl signature0
           initial
           {| confirmationStatus := Some confirmed;
              err := Some "InstructionError" |}
           "InstructionError" eq_refl ltac:(discriminate) eq_refl eq_refl
           eq_refl).
Defined.

(** X16.  A failure of the aggregator that is neither a 429 nor a 400 --
    another HTTP status, or no answer at all -- gets no advice: the swap
    ends normally with the line "Swap error:", followed by "API Error:"
    when the answer has a body, and nothing is compiled or sent. *)
Theorem jupiterSwap_other_failures cfg w s wallet (balance : Z) e :
  readWallet w (WALLET_PATH cfg) = Normal wallet ->
  getBalance w (publicKey wallet) = Normal balance ->
  1060000 + tip_due cfg <= balance ->
  aggregator_fails w (publicKey wallet) e ->
  (forall r, error_response e = Some r -> status r <> 429 /\ status r <> 400) ->
  exists s',
    jupiterSwapSOLtoUSDC cfg w s = (Normal tt, s')
    /\ nothing_sent s s'
    /\ console s'
       = console s
         ++ error_line [Str "Swap error:"; Str (error_message e)]
            :: api_error_lines
                 match error_response e with
                 | Some r => data r
                 | None => None
                 end.
Proof.
  intros Hwallet Hbal Hge Hfail Hother.
  rewrite <- total_required_tip_due in Hge by safe_cost.
  destruct (jupiterSwap_aggregator_error cfg w s wallet balance e Hwallet
              Hbal Hge Hfail) as (s' & Hrun & Hno & Hcon).
  exists s'. split; [exact Hrun|]. split; [exact Hno|].
  rewrite Hcon. f_equal. unfold swap_error_report.
  destruct e as [msg|msg [r|]]; cbn; rewrite ?app_nil_r; try reflexivity.
  destruct (Hother r eq_refl) as [H429 H400].
  apply Z.eqb_neq in H429, H400. rewrite H429, H400, app_nil_r. reflexivity.
Qed.

Lemma jupiterSwap_other_failures_witness :
  exists s',
    jupiterSwapSOLtoUSDC (settings true)
      (aggregator
         (Throw (AxiosError "Request failed with status code 503"
                   (Some {| status := 503; data := Some "unavailable" |})))
         (Normal None))
      initial
    = (Normal tt, s')
    /\ nothing_sent initial s'
    /\ console s'
       = console initial
         ++ [error_line [Str "Swap error:";
                         Str "Request failed with status code 503"];
             error_line [Str "API Error:"; Str "unavailable"]].
Proof.
  apply (jupiterSwap_other_failures (settings true)
           (aggregator
              (Throw (AxiosError "Request failed with status code 503"
                        (Some {| status := 503;
                                 data := Some "unavailable" |})))
              (Normal None))
           initial wallet0 10000000
           (AxiosError "Request failed with status code 503"
              (Some {| status := 503; data := Some "unavailable" |}))
           eq_refl eq_refl ltac:(vm_compute; discriminate)
           (or_introl eq_refl)).
  intros r H. injection H as <-. split; discriminate.
Defined.

(** X17.  The swap raises to its caller only before its [try] block:
    when the wallet cannot be loaded or the balance cannot be read.  That
    error is the one raised, no diagnostic line ([console.warn],
    [console.error]) has been written, and nothing has been compiled or
    sent. *)
Theorem jupiterSwap_raises_only_early cfg w s e s' :
  jupiterSwapSOLtoUSDC cfg w s = (Throw e, s') ->
  s' = s
  /\ (readWallet w (WALLET_PATH cfg) = Throw e
      \/ exists wallet,
           readWallet w (WALLET_PATH cfg) = Normal wallet
           /\ getBalance w (publicKey wallet) = Throw e).
Proof.
  unfold jupiterSwapSOLtoUSDC, loadWallet.
  destruct (readWallet w (WALLET_PATH cfg)) as [wallet|e0] eqn:Hwallet.
  - rewrite bind_await_normal.
    destruct (getBalance w (publicKey wallet)) as [balance|e0] eqn:Hbal.
    + destruct (checkBalance_outcome cfg w wallet
                  (LAMPORTS_PER_SOL / 1000 + 10000 + 50000)
                  (Some "Jupiter swap") balance s Hbal)
        as (s0 & Hguard & _).
      rewrite (bind_normal _ _ _ _ _ Hguard).
      destruct (negb (negb _)); [discriminate|].
      unfold try_catch.
      match goal with
      | |- context [match ?b s0 with _ => _ end] =>
        destruct (b s0) as [[[]|e1] s1]; [discriminate|]
      end.
      intros H. exfalso. revert H.
      destruct e1 as [?|? [[? [?|]]|]]; cbn;
        repeat match goal with
               | |- context [if ?b then _ else _] => destruct b
               end; discriminate.
    + rewrite (bind_throw _ _ _ _ _
                 (checkBalance_throws cfg w wallet _ _ e0 s Hbal)).
      intros [= <- <-]. split; [reflexivity|]. right. eauto.
  - rewrite bind_await_throw. intros [= <- <-]. auto.
Qed.

Lemma jupiterSwap_raises_only_early_witness :
  initial = initial
  /\ (readWallet (without_wallet (calm 10000000) rpc_down)
        (WALLET_PATH (settings true)) = Throw rpc_down
      \/ exists wallet,
           readWallet (without_wallet (calm 10000000) rpc_down)
             (WALLET_PATH (settings true)) = Normal wallet
           /\ getBalance (without_wallet (calm 10000000) rpc_down)
                (publicKey wallet) = Throw rpc_down).
Proof.
  apply (jupiterSwap_raises_only_early (settings true)
           (without_wallet (calm 10000000) rpc_down) initial rpc_down initial
           eq_refl).
Defined.

(** ** The token transfer, step by step *)




Lemma Qltb_le x y : (y <= x)%Q -> Qltb x y = false.
Proof.
  intros Hle. unfold Qltb. apply negb_false_iff, Qle_bool_iff. exact Hle.
Qed.

Section TokenSteps.

Variable cfg : Config.
Variable w : World.
Variables recipientAddress tokenMintAddress : option string.
Variable amount : option Z.

Local Abbreviation recipient :=
  (default (DEFAULT_RECIPIENT cfg) (truthy recipientAddress)).
Local Abbreviation mint := (default USDC_MINT (truthy tokenMintAddress)).
Local Abbreviation displayAmount := (display_amount mint (default 1 amount)).

Variable wallet : Keypair.
Variable rata : PublicKey.
Variable info : option unit.
Variable balance : Z.

Local Abbreviation rent :=
  (match info with None => 2039280 | Some _ => 0 end).

Hypothesis wallet_loaded : readWallet w (WALLET_PATH cfg) = Normal wallet.
Hypothesis rata_derived :
  getAssociatedTokenAddress w mint recipient = Normal rata.
Hypothesis rata_looked_up : getAccountInfo w rata = Normal info.
Hypothesis balance_read : getBalance w (publicKey wallet) = Normal balance.

(** The lamports the script asks the guard for, and what the guard makes
    of them. *)
Lemma tokenTransfer_required :
  total_required cfg
    (5000 + (if negb (bool_decide (is_Some info)) then 2039280 else 0))
  = 5000 + rent + tip_due cfg.
Proof.
  rewrite total_required_tip_due by safe_cost.
  destruct info as [[]|]; reflexivity.
Qed.

(** Too few lamports: the guard's report, and nothing else. *)
Lemma tokenTransfer_insufficient_SOL s :
  balance < 5000 + rent + tip_due cfg ->
  tokenTransfer cfg w recipientAddress tokenMintAddress amount s
  = (Normal tt,
     logged s
       (insufficient_report cfg balance (5000 + rent + tip_due cfg)
          (Some "token transfer"))).
Proof.
  intros Hlt. unfold tokenTransfer, loadWallet.
  rewrite wallet_loaded, bind_await_normal.
  rewrite rata_derived, bind_await_normal.
  rewrite rata_looked_up, bind_await_normal.
  destruct (checkBalance_outcome cfg w wallet
              (5000 + (if negb (bool_decide (is_Some info))
                       then 2039280 else 0))
              (Some "token transfer") balance s balance_read)
    as (s0 & Hguard & Hb & Hs & Hp & Hc & Hcon).
  rewrite (bind_normal _ _ _ _ _ Hguard).
  rewrite tokenTransfer_required in Hcon |- *.
  apply Z.ltb_lt in Hlt. rewrite Hlt in Hcon |- *. cbn [negb].
  unfold ret, logged. f_equal. destruct s0; cbn in *. congruence.
Qed.

Hypothesis balance_enough : 5000 + rent + tip_due cfg <= balance.

Variable sata : PublicKey.

Hypothesis sata_derived :
  getAssociatedTokenAddress w mint (publicKey wallet) = Normal sata.

Lemma tokenTransfer_guard_passes s :
  checkBalanceForOperations cfg w wallet
    (5000 + (if negb (bool_decide (is_Some info)) then 2039280 else 0))
    (Some "token transfer") s
  = (Normal true, s).
Proof.
  apply (checkBalance_passes cfg w wallet _ _ balance s balance_read).
  rewrite tokenTransfer_required. exact balance_enough.
Qed.


Variable ui : option Q.

Hypothesis sata_looked_up : getAccountInfo w sata = Normal (Some tt).
Hypothesis tokens_read : getParsedAccountInfo w sata = Normal ui.

(** The script up to the comparison of the token balance. *)
Lemma tokenTransfer_at_token_check s :
  exists rest,
    tokenTransfer cfg w recipientAddress tokenMintAddress amount s
    = (if Qltb (default 0%Q ui) displayAmount
       then (Normal tt,
             logged s
               (insufficient_tokens_report mint (default 0%Q ui)
                  displayAmount))
       else rest s)
    /\ rest
       = (blockhash <- await (getLatestBlockhash w) ;;
          message <-
            compileToV0Message
              (token_message cfg wallet recipient mint rata sata
                 (negb (bool_decide (is_Some info))) (default 1 amount)
                 blockhash) ;;
          signature <-
            sendTxWithRetries w (sign message wallet) default_maxAttempts ;;
          match signature with
          | Some signature =>
            monitorTransactionStatus w signature default_maxWaitTime ;; ret tt
          | None => ret tt
          end).
Proof.
  eexists. split; [|reflexivity].
  unfold tokenTransfer, loadWallet.
  fold (display_amount mint (default 1 amount)).
  rewrite wallet_loaded, bind_await_normal.
  rewrite rata_derived, bind_await_normal.
  rewrite rata_looked_up, bind_await_normal.
  rewrite (bind_normal _ _ _ _ _ (tokenTransfer_guard_passes s)).
  cbn [negb].
  rewrite sata_derived, bind_await_normal.
  rewrite sata_looked_up, bind_await_normal.
  change (bool_decide (is_Some (Some ()))) with true. cbn [negb].
  rewrite tokens_read, bind_await_normal.
  destruct (Qltb (default 0%Q ui) displayAmount).
  - unfold logged, insufficient_tokens_report. cbn.
    rewrite <- !app_assoc. reflexivity.
  - rewrite addLightSpeedTip_suffix.
    unfold token_message, compiled, composed, token_core.
    destruct info as [[]|]; reflexivity.
Qed.


Variable blockhash : string.

Hypothesis blockhash_fetched : getLatestBlockhash w = Normal blockhash.

Local Abbreviation m :=
  (token_message cfg wallet recipient mint rata sata
     (negb (bool_decide (is_Some info))) (default 1 amount) blockhash).

(** Enough tokens: the message is compiled and handed over. *)
Lemma tokenTransfer_submits s :
  (displayAmount <= default 0 ui)%Q ->
  exists c s',
    tokenTransfer cfg w recipientAddress tokenMintAddress amount s = (c, s')
    /\ submitted s s' m wallet.
Proof.
  intros Hle. destruct (tokenTransfer_at_token_check s) as (rest & -> & ->).
  rewrite (Qltb_le _ _ Hle).
  rewrite blockhash_fetched, bind_await_normal, bind_compileToV0Message.
  match goal with
  | |- context [bind (sendTxWithRetries w ?tx _) _ ?s2] =>
    destruct (send_then_monitor_bounded w tx s2)
      as (c & s' & n & -> & Hb & Hn & Hs)
  end.
  exists c, s'. split; [reflexivity|]. split; [exact Hb|]. eauto.
Qed.

(** The token transfer once its transaction is handed over: what is left
    is the polling. *)
Lemma tokenTransfer_after_submission s signature :
  (displayAmount <= default 0 ui)%Q ->
  sendRawTransaction w (length (sent s)) (sign m wallet) = Normal signature ->
  signature <> "" ->
  tokenTransfer cfg w recipientAddress tokenMintAddress amount s
  = match monitorTransactionStatus w signature default_maxWaitTime
            (after_submission s m wallet) with
    | (Normal _, s') => (Normal tt, s')
    | (Throw e, s') => (Throw e, s')
    end.
Proof.
  intros Hle Hsend Hne.
  destruct (tokenTransfer_at_token_check s) as (rest & -> & ->).
  rewrite (Qltb_le _ _ Hle).
  rewrite blockhash_fetched, bind_await_normal, bind_compileToV0Message.
  match goal with
  | |- context [bind (sendTxWithRetries w _ _) _ ?s2] =>
    rewrite (bind_normal _ _ _ _ _
               (sendTxWithRetries_first_try w (sign m wallet) s2 signature
                  Hsend Hne))
  end.
  cbn [console built sent polls clock]. fold (after_submission s m wallet).
  unfold bind.
  destruct (monitorTransactionStatus w signature default_maxWaitTime
              (after_submission s m wallet)) as [[a|e] s']; reflexivity.
Qed.

End TokenSteps.




(** A mint other than USDC is taken as having no decimals: the ui
    balance is compared with the raw amount.  Five tokens of a
    nine-decimal mint do not pass for a transfer of 1000 raw units, a
    millionth of a token. *)
Example tokenTransfer_compares_raw_amount :
  (human_readable 1000 (decimals_of BONK_LIKE_MINT) <= 5)%Q
  /\ run (tokenTransfer (settings false) (holding 10000000 (Some 5%Q) true)
            None (Some BONK_LIKE_MINT) (Some 1000))
     = (Normal tt,
        {| console :=
             [error_line [Str "Error: Insufficient "; Str "tokens";
                          Str " balance"];
              error_line [Str "Have: "; Num 5; Str " "; Str "tokens"];
              error_line [Str "Need: "; Num (inject_Z 1000); Str " ";
                          Str "tokens"]];
           built := []; sent := []; polls := 0; clock := 0 |}).
Proof. split; [vm_compute; discriminate | vm_compute; reflexivity]. Qed.

(** C8.  In the token transfer, when the recipient's associated token
    account does not exist the lamports the balance guard requires include
    the account-creation rent of 2039280, and the message that is compiled
    and handed over has the account-creation instruction just before the
    token-transfer instruction; when the account exists the rent is not
    required and the message has no account-creation instruction. *)
Theorem tokenTransfer_account_creation
    cfg w recipientAddress tokenMintAddress amount s wallet rata info
    (balance : Z) :
  let recipient := default (DEFAULT_RECIPIENT cfg) (truthy recipientAddress) in
  let mint := default USDC_MINT (truthy tokenMintAddress) in
  let rent := match info with None => 2039280 | Some _ => 0 end in
  readWallet w (WALLET_PATH cfg) = Normal wallet ->
  getAssociatedTokenAddress w mint recipient = Normal rata ->
  getAccountInfo w rata = Normal info ->
  getBalance w (publicKey wallet) = Normal balance ->
  (balance < 5000 + rent + tip_due cfg ->
   tokenTransfer cfg w recipientAddress tokenMintAddress amount s
   = (Normal tt,
      logged s
        (insufficient_report cfg balance (5000 + rent + tip_due cfg)
           (Some "token transfer"))))
  /\ (forall sata (ui : option Q) blockhash,
        5000 + rent + tip_due cfg <= balance ->
        getAssociatedTokenAddress w mint (publicKey wallet) = Normal sata ->
        getAccountInfo w sata = Normal (Some tt) ->
        getParsedAccountInfo w sata = Normal ui ->
        exact_amount (default 1 amount) ->
        decimal15 (default 0%Q ui) ->
        (display_amount mint (default 1%Z amount) <= default 0 ui)%Q ->
        getLatestBlockhash w = Normal blockhash ->
        exists c s' m,
          tokenTransfer cfg w recipientAddress tokenMintAddress amount s
          = (c, s')
          /\ submitted s s' m wallet
          /\ take 2 (instructions m)
             = [setComputeUnitLimit 200000; setComputeUnitPrice 1000]
          /\ drop 2 (instructions m)
             = match info with
               | None =>
                 [createAssociatedTokenAccountInstruction
                    (publicKey wallet) rata recipient mint;
                  createTransferInstruction sata rata (publicKey wallet)
                    (default 1 amount)]
               | Some _ =>
                 [createTransferInstruction sata rata (publicKey wallet)
                    (default 1 amount)]
               end
               ++ tip_suffix cfg (publicKey wallet)).
Proof.
  intros recipient mint rent Hwallet Hrata Hinfo Hbal. split.
  - intros Hlt.
    apply (tokenTransfer_insufficient_SOL cfg w recipientAddress
             tokenMintAddress amount wallet rata info balance Hwallet Hrata
             Hinfo Hbal s Hlt).
  - intros sata ui blockhash Hge Hsata Hsinfo Hui _ _ Hle Hhash.
    destruct (tokenTransfer_submits cfg w recipientAddress tokenMintAddress
                amount wallet rata info balance Hwallet Hrata Hinfo Hbal Hge
                sata Hsata ui Hsinfo Hui blockhash Hhash s Hle)
      as (c & s' & Hrun & Hsub).
    eexists c, s', _. split; [exact Hrun|]. split; [exact Hsub|].
    unfold token_message, compiled, composed, token_core.
    cbn [instructions take drop].
    split; [reflexivity|]. destruct info as [[]|]; reflexivity.
Qed.

Lemma tokenTransfer_account_creation_witness :
  tokenTransfer (settings false) (holding 2000000 (Some 5%Q) false)
    None None None initial
  = (Normal tt,
     logged initial
       (insufficient_report (settings false) 2000000
          (5000 + 2039280 + tip_due (settings false))
          (Some "token transfer")))
  /\ exists c s' m,
       tokenTransfer (settings true) (holding 10000000 (Some 5%Q) false)
         None None None initial
       = (c, s')
       /\ submitted initial s' m wallet0
       /\ take 2 (instructions m)
          = [setComputeUnitLimit 200000; setComputeUnitPrice 1000]
       /\ drop 2 (instructions m)
          = [createAssociatedTokenAccountInstruction (publicKey wallet0)
               (String.append "ata:" PLACEHOLDER_RECIPIENT)
               PLACEHOLDER_RECIPIENT USDC_MINT;
             createTransferInstruction
               (String.append "ata:" (publicKey wallet0))
               (String.append "ata:" PLACEHOLDER_RECIPIENT)
               (publicKey wallet0) (default 1 None)]
            ++ tip_suffix (settings true) (publicKey wallet0).
Proof.
  split.
  - apply (proj1 (tokenTransfer_account_creation (settings false)
                    (holding 2000000 (Some 5%Q) false) None None None initial
                    wallet0 (String.append "ata:" PLACEHOLDER_RECIPIENT) None
                    2000000 eq_refl eq_refl eq_refl eq_refl)).
    vm_compute. reflexivity.
  - apply (proj2 (tokenTransfer_account_creation (settings true)
                    (holding 10000000 (Some 5%Q) false) None None None initial
                    wallet0 (String.append "ata:" PLACEHOLDER_RECIPIENT) None
                    10000000 eq_refl eq_refl eq_refl eq_refl)
             (String.append "ata:" (publicKey wallet0)) (Some 5%Q)
             "blockhash" ltac:(vm_compute; discriminate) eq_refl eq_refl
             eq_refl ltac:(split; vm_compute; congruence)
             ltac:(exists 5, 0%nat; split; vm_compute; reflexivity)
             ltac:(vm_compute; discriminate) eq_refl).
Defined.

(** ** The default recipient *)

(** C10.  With [DEFAULT_RECIPIENT] unset, loading the configuration does
    not fail for it: it fails exactly for want of one of the three
    required variables or on an endpoint the SDK does not take, and
    otherwise writes one warning and takes the fixed placeholder address,
    the wrapped-SOL mint, as the default recipient.  With that
    configuration [solTransfer] and [tokenTransfer] called without a
    recipient, when they go through, send to the placeholder: the message
    handed over moves the lamports to it, and the tokens to the token
    account derived from it. *)
Theorem default_recipient_placeholder w (env : gmap string string) s :
  env !! "DEFAULT_RECIPIENT" = None ->
  ((exists e s', load_config w env s = (Throw e, s'))
   <-> (getenv env "RPC_ENDPOINT" = None
        \/ getenv env "RPC_LIGHTSPEED_ENDPOINT" = None
        \/ getenv env "WALLET_PATH" = None
        \/ exists rpc lightspeed,
             getenv env "RPC_ENDPOINT" = Some rpc
             /\ getenv env "RPC_LIGHTSPEED_ENDPOINT" = Some lightspeed
             /\ (raises (newConnection w rpc)
                 \/ raises (newConnection w
                              (if eqb_opt (env !! "USE_LIGHTSPEED") "true"
                               then lightspeed else rpc)))))
  /\ (forall cfg s',
        load_config w env s = (Normal cfg, s') ->
        DEFAULT_RECIPIENT cfg = "So11111111111111111111111111111111111111112"
        /\ DEFAULT_RECIPIENT cfg = SOL_MINT
        /\ s' = {| console := console s ++ [placeholder_warning];
                   built := built s; sent := sent s; polls := polls s;
                   clock := clock s |}
        /\ (forall s0 wallet (balance : Z) blockhash,
              readWallet w (WALLET_PATH cfg) = Normal wallet ->
              getBalance w (publicKey wallet) = Normal balance ->
              1005000 + tip_due cfg <= balance ->
              getLatestBlockhash w = Normal blockhash ->
              exists c s1 m,
                solTransfer cfg w None s0 = (c, s1)
                /\ submitted s0 s1 m wallet
                /\ drop 2 (instructions m)
                   = SystemProgram_transfer (publicKey wallet)
                       PLACEHOLDER_RECIPIENT 1000000
                     :: tip_suffix cfg (publicKey wallet))
        /\ (forall tokenMintAddress amount s0 wallet rata info (balance : Z)
                   sata (ui : option Q) blockhash,
              let mint := default USDC_MINT (truthy tokenMintAddress) in
              readWallet w (WALLET_PATH cfg) = Normal wallet ->
              getAssociatedTokenAddress w mint PLACEHOLDER_RECIPIENT
              = Normal rata ->
              getAccountInfo w rata = Normal info ->
              getBalance w (publicKey wallet) = Normal balance ->
              5000 + match info with None => 2039280 | Some _ => 0 end
              + tip_due cfg <= balance ->
              getAssociatedTokenAddress w mint (publicKey wallet)
              = Normal sata ->
              getAccountInfo w sata = Normal (Some tt) ->
              getParsedAccountInfo w sata = Normal ui ->
              exact_amount (default 1 amount) ->
              decimal15 (default 0%Q ui) ->
              (display_amount mint (default 1%Z amount) <= default 0 ui)%Q ->
              getLatestBlockhash w = Normal blockhash ->
              exists c s1 m,
                tokenTransfer cfg w None tokenMintAddress amount s0 = (c, s1)
                /\ submitted s0 s1 m wallet
                /\ drop 2 (instructions m)
                   = match info with
                     | None =>
                       [createAssociatedTokenAccountInstruction
                          (publicKey wallet) rata PLACEHOLDER_RECIPIENT mint]
                     | Some _ => []
                     end
                     ++ createTransferInstruction sata rata (publicKey wallet)
                          (default 1 amount)
                        :: tip_suffix cfg (publicKey wallet))).
Proof.
  intros Hunset. apply getenv_unset in Hunset.
  destruct (getenv env "RPC_ENDPOINT") as [rpc|] eqn:Hrpc.
  2:{ split.
      - split; [auto|]. intros _. unfold load_config. rewrite Hrpc.
        eexists _, _. reflexivity.
      - intros cfg s' Hrun. unfold load_config in Hrun.
        rewrite Hrpc in Hrun. discriminate. }
  destruct (getenv env "RPC_LIGHTSPEED_ENDPOINT") as [ls|] eqn:Hls.
  2:{ split.
      - split; [auto|]. intros _. unfold load_config. rewrite Hrpc, Hls.
        eexists _, _. reflexivity.
      - intros cfg s' Hrun. unfold load_config in Hrun.
        rewrite Hrpc, Hls in Hrun. discriminate. }
  destruct (getenv env "WALLET_PATH") as [wp|] eqn:Hwp.
  2:{ split.
      - split; [auto|]. intros _. unfold load_config. rewrite Hrpc, Hls, Hwp.
        eexists _, _. reflexivity.
      - intros cfg s' Hrun. unfold load_config in Hrun.
        rewrite Hrpc, Hls, Hwp in Hrun. discriminate. }
  rewrite (load_config_unfold w env s rpc ls wp Hrpc Hls Hwp). cbv zeta.
  rewrite Hunset. rewrite bool_decide_eq_true_2 by reflexivity.
  change (selectedEndpoint (config_from w env rpc ls wp))
    with (if eqb_opt (env !! "USE_LIGHTSPEED") "true" then ls else rpc).
  split.
  - split.
    + intros (e & s' & Hrun). right. right. right. exists rpc, ls.
      split; [reflexivity|]. split; [reflexivity|].
      destruct (newConnection w rpc) as [[]|e1]; [|left; eexists; eauto].
      destruct (newConnection w _) as [[]|e2]; [discriminate|].
      right. eexists. eauto.
    + intros [H|[H|[H|(rpc' & ls' & Hr & Hl & Hraise)]]]; try discriminate.
      injection Hr as <-. injection Hl as <-.
      destruct Hraise as [[e ->]|[e He]]; [eexists _, _; reflexivity|].
      destruct (newConnection w rpc) as [[]|e1]; [|eexists _, _; reflexivity].
      rewrite He. eexists _, _. reflexivity.
  - intros cfg s' Hrun.
    destruct (newConnection w rpc) as [[]|e1]; [|discriminate].
    destruct (newConnection w _) as [[]|e2]; [|discriminate].
    injection Hrun as <- <-.
    assert (Hdefault : DEFAULT_RECIPIENT (config_from w env rpc ls wp)
                       = PLACEHOLDER_RECIPIENT).
    { cbn. rewrite Hunset. reflexivity. }
    split; [exact Hdefault|]. split; [exact Hdefault|].
    split; [reflexivity|]. split.
    + intros s0 wallet balance blockhash Hwallet Hbal Hge Hhash.
      destruct (solTransfer_submits (config_from w env rpc ls wp) w None s0
                  wallet balance blockhash Hwallet Hbal Hge Hhash)
        as (c & s1 & Hsol & Hsub).
      eexists c, s1, _. split; [exact Hsol|]. split; [exact Hsub|].
      cbn [truthy default]. rewrite Hdefault. reflexivity.
    + intros tokenMintAddress amount s0 wallet rata info balance sata ui
        blockhash Hwallet Hrata Hinfo Hbal Hge Hsata Hsinfo Hui _ _ Hle
        Hhash.
      assert (Hrata' :
        getAssociatedTokenAddress w (default USDC_MINT (truthy tokenMintAddress))
          (default (DEFAULT_RECIPIENT (config_from w env rpc ls wp))
             (truthy None))
        = Normal rata).
      { cbn [truthy default]. rewrite Hdefault. exact Hrata. }
      destruct (tokenTransfer_submits (config_from w env rpc ls wp) w None
                  tokenMintAddress amount wallet rata info balance Hwallet
                  Hrata' Hinfo Hbal Hge sata Hsata ui Hsinfo Hui blockhash
                  Hhash s0 Hle)
        as (c & s1 & Htok & Hsub).
      eexists c, s1, _. split; [exact Htok|]. split; [exact Hsub|].
      cbn [truthy default]. rewrite Hdefault.
      unfold token_message, compiled, composed, token_core.
      cbn [instructions drop]. destruct info as [[]|]; reflexivity.
Qed.

Lemma default_recipient_placeholder_witness :
  DEFAULT_RECIPIENT (settings false)
  = "So11111111111111111111111111111111111111112"
  /\ (exists c s1 m,
        solTransfer (settings false) (calm 10000000) None initial = (c, s1)
        /\ submitted initial s1 m wallet0
        /\ drop 2 (instructions m)
           = SystemProgram_transfer (publicKey wallet0) PLACEHOLDER_RECIPIENT
               1000000
             :: tip_suffix (settings false) (publicKey wallet0))
  /\ (exists c s1 m,
        tokenTransfer (settings false) (calm 10000000) None None None initial
        = (c, s1)
        /\ submitted initial s1 m wallet0
        /\ drop 2 (instructions m)
           = [] ++ createTransferInstruction
                     (String.append "ata:" (publicKey wallet0))
                     (String.append "ata:" PLACEHOLDER_RECIPIENT)
                     (publicKey wallet0) (default 1 None)
                   :: tip_suffix (settings false) (publicKey wallet0)).
Proof.
  destruct (proj2 (default_recipient_placeholder (calm 10000000) env0 initial
                     eq_refl)
              (settings false)
              {| console := [placeholder_warning]; built := []; sent := [];
                 polls := 0; clock := 0 |} eq_refl)
    as (Hdefault & _ & _ & Hsol & Htok).
  split; [exact Hdefault|]. split.
  - apply (Hsol initial wallet0 10000000 "blockhash" eq_refl eq_refl
             ltac:(vm_compute; discriminate) eq_refl).
  - apply (Htok None None initial wallet0
             (String.append "ata:" PLACEHOLDER_RECIPIENT) (Some tt) 10000000
             (String.append "ata:" (publicKey wallet0)) (Some 5%Q) "blockhash"
             eq_refl eq_refl eq_refl eq_refl ltac:(vm_compute; discriminate)
             eq_refl eq_refl eq_refl ltac:(split; vm_compute; congruence)
             ltac:(exists 5, 0%nat; split; vm_compute; reflexivity)
             ltac:(vm_compute; discriminate) eq_refl).
Defined.

(** ** index.ts: [main] *)

Lemma main_handler_logs e s :
  console_error [Str "Error in main execution:"; Obj e] s
  = (Normal tt, logged s [main_error_line e]).
Proof. reflexivity. Qed.

(** X20.  [main] never raises: whatever the wallet file, the node and
    the endpoint do, it ends normally, having compiled and sent nothing
    or compiled one message and handed the one signed transaction over
    between one and three times. *)
Theorem main_never_raises cfg w s :
  exists s',
    main cfg w s = (Normal tt, s')
    /\ (nothing_sent s s' \/ exists wallet m, submitted s s' m wallet).
Proof.
  unfold main, loadWallet, try_catch.
  destruct (readWallet w (WALLET_PATH cfg)) as [wallet|e].
  2:{ rewrite bind_await_throw, main_handler_logs. eexists.
      split; [reflexivity|]. left. split; reflexivity. }
  rewrite bind_await_normal.
  destruct (getBalance w (publicKey wallet)) as [balance|e].
  2:{ rewrite bind_await_throw, main_handler_logs. eexists.
      split; [reflexivity|]. left. split; reflexivity. }
  rewrite bind_await_normal.
  destruct (tokenTransfer_submits_once cfg w None None None s)
    as (c & s' & -> & Hpost).
  destruct c as [[]|e].
  - exists s'. auto.
  - rewrite main_handler_logs. eexists. split; [reflexivity|].
    destruct Hpost as [Hno|(wallet' & m & Hb & Hs)].
    + left. exact Hno.
    + right. exists wallet', m. split; [exact Hb | exact Hs].
Qed.

(** X21.  When the wallet cannot be loaded or the first balance query
    raises, [main] writes the one line "Error in main execution:" with
    that error, does not start the transfer, and ends normally. *)
Theorem main_reports_early_failures cfg w s e :
  readWallet w (WALLET_PATH cfg) = Throw e
  \/ (exists wallet,
        readWallet w (WALLET_PATH cfg) = Normal wallet
        /\ getBalance w (publicKey wallet) = Throw e) ->
  main cfg w s = (Normal tt, logged s [main_error_line e]).
Proof.
  unfold main, loadWallet, try_catch.
  intros [Hwallet|(wallet & Hwallet & Hbal)]; rewrite Hwallet.
  - rewrite bind_await_throw. apply main_handler_logs.
  - rewrite bind_await_normal, Hbal, bind_await_throw.
    apply main_handler_logs.
Qed.

Lemma main_reports_early_failures_witness :
  main (settings true) (without_balance (calm 10000000) rpc_down) initial
  = (Normal tt, logged initial [main_error_line rpc_down]).
Proof.
  apply (main_reports_early_failures (settings true)
           (without_balance (calm 10000000) rpc_down) initial rpc_down).
  right. exists wallet0. split; reflexivity.
Defined.

(** X22.  [main] runs the token transfer with every argument left out:
    one raw unit of USDC to the configured recipient.  When the status
    query raises after that transfer was handed over, [main] catches the
    error and writes "Error in main execution:", although the transaction
    has been sent. *)
Theorem main_reports_late_failure
    cfg w s wallet rata sata info (balance : Z) ui blockhash signature e :
  let m :=
    token_message cfg wallet (DEFAULT_RECIPIENT cfg) USDC_MINT rata sata
      (negb (bool_decide (is_Some info))) 1 blockhash in
  readWallet w (WALLET_PATH cfg) = Normal wallet ->
  getAssociatedTokenAddress w USDC_MINT (DEFAULT_RECIPIENT cfg)
  = Normal rata ->
  getAccountInfo w rata = Normal info ->
  getBalance w (publicKey wallet) = Normal balance ->
  5000 + match info with None => 2039280 | Some _ => 0 end + tip_due cfg
  <= balance ->
  getAssociatedTokenAddress w USDC_MINT (publicKey wallet) = Normal sata ->
  getAccountInfo w sata = Normal (Some tt) ->
  getParsedAccountInfo w sata = Normal ui ->
  (display_amount USDC_MINT 1 <= default 0 ui)%Q ->
  getLatestBlockhash w = Normal blockhash ->
  sendRawTransaction w (length (sent s)) (sign m wallet) = Normal signature ->
  signature <> "" ->
  getSignatureStatus w (polls s) signature = Throw e ->
  exists s',
    main cfg w s = (Normal tt, s')
    /\ console s' = console s ++ [main_error_line e]
    /\ built s' = built s ++ [m]
    /\ sent s' = sent s ++ [sign m wallet].
Proof.
  intros m Hwallet Hrata Hinfo Hbal Hge Hsata Hsinfo Hui Hle Hhash Hsend Hne
    Hq.
  unfold main, loadWallet, try_catch.
  rewrite Hwallet, bind_await_normal, Hbal, bind_await_normal.
  rewrite (tokenTransfer_after_submission cfg w None None None wallet rata
             info balance Hwallet Hrata Hinfo Hbal Hge sata Hsata ui Hsinfo
             Hui blockhash Hhash s signature Hle Hsend Hne).
  destruct (monitor_first_query_raises w signature
              (after_submission s m wallet) e Hq)
    as (s' & Hmon & Hcon & Hb & Hs).
  change (default 1 None) with 1.
  change (default (DEFAULT_RECIPIENT cfg) (truthy None))
    with (DEFAULT_RECIPIENT cfg).
  change (default USDC_MINT (truthy None)) with USDC_MINT.
  fold m. rewrite Hmon, main_handler_logs.
  eexists. split; [reflexivity|]. unfold logged. cbn.
  rewrite Hcon, Hb, Hs. auto.
Qed.

Lemma main_reports_late_failure_witness :
  let w := with_statuses (calm 10000000) (fun _ _ => Throw rpc_down) in
  let m :=
    token_message (settings true) wallet0 PLACEHOLDER_RECIPIENT USDC_MINT
      (String.append "ata:" PLACEHOLDER_RECIPIENT)
      (String.append "ata:" (publicKey wallet0)) false 1 "blockhash" in
  exists s',
    main (settings true) w initial = (Normal tt, s')
    /\ console s' = console initial ++ [main_error_line rpc_down]
    /\ built s' = built initial ++ [m]
    /\ sent s' = sent initial ++ [sign m wallet0].
Proof.
  intros w m.
  apply (main_reports_late_failure (settings true) w initial wallet0
           (String.append "ata:" PLACEHOLDER_RECIPIENT)
           (String.append "ata:" (publicKey wallet0)) (Some tt) 10000000
           (Some 5%Q) "blockhash" signature0 rpc_down
           eq_refl eq_refl eq_refl eq_refl ltac:(vm_compute; discriminate)
           eq_refl eq_refl eq_refl ltac:(vm_compute; discriminate) eq_refl
           eq_refl ltac:(discriminate) eq_refl).
Defined.

(** ** examples.ts: the second script *)

Section Example2.

Variable cfg : Config.
Variable w : World.
Variable newPublicKey : string -> Completion PublicKey.
Variable wallet : Keypair.

Hypothesis wallet_loaded : readWallet w (WALLET_PATH cfg) = Normal wallet.

(** X23.  As long as one of the two texts the script is shipped with is
    not a key, the script raises the constructor's error as soon as the
    wallet is loaded, whatever the node would answer: no diagnostic line
    ([console.warn], [console.error]) is written and nothing is compiled
    or sent. *)
Theorem example2_rejects_bad_keys s e :
  newPublicKey "RECIPIENT_PUBLIC_KEY" = Throw e
  \/ (exists recipient,
        newPublicKey "RECIPIENT_PUBLIC_KEY" = Normal recipient
        /\ newPublicKey "TOKEN_MINT_ADDRESS" = Throw e) ->
  example2_tokenTransfer cfg w newPublicKey s = (Throw e, s).
Proof.
  unfold example2_tokenTransfer, loadWallet.
  rewrite wallet_loaded, bind_await_normal.
  intros [Hr|(recipient & Hr & Hm)]; rewrite Hr.
  - apply bind_await_throw.
  - rewrite bind_await_normal, Hm. apply bind_await_throw.
Qed.

End Example2.

Lemma example2_rejects_bad_keys_witness :
  example2_tokenTransfer (settings true) (calm 10000000) no_key initial
  = (Throw (JsError "Invalid public key input"), initial).
Proof.
  apply (example2_rejects_bad_keys (settings true) (calm 10000000) no_key
           wallet0 eq_refl initial (JsError "Invalid public key input")).
  left. reflexivity.
Defined.

(** ** The lamports a native transfer moves *)

Lemma lamports_moved_app l1 l2 :
  lamports_moved (l1 ++ l2) = lamports_moved l1 + lamports_moved l2.
Proof.
  induction l1 as [|i l1 IH]; [reflexivity|].
  destruct i; cbn [app lamports_moved]; rewrite IH; lia.
Qed.

Lemma lamports_moved_tip cfg payer :
  lamports_moved (tip_suffix cfg payer) = tip_due cfg.
Proof. unfold tip_suffix, tip_due. destruct (USE_LIGHTSPEED cfg); reflexivity. Qed.

(** X26.  Whenever the native transfer compiles a message, the lamports
    its instructions move are the 1000000 of the transfer and the tip when
    tipping is enabled, and the balance the guard read covered them and the
    fee of 5000. *)
Theorem solTransfer_balance_covers_message cfg w recipientAddress s :
  exists c s',
    solTransfer cfg w recipientAddress s = (c, s')
    /\ (nothing_sent s s'
        \/ exists wallet balance m,
             getBalance w (publicKey wallet) = Normal balance
             /\ built s' = built s ++ [m]
             /\ lamports_moved (instructions m) = 1000000 + tip_due cfg
             /\ lamports_moved (instructions m) + 5000 <= balance).
Proof.
  destruct (solTransfer_runs cfg w recipientAddress s)
    as (c & s' & Hrun & [Hno|(wallet & balance & blockhash & _ & Hbal & Hge
                              & Hb & _)]);
    exists c, s'; (split; [exact Hrun|]); [left; exact Hno|].
  right. eexists wallet, balance, _. split; [exact Hbal|].
  split; [exact Hb|].
  assert (Hmoved :
    lamports_moved
      (composed cfg (publicKey wallet) 200000 1000
         (native_core (publicKey wallet)
            (default (DEFAULT_RECIPIENT cfg) (truthy recipientAddress))))
    = 1000000 + tip_due cfg).
  { unfold composed, native_core. cbn [lamports_moved app].
    rewrite lamports_moved_tip. reflexivity. }
  cbn [instructions compiled]. rewrite Hmoved.
  rewrite total_required_tip_due in Hge by safe_cost. split; [reflexivity | lia].
Qed.
